(** * SupaSlurm: submission scripts, submission and job tracking

    A shallow embedding of [supa_slurm.py]: the configuration object
    ([SlurmConfig]), the job manager ([Slurm]) and the job handle
    ([SlurmJob]), together with the parts of the Python run time they rely
    on (integer and string conversions, [range], [datetime.timedelta],
    [re.search] for the one pattern the program uses).

    Conventions.
    - A [str] is a [string]; its characters are code points below 256.
    - Python values that reach the program are the constructors of
      [Py.value]; floats other than the result of [total_seconds], tuples
      and nested containers are outside the model.
    - A call that can raise returns an [Py.outcome]; a method that can
      raise after it has mutated [self] returns the outcome together with
      the state reached.
    - Keyword names given to [SlurmConfig] and to [add_arguments] are
      names of directives ([directive_name]); names of members of the
      configuration object itself ([_args], [_commands], the methods)
      are outside the model, and the statements about keywords say so.
    - [Slurm.__repr__], [SlurmJob.__str__], [SlurmJob.__repr__] and the
      command-line entry point are left out; the loop of
      [hold_for_completion] is modelled with a bound on its turns. *)

From Stdlib Require Import ZArith QArith String Ascii List Bool Lia Sorted.
From Stdlib Require Import Decimal DecimalString DecimalZ DecimalPos.
Import ListNotations.

#[local] Open Scope string_scope.
#[local] Open Scope Z_scope.

(** ** The Python run time *)

Module Py.

Inductive exn : Type :=
| TypeError
| ValueError
| IndexError
| AttributeError
| OverflowError
| OSError
| FileNotFoundError
| UnicodeDecodeError
| CalledProcessError (returncode : Z).

Inductive outcome (A : Type) : Type :=
| Returned (a : A)
| Raised (e : exn).
Arguments Returned {A} a.
Arguments Raised {A} e.

Definition obind {A B} (x : outcome A) (k : A -> outcome B) : outcome B :=
  match x with
  | Returned a => k a
  | Raised e => Raised e
  end.

Fixpoint omap {A B} (f : A -> outcome B) (l : list A) : outcome (list B) :=
  match l with
  | [] => Returned []
  | x :: r =>
      obind (f x) (fun y => obind (omap f r) (fun ys => Returned (y :: ys)))
  end.

(** *** Characters and strings *)

Definition nl : string := String (ascii_of_nat 10) "".

Definition is_digit (c : ascii) : bool :=
  match c with
  | "0" | "1" | "2" | "3" | "4" | "5" | "6" | "7" | "8" | "9" => true
  | _ => false
  end%char.

(** [str.isspace] on one character (code points below 256). *)
Definition is_space (c : ascii) : bool :=
  let n := nat_of_ascii c in
  (((9 <=? n) && (n <=? 13)) || ((28 <=? n) && (n <=? 32))
   || (n =? 133) || (n =? 160))%nat.

Fixpoint lstrip (s : string) : string :=
  match s with
  | String c r => if is_space c then lstrip r else s
  | "" => ""
  end.

Fixpoint rstrip (s : string) : string :=
  match s with
  | String c r =>
      match rstrip r with
      | "" => if is_space c then "" else String c ""
      | r' => String c r'
      end
  | "" => ""
  end.

(** [s.strip()] *)
Definition strip (s : string) : string := rstrip (lstrip s).

(** [s.split(sep)] for a one-character separator. *)
Fixpoint split_char (sep : ascii) (s : string) : list string :=
  match s with
  | "" => [""]
  | String c r =>
      if Ascii.eqb c sep then "" :: split_char sep r
      else match split_char sep r with
           | h :: t => String c h :: t
           | [] => [String c ""]
           end
  end.

(** [s.split(sep, 1)] for a one-character separator. *)
Fixpoint split_once (sep : ascii) (s : string) : list string :=
  match s with
  | "" => [""]
  | String c r =>
      if Ascii.eqb c sep then [""; r]
      else match split_once sep r with
           | h :: t => String c h :: t
           | [] => [String c ""]
           end
  end.

(** [s.replace(a, b)] for one-character [a] and [b]. *)
Fixpoint replace_char (a b : ascii) (s : string) : string :=
  match s with
  | "" => ""
  | String c r => String (if Ascii.eqb c a then b else c) (replace_char a b r)
  end.

Fixpoint starts_with (p s : string) : bool :=
  match p, s with
  | "", _ => true
  | String a p', String b s' => Ascii.eqb a b && starts_with p' s'
  | String _ _, "" => false
  end.

Fixpoint drop (n : nat) (s : string) : string :=
  match n, s with
  | O, _ => s
  | S n', String _ r => drop n' r
  | S _, "" => ""
  end.

Fixpoint take_digits (s : string) : string :=
  match s with
  | String c r => if is_digit c then String c (take_digits r) else ""
  | "" => ""
  end.

(** *** Integers and text *)

(** [str(z)] *)
Definition str_of_Z (z : Z) : string := NilZero.string_of_int (Z.to_int z).

Fixpoint zeros (n : nat) : string :=
  match n with
  | O => ""
  | S n' => String "0" (zeros n')
  end.

(** [format(z, '0w')], also ['%0wd' % z]: zeros go between sign and digits. *)
Definition format_zero (w : nat) (z : Z) : string :=
  if z <? 0 then
    let d := str_of_Z (- z) in
    String "-" (zeros (w - 1 - String.length d) ++ d)
  else
    let d := str_of_Z z in
    zeros (w - String.length d) ++ d.

(** The digits of an integer literal, with single underscores allowed
    between digits. *)
Fixpoint literal (s : string) : option uint :=
  match s with
  | "" => Some Nil
  | String c r =>
      if Ascii.eqb c "_" then
        match r with
        | String d _ => if is_digit d then literal r else None
        | "" => None
        end
      else uint_of_char c (literal r)
  end.

(** The white space that [int] skips around a literal: that of
    [str.isspace] without the separators U+001C to U+001F. *)
Definition is_int_space (c : ascii) : bool :=
  let n := nat_of_ascii c in
  (((9 <=? n) && (n <=? 13)) || (n =? 32) || (n =? 133) || (n =? 160))%nat.

Fixpoint int_lstrip (s : string) : string :=
  match s with
  | String c r => if is_int_space c then int_lstrip r else s
  | "" => ""
  end.

Fixpoint int_rstrip (s : string) : string :=
  match s with
  | String c r =>
      match int_rstrip r with
      | "" => if is_int_space c then "" else String c ""
      | r' => String c r'
      end
  | "" => ""
  end.

Definition int_strip (s : string) : string := int_rstrip (int_lstrip s).

(** [int(s)] for a [str], base ten. *)
Definition int_of_str (s : string) : outcome Z :=
  let t := int_strip s in
  let '(neg, body) :=
    match t with
    | String c r =>
        if Ascii.eqb c "-" then (true, r)
        else if Ascii.eqb c "+" then (false, r)
        else (false, t)
    | "" => (false, t)
    end in
  match body with
  | String c _ =>
      if is_digit c then
        match literal body with
        | Some u => Returned (if neg then - Z.of_uint u else Z.of_uint u)
        | None => Raised ValueError
        end
      else Raised ValueError
  | "" => Raised ValueError
  end.

(** *** Floats, as far as [total_seconds] needs them

    A finite binary64 is a rational; [int / int] is the rational nearest to
    the exact quotient among those with a 53-bit significand (ties to the
    even significand).  The quotients computed here stay far inside the
    normal range, so neither overflow nor subnormals are modelled. *)

Definition round_half_even (n d : Z) : Z :=
  let q := n / d in
  match 2 * (n mod d) ?= d with
  | Lt => q
  | Gt => q + 1
  | Eq => if Z.even q then q else q + 1
  end.

(** The [k] with [2^k <= n/d < 2^(k+1)], for positive [n] and [d]. *)
Definition binade (n d : Z) : Z :=
  if d <=? n then Z.log2 (n / d) else - Z.log2_up ((d + n - 1) / n).

Definition true_div (a b : Z) : Q :=
  if a =? 0 then 0%Q
  else
    let n := Z.abs a in
    let e := binade n b - 52 in
    let v :=
      if 0 <=? e then inject_Z (round_half_even n (b * 2 ^ e) * 2 ^ e)
      else Qmake (round_half_even (n * 2 ^ (- e)) b) (Z.to_pos (2 ^ (- e))) in
    if a <? 0 then Qopp v else v.

(** [int(x)] for a float: truncation toward zero. *)
Definition int_of_float (x : Q) : Z := Z.quot (Qnum x) (Zpos (Qden x)).

(** *** [datetime.timedelta] *)

Record timedelta : Type := {
  days : Z;
  seconds : Z;
  microseconds : Z
}.

(** What the constructor of [timedelta] guarantees. *)
Definition normalized (d : timedelta) : Prop :=
  - 999999999 <= days d <= 999999999
  /\ 0 <= seconds d < 86400
  /\ 0 <= microseconds d < 1000000.

Definition total_seconds (d : timedelta) : Q :=
  true_div ((days d * 86400 + seconds d) * 10 ^ 6 + microseconds d) (10 ^ 6).

Definition str_of_timedelta (d : timedelta) : string :=
  let mm := seconds d / 60 in
  let ss := seconds d mod 60 in
  let hh := mm / 60 in
  let mm := mm mod 60 in
  let s := str_of_Z hh ++ ":" ++ format_zero 2 mm ++ ":" ++ format_zero 2 ss in
  let s :=
    if days d =? 0 then s
    else str_of_Z (days d) ++ " day"
         ++ (if Z.abs (days d) =? 1 then "" else "s") ++ ", " ++ s in
  if microseconds d =? 0 then s
  else s ++ "." ++ format_zero 6 (microseconds d).

(** *** Values *)

Inductive value : Type :=
| VNone
| VBool (b : bool)
| VInt (z : Z)
| VStr (s : string)
| VTimedelta (d : timedelta)
| VRange (start stop step : Z)
| VList (l : list Z).

Definition dict : Type := list (string * value).

(** [len(range(start, stop, step))] *)
Definition range_len (start stop step : Z) : Z :=
  if 0 <? step then
    if start <? stop then (stop - start - 1) / step + 1 else 0
  else if step <? 0 then
    if stop <? start then (start - stop - 1) / (- step) + 1 else 0
  else 0.

Definition range_items (start stop step : Z) : list Z :=
  map (fun i => start + Z.of_nat i * step)
      (seq 0 (Z.to_nat (range_len start stop step))).

Fixpoint join (sep : string) (l : list string) : string :=
  match l with
  | [] => ""
  | [x] => x
  | x :: r => x ++ sep ++ join sep r
  end.

(** [str(v)], which is also what an f-string substitutes for [{v}]. *)
Definition str (v : value) : string :=
  match v with
  | VNone => "None"
  | VBool true => "True"
  | VBool false => "False"
  | VInt z => str_of_Z z
  | VStr s => s
  | VTimedelta d => str_of_timedelta d
  | VRange a b st =>
      if st =? 1 then "range(" ++ str_of_Z a ++ ", " ++ str_of_Z b ++ ")"
      else "range(" ++ str_of_Z a ++ ", " ++ str_of_Z b ++ ", "
           ++ str_of_Z st ++ ")"
  | VList l => "[" ++ join ", " (map str_of_Z l) ++ "]"
  end.

(** [bool(v)] *)
Definition truthy (v : value) : bool :=
  match v with
  | VNone => false
  | VBool b => b
  | VInt z => negb (z =? 0)
  | VStr s => negb (String.eqb s "")
  | VTimedelta d =>
      negb ((days d =? 0) && (seconds d =? 0) && (microseconds d =? 0))
  | VRange a b st => 0 <? range_len a b st
  | VList l => match l with [] => false | _ => true end
  end.

(** [int(v)] *)
Definition int (v : value) : outcome Z :=
  match v with
  | VInt z => Returned z
  | VBool b => Returned (Z.b2z b)
  | VStr s => int_of_str s
  | _ => Raised TypeError
  end.

Fixpoint chars (s : string) : list string :=
  match s with
  | "" => []
  | String c r => String c "" :: chars r
  end.

(** [v[i]] *)
Definition getitem (v : value) (i : Z) : outcome value :=
  let at_index {A} (l : list A) (wrap : A -> value) :=
    let n := Z.of_nat (List.length l) in
    let k := if i <? 0 then i + n else i in
    if (0 <=? k) && (k <? n) then
      match nth_error l (Z.to_nat k) with
      | Some x => Returned (wrap x)
      | None => Raised IndexError
      end
    else Raised IndexError in
  match v with
  | VRange a b st =>
      let n := range_len a b st in
      let k := if i <? 0 then i + n else i in
      if (0 <=? k) && (k <? n) then Returned (VInt (a + k * st))
      else Raised IndexError
  | VList l => at_index l VInt
  | VStr s => at_index (chars s) VStr
  | _ => Raised TypeError
  end.

(** The values a [for] loop over [v] visits. *)
Definition iterate (v : value) : outcome (list value) :=
  match v with
  | VRange a b st => Returned (map VInt (range_items a b st))
  | VList l => Returned (map VInt l)
  | VStr s => Returned (map VStr (chars s))
  | _ => Raised TypeError
  end.

(** *** Ordered dictionaries *)

Fixpoint dict_get {V} (k : string) (d : list (string * V)) : option V :=
  match d with
  | [] => None
  | (k', v) :: r => if String.eqb k k' then Some v else dict_get k r
  end.

(** [d[k] = v]: an existing key keeps its position. *)
Fixpoint dict_set {V} (k : string) (v : V) (d : list (string * V))
  : list (string * V) :=
  match d with
  | [] => [(k, v)]
  | (k', v') :: r =>
      if String.eqb k k' then (k, v) :: r else (k', v') :: dict_set k v r
  end.

Definition dict_mem {V} (k : string) (d : list (string * V)) : bool :=
  match dict_get k d with Some _ => true | None => false end.

(** *** [re.search(r"Submitted batch job (\d+)", s)]: group 1 of the
    leftmost match. *)

Definition ack : string := "Submitted batch job ".

Fixpoint search_job_id (s : string) : option string :=
  let here :=
    if starts_with ack s then
      match take_digits (drop (String.length ack) s) with
      | "" => None
      | ds => Some ds
      end
    else None in
  match here with
  | Some ds => Some ds
  | None =>
      match s with
      | String _ r => search_job_id r
      | "" => None
      end
  end.

End Py.

Import Py.

(** ** Stateful computations that can raise *)

Module Eff.

Definition M (S A : Type) : Type := S -> outcome A * S.

Definition ret {S A} (a : A) : M S A := fun s => (Returned a, s).

Definition raise {S A} (e : exn) : M S A := fun s => (Raised e, s).

Definition bind {S A B} (m : M S A) (k : A -> M S B) : M S B :=
  fun s =>
    match m s with
    | (Returned a, s') => k a s'
    | (Raised e, s') => (Raised e, s')
    end.

Definition lift {S A} (x : outcome A) : M S A := fun s => (x, s).

Definition get {S} : M S S := fun s => (Returned s, s).

Definition modify {S} (f : S -> S) : M S unit := fun s => (Returned tt, f s).

(** [try: m  except handled: h] *)
Definition catch {S A} (m : M S A) (h : exn -> option (M S A)) : M S A :=
  fun s =>
    match m s with
    | (Returned a, s') => (Returned a, s')
    | (Raised e, s') =>
        match h e with
        | Some k => k s'
        | None => (Raised e, s')
        end
    end.

(** Run a computation on the second component of a pair of states. *)
Definition on_snd {S T A} (m : M T A) : M (S * T) A :=
  fun st =>
    let '(r, t') := m (snd st) in (r, (fst st, t')).

Definition on_fst {S T A} (m : M S A) : M (S * T) A :=
  fun st =>
    let '(r, s') := m (fst st) in (r, (s', snd st)).

Fixpoint mapM {S A B} (f : A -> M S B) (l : list A) : M S (list B) :=
  match l with
  | [] => ret []
  | x :: r =>
      bind (f x) (fun y => bind (mapM f r) (fun ys => ret (y :: ys)))
  end.

Fixpoint forM_ {S A} (f : A -> M S unit) (l : list A) : M S unit :=
  match l with
  | [] => ret tt
  | x :: r => bind (f x) (fun _ => forM_ f r)
  end.

End Eff.

Import Eff.

Notation "x <- c ;; k" := (bind c (fun x => k))
  (at level 61, c at next level, right associativity).
Notation "c ;;; k" := (bind c (fun _ => k))
  (at level 61, right associativity).

(** ** The objects of the program *)

(** A [SlurmConfig] instance.  [attrs] holds the attributes that
    [setattr] created from directive names. *)
Record slurm_config : Type := {
  shell : value;
  _args : dict;
  _commands : list value;
  attrs : dict
}.

(** A [SlurmJob] instance.  The attributes copied from the manager by
    [__dict__.update] are not kept, except [job_id], which the copy
    overwrites. *)
Record slurm_job : Type := {
  job_id : string;
  array_num : Z;
  array_job_id : option string;
  submission_details : list (string * string)
}.

(** A [Slurm] instance.  [stdout], [stderr], [jobs] and [job_id] (here
    [slurm_job_id]) exist only after [sbatch] has set them. *)
Record slurm : Type := {
  config : slurm_config;
  stdout : option string;
  stderr : option string;
  jobs : option (list slurm_job);
  slurm_job_id : option string
}.

(** ** The process and file-system boundary *)

Record CompletedProcess : Type := {
  returncode : Z;
  out : string;
  err : string
}.

(** What the program asks of its environment: [subprocess.run] with
    captured text output (which raises when the command cannot be
    started or its output cannot be decoded), the [pathlib] operations it
    uses, and the file operations of [mkdir], [open]/[write],
    [pickle.dump] and [yaml.safe_load]. *)
Record Boundary (world : Type) : Type := {
  subprocess_run :
    list string -> world -> outcome CompletedProcess * world;
  module_dir : string;
  path_join : string -> string -> string;
  with_suffix : string -> string -> outcome string;
  mkdir : string -> world -> outcome unit * world;
  write_text : string -> string -> world -> outcome unit * world;
  pickle_dump : string -> slurm_config -> world -> outcome unit * world;
  yaml_safe_load : string -> world -> outcome dict * world
}.
Arguments subprocess_run {world} _ _ _.
Arguments module_dir {world} _.
Arguments path_join {world} _ _ _.
Arguments with_suffix {world} _ _ _.
Arguments mkdir {world} _ _ _.
Arguments write_text {world} _ _ _ _.
Arguments pickle_dump {world} _ _ _ _.
Arguments yaml_safe_load {world} _ _ _.

(** The state of a running program: the environment, the commands asked
    of it so far (oldest first), and the class attribute
    [SlurmConfig.job_name]. *)
Record runtime (world : Type) : Type := {
  env : world;
  calls : list (list string);
  class_job_name : option value
}.
Arguments env {world} _.
Arguments calls {world} _.
Arguments class_job_name {world} _.

Section Process.
Context {world : Type} (B : Boundary world).

Definition in_env {A}
  (f : world -> outcome A * world) : M (runtime world) A :=
  fun rt =>
    let '(r, w) := f (env rt) in
    (r, {| env := w; calls := calls rt;
           class_job_name := class_job_name rt |}).

(** [subprocess.run(argv, capture_output=True, text=True, check=True)] *)
Definition run_checked (argv : list string)
  : M (runtime world) CompletedProcess :=
  fun rt =>
    let '(r, w) := subprocess_run B argv (env rt) in
    let rt' := {| env := w; calls := calls rt ++ [argv];
                  class_job_name := class_job_name rt |} in
    match r with
    | Returned p =>
        if returncode p =? 0 then (Returned p, rt')
        else (Raised (CalledProcessError (returncode p)), rt')
    | Raised e => (Raised e, rt')
    end.
End Process.

(** ** [class SlurmConfig] *)

Module SlurmConfig.

(** [setattr(self, key, val)] for the name of a directive: [shell] is
    the attribute that [__init__] created, any other name becomes an
    attribute of the instance.  The names of the other members of the
    class (the containers [_args] and [_commands], the methods) are not
    names of directives; the record has no place for what an assignment
    to them would do, and the statements about keywords leave them out
    (see [directive_name]). *)
Definition setattr (self : slurm_config) (key : string) (val : value)
  : slurm_config :=
  if String.eqb key "shell" then
    {| shell := val; _args := _args self; _commands := _commands self;
       attrs := attrs self |}
  else
    {| shell := shell self; _args := _args self;
       _commands := _commands self;
       attrs := dict_set key val (attrs self) |}.

Definition set_arg (self : slurm_config) (key : string) (val : value)
  : slurm_config :=
  {| shell := shell self; _args := dict_set key val (_args self);
     _commands := _commands self; attrs := attrs self |}.

Definition __init__ (shell : value) (kwargs : dict) : slurm_config :=
  fold_left
    (fun self kv => setattr (set_arg self (fst kv) (snd kv)) (fst kv) (snd kv))
    kwargs
    {| shell := if truthy shell then shell else VStr "/bin/bash";
       _args := []; _commands := []; attrs := [] |}.

(** [__str__] returns the text and leaves [self] as it found it; the
    object is passed along so that this can be stated. *)
Definition __str__ (self : slurm_config) : string * slurm_config :=
  let s := "#!" ++ str (shell self) in
  let s :=
    fold_left
      (fun s item =>
         let arg := replace_char "_" "-" (fst item) in
         s ++ nl ++ "#SBATCH --" ++ arg ++ "=" ++ str (snd item))
      (_args self) s in
  let s :=
    fold_left (fun s command => s ++ nl ++ str command) (_commands self) s in
  (s, self).

Definition add_command (self : slurm_config) (cmd : value) : slurm_config :=
  {| shell := shell self; _args := _args self;
     _commands := _commands self ++ [cmd]; attrs := attrs self |}.

Definition is_array_job (self : slurm_config) : bool :=
  dict_mem "array" (_args self).

(** [self.job_name]: the instance attribute, else the class attribute. *)
Definition job_name (cls : option value) (self : slurm_config)
  : outcome value :=
  match dict_get "job_name" (attrs self) with
  | Some v => Returned v
  | None =>
      match cls with
      | Some v => Returned v
      | None => Raised AttributeError
      end
  end.

(** [self.array] *)
Definition array (self : slurm_config) : outcome value :=
  match dict_get "array" (attrs self) with
  | Some v => Returned v
  | None => Raised AttributeError
  end.

Section Yaml.
Context {world : Type} (B : Boundary world).

(** The loaded mapping is passed as keyword arguments: a key
    [shell] binds the parameter of that name. *)
Definition from_yaml (path : string) : M (runtime world) slurm_config :=
  modify (fun rt => {| env := env rt; calls := calls rt;
                       class_job_name := Some (VStr "") |}) ;;;
  yaml_data <- in_env (yaml_safe_load B path) ;;
  let sh := match dict_get "shell" yaml_data with
            | Some v => v
            | None => VNone
            end in
  ret (__init__ sh
         (filter (fun kv => negb (String.eqb (fst kv) "shell")) yaml_data)).
End Yaml.

End SlurmConfig.

(** ** [class SlurmJob] *)

Module SlurmJob.

Definition COMPLETED_OR_NOT_FOUND : string := "COMPLETED or NOT FOUND".

(** [bool(self.is_queued)]: the attribute is a bound method, which is
    truthy. *)
Definition is_queued_attribute : bool := true.

Section Methods.
Context {world : Type} (B : Boundary world).

Definition set_details (self : slurm_job) (d : list (string * string))
  : slurm_job :=
  {| job_id := job_id self; array_num := array_num self;
     array_job_id := array_job_id self; submission_details := d |}.

Definition _get_scontrol_attrs (self : slurm_job)
  : M (runtime world) (list (string * string)) :=
  process <- run_checked B ["scontrol"; "show"; "job"; job_id self] ;;
  lift
    (fold_left
       (fun acc attr =>
          obind acc (fun submission_details =>
            let attr := strip attr in
            if String.eqb attr "" then Returned submission_details
            else
              match split_once "=" attr with
              | [key; val] =>
                  Returned (dict_set key val submission_details)
              | _ => Raised ValueError
              end))
       (split_char " " (out process))
       (Returned [])).

(** [SlurmJob(job_id, slurm, array_num)]; [array_num] is [None] here
    when the call gives no third argument. *)
Definition __init__ (job_id : string) (slurm : slurm)
  (array_num : option value) : M (runtime world) slurm_job :=
  match array_num with
  | None => raise TypeError
  | Some a =>
      n <- lift (int a) ;;
      let job_id := match slurm_job_id slurm with
                    | Some i => i
                    | None => job_id
                    end in
      let self :=
        {| job_id := job_id; array_num := n;
           array_job_id :=
             if SlurmConfig.is_array_job (config slurm)
             then Some (job_id ++ "_" ++ str_of_Z n) else None;
           submission_details := [] |} in
      d <- _get_scontrol_attrs self ;;
      ret (set_details self d)
  end.

Definition get_status (self : slurm_job) : M (runtime world) string :=
  catch
    (process <- run_checked B
                  ["squeue"; "-j"; job_id self; "-h"; "-o"; "%T"] ;;
     if negb (String.eqb (out process) "") then ret (strip (out process))
     else ret COMPLETED_OR_NOT_FOUND)
    (fun e =>
       match e with
       | CalledProcessError _ => Some (ret COMPLETED_OR_NOT_FOUND)
       | _ => None
       end).

Definition is_queued (self : slurm_job) : M (runtime world) bool :=
  status <- get_status self ;;
  ret (String.eqb status "PENDING" || String.eqb status "RUNNING").

Definition cancel (self : slurm_job) : M (runtime world) bool :=
  if negb is_queued_attribute then ret false
  else
    catch
      (run_checked B ["scancel"; job_id self] ;;; ret true)
      (fun e =>
         match e with
         | CalledProcessError _ => Some (ret false)
         | _ => None
         end).
End Methods.

End SlurmJob.

(** ** [class Slurm] *)

(** The two containers a configuration owns, as objects with an identity:
    an accessor hands out the object, not a copy of it. *)
Inductive container_ref : Type :=
| ref_args
| ref_commands.

Inductive container : Type :=
| Mapping (d : dict)
| Sequence (l : list value).

Definition deref (c : slurm_config) (r : container_ref) : container :=
  match r with
  | ref_args => Mapping (_args c)
  | ref_commands => Sequence (_commands c)
  end.

Module Slurm.

Definition with_config (self : slurm) (c : slurm_config) : slurm :=
  {| config := c; stdout := stdout self; stderr := stderr self;
     jobs := jobs self; slurm_job_id := slurm_job_id self |}.

(** [Slurm(config)]; see [from_defaults] for [Slurm()]. *)
Definition __init__ (config : slurm_config) : slurm :=
  {| config := config; stdout := None; stderr := None; jobs := None;
     slurm_job_id := None |}.

Definition __str__ (self : slurm) : string * slurm :=
  let '(s, c) := SlurmConfig.__str__ (config self) in (s, with_config self c).

(** The [time] branch of [add_arguments], for a [timedelta]. *)
Definition normalize_duration (val : timedelta) : string :=
  let total_s := int_of_float (total_seconds val) in
  let days := total_s / 86400 in
  let rem := total_s mod 86400 in
  let hours := rem / 3600 in
  let rem := rem mod 3600 in
  let minutes := rem / 60 in
  let seconds := rem mod 60 in
  str_of_Z days ++ "-" ++ format_zero 2 hours ++ ":"
  ++ format_zero 2 minutes ++ ":" ++ format_zero 2 seconds.

(** The [array] branch of [add_arguments], up to the [range] it builds.
    A [bool] is an [int]. *)
Definition normalize_array (val : value) : outcome value :=
  match val with
  | VStr s =>
      obind (omap int_of_str (split_char "-" s)) (fun val =>
        Returned (VRange (hd 0 val) (last val 0 + 1) 1))
  | VInt n => Returned (VRange 0 (n + 1) 1)
  | VBool b => Returned (VRange 0 (Z.b2z b + 1) 1)
  | _ => Returned val
  end.

Definition store (key : string) (stored attribute : value) : M slurm unit :=
  modify (fun self =>
    with_config self
      (SlurmConfig.setattr
         (SlurmConfig.set_arg (config self) key stored) key attribute)).

(** One turn of the loop of [add_arguments].  The test
    [not isinstance(key, tuple)] holds of every keyword name. *)
Definition add_argument (kv : string * value) : M slurm unit :=
  let key := fst kv in
  let val :=
    match snd kv with
    | VTimedelta d =>
        if String.eqb key "time" then VStr (normalize_duration d)
        else snd kv
    | v => v
    end in
  if String.eqb key "array" then
    val <- lift (normalize_array val) ;;
    first <- lift (getitem val 0) ;;
    final <- lift (getitem val (-1)) ;;
    store key (VStr (str first ++ "-" ++ str final)) val
  else store key val val.

Definition add_arguments (kwargs : dict) : M slurm unit :=
  forM_ add_argument kwargs.

Definition add_commands (args : list value) : M slurm unit :=
  forM_ (fun cmd =>
           modify (fun self =>
             with_config self (SlurmConfig.add_command (config self) cmd)))
        args.

Definition get_arguments (self : slurm) : container_ref := ref_args.

Definition get_commands (self : slurm) : container_ref := ref_args.

Definition is_array_job (self : slurm) : bool :=
  SlurmConfig.is_array_job (config self).

Section Submission.
Context {world : Type} (B : Boundary world).

Definition state : Type := (slurm * runtime world)%type.

(** [self.config.job_name] *)
Definition config_job_name : M state value :=
  st <- get ;;
  lift (SlurmConfig.job_name (class_job_name (snd st)) (config (fst st))).

(** [Path(path)] is truthy, so the alternative after [or] is never
    taken. *)
Definition _write_submission_script (path suffix : string)
  : M state string :=
  path <- lift (with_suffix B path suffix) ;;
  text <- on_fst (fun self =>
            let '(s, self') := __str__ self in (Returned s, self')) ;;
  on_snd (in_env (write_text B path text)) ;;;
  ret path.

Definition _serialize_config (path suffix : string) : M state string :=
  path <- lift (with_suffix B path suffix) ;;
  st <- get ;;
  on_snd (in_env (pickle_dump B path (config (fst st)))) ;;;
  ret path.

(** [sbatch] up to the script it hands to the scheduler. *)
Definition prepare (shell_arg : value) (save_configuration : bool)
  (output_path : option string) : M state string :=
  st <- get ;;
  let shell_arg := if truthy shell_arg then shell_arg
                   else shell (config (fst st)) in
  let output_path := match output_path with
                     | None => module_dir B
                     | Some p => p
                     end in
  on_snd (in_env (mkdir B output_path)) ;;;
  (if save_configuration then
     name <- config_job_name ;;
     _serialize_config (path_join B output_path (str name)) ".pkl" ;;;
     ret tt
   else ret tt) ;;;
  name <- config_job_name ;;
  _write_submission_script (path_join B output_path (str name)) ".sh".

Definition record_submission (process : CompletedProcess) : M state unit :=
  on_fst (modify (fun self =>
    {| config := config self; stdout := Some (out process);
       stderr := Some (err process); jobs := Some [];
       slurm_job_id := slurm_job_id self |})).

Definition set_job_id (id : string) : M state unit :=
  on_fst (modify (fun self =>
    {| config := config self; stdout := stdout self;
       stderr := stderr self; jobs := jobs self;
       slurm_job_id := Some id |})).

Definition set_jobs (js : list slurm_job) : M state unit :=
  on_fst (modify (fun self =>
    {| config := config self; stdout := stdout self;
       stderr := stderr self; jobs := Some js;
       slurm_job_id := slurm_job_id self |})).

(** [SlurmJob(job_id, self, ...)] called from a method of [self]. *)
Definition new_job (id : string) (array_num : option value)
  : M state slurm_job :=
  st <- get ;;
  on_snd (SlurmJob.__init__ B id (fst st) array_num).

(** [sbatch] from the call of the scheduler on. *)
Definition submit (submission_script_path : string)
  : M state (list slurm_job) :=
  process <- on_snd (run_checked B ["sbatch"; submission_script_path]) ;;
  let found := search_job_id (out process) in
  record_submission process ;;;
  match found with
  | Some id =>
      set_job_id id ;;;
      st <- get ;;
      if SlurmConfig.is_array_job (config (fst st)) then
        arr <- lift (SlurmConfig.array (config (fst st))) ;;
        indices <- lift (iterate arr) ;;
        js <- mapM (fun i => new_job id (Some i)) indices ;;
        set_jobs js
      else
        j <- new_job id None ;;
        set_jobs [j]
  | None => ret tt
  end ;;;
  st <- get ;;
  match jobs (fst st) with
  | Some js => ret js
  | None => raise AttributeError
  end.

(** [Slurm()] without a configuration: the defaults are loaded from
    the YAML file kept next to the module. *)
Definition from_defaults : M (runtime world) slurm :=
  c <- SlurmConfig.from_yaml B
         (path_join B (path_join B (module_dir B) "configs")
            "slurm_default.yaml") ;;
  ret (__init__ c).

Definition sbatch (shell_arg : value) (save_configuration : bool)
  (output_path : option string) : M state (list slurm_job) :=
  submission_script_path <-
    prepare shell_arg save_configuration output_path ;;
  submit submission_script_path.
End Submission.

End Slurm.

(** ** A scripted environment

    An environment whose commands answer by a fixed function of their
    arguments and whose file operations succeed; it serves to run the
    program on concrete inputs. *)

Definition scripted (answer : list string -> CompletedProcess)
  : Boundary unit :=
  {| subprocess_run := fun argv w => (Returned (answer argv), w);
     module_dir := "/opt/supa_slurm";
     path_join := fun a b => a ++ "/" ++ b;
     with_suffix := fun p s => Returned (p ++ s);
     mkdir := fun _ w => (Returned tt, w);
     write_text := fun _ _ w => (Returned tt, w);
     pickle_dump := fun _ _ w => (Returned tt, w);
     yaml_safe_load := fun _ w => (Returned [], w) |}.

(** An environment in which no command can be started: the programs of
    the scheduler are not installed. *)
Definition unavailable : Boundary unit :=
  {| subprocess_run := fun _ w => (Raised FileNotFoundError, w);
     module_dir := "/opt/supa_slurm";
     path_join := fun a b => a ++ "/" ++ b;
     with_suffix := fun p s => Returned (p ++ s);
     mkdir := fun _ w => (Returned tt, w);
     write_text := fun _ _ w => (Returned tt, w);
     pickle_dump := fun _ _ w => (Returned tt, w);
     yaml_safe_load := fun _ w => (Returned [], w) |}.

(** An environment whose file of defaults holds the given mapping. *)
Definition loading (data : dict) : Boundary unit :=
  {| subprocess_run := fun _ w => (Raised FileNotFoundError, w);
     module_dir := "/opt/supa_slurm";
     path_join := fun a b => a ++ "/" ++ b;
     with_suffix := fun p s => Returned (p ++ s);
     mkdir := fun _ w => (Returned tt, w);
     write_text := fun _ _ w => (Returned tt, w);
     pickle_dump := fun _ _ w => (Returned tt, w);
     yaml_safe_load := fun _ w => (Returned data, w) |}.

Definition boot : runtime unit :=
  {| env := tt; calls := []; class_job_name := None |}.

Definition completed (rc : Z) (o : string) : CompletedProcess :=
  {| returncode := rc; out := o; err := "" |}.

(** A scheduler that accepts every submission as job 4821. *)
Definition accepting (argv : list string) : CompletedProcess :=
  match argv with
  | "sbatch" :: _ => completed 0 ("Submitted batch job 4821" ++ nl)
  | "scontrol" :: _ => completed 0 "JobId=4821 JobName=test"
  | "squeue" :: _ => completed 0 ("PENDING" ++ nl)
  | _ => completed 0 ""
  end.

(** A scheduler whose only job runs for the number of seconds that the
    environment holds: the status query reports it as running until that
    time has passed. *)
Definition finishing : Boundary nat :=
  {| subprocess_run := fun argv w =>
       match argv, w with
       | "squeue" :: _, S _ => (Returned (completed 0 ("RUNNING" ++ nl)), w)
       | _, _ => (Returned (completed 0 ""), w)
       end;
     module_dir := "/opt/supa_slurm";
     path_join := fun a b => a ++ "/" ++ b;
     with_suffix := fun p s => Returned (p ++ s);
     mkdir := fun _ w => (Returned tt, w);
     write_text := fun _ _ w => (Returned tt, w);
     pickle_dump := fun _ _ w => (Returned tt, w);
     yaml_safe_load := fun _ w => (Returned [], w) |}.

(** A clock for the examples.  It refuses with [OverflowError] an
    interval whose nanoseconds do not fit in 64 bits and with
    [ValueError] a negative one; otherwise [pass] says what the given
    time does to the environment. *)
Definition clock {world : Type} (pass : Z -> world -> world)
  (interval : Z) (w : world) : outcome unit * world :=
  if 2 ^ 63 <=? Z.abs interval * 10 ^ 9 then (Raised OverflowError, w)
  else if interval <? 0 then (Raised ValueError, w)
  else (Returned tt, pass interval w).

Definition elapse (interval : Z) (remaining : nat) : nat :=
  remaining - Z.to_nat interval.

(** ** Vocabulary of the statements *)

(** Strings made of decimal digits only. *)
Fixpoint digits_only (s : string) : bool :=
  match s with
  | "" => true
  | String c r => is_digit c && digits_only r
  end.

(** A range string ["a-b"] with natural bounds in order. *)
Definition well_formed_range (s : string) : Prop :=
  exists a b : Z, 0 <= a <= b /\ s = str_of_Z a ++ "-" ++ str_of_Z b.

(** The decimal digit character of a number below ten, and the two-digit
    rendering of a number below a hundred. *)
Definition digit_char (z : Z) : ascii := ascii_of_nat (48 + Z.to_nat z).

Definition two_digits (z : Z) : string :=
  String (digit_char (z / 10)) (String (digit_char (z mod 10)) "").

(** The script as the specification describes it, line by line: the
    interpreter line, one line per directive, one line per command. *)
Definition directive_line (item : string * value) : string :=
  "#SBATCH --" ++ replace_char "_" "-" (fst item) ++ "=" ++ str (snd item).

Definition script_lines (c : slurm_config) : list string :=
  ("#!" ++ str (shell c))
    :: map directive_line (_args c) ++ map str (_commands c).

Section SubmissionVocabulary.
Context {world : Type}.

(** A computation on manager and run time that leaves the manager as it
    was. *)
Definition keeps_manager {A} (m : M (@Slurm.state world) A)
  : Prop :=
  forall st, fst (snd (m st)) = fst st.

(** The manager once the scheduler has answered, before any job handle
    is built. *)
Definition submitted (self : slurm) (p : CompletedProcess)
  (id : option string) : slurm :=
  {| config := config self; stdout := Some (out p); stderr := Some (err p);
     jobs := Some [];
     slurm_job_id := match id with
                     | Some i => Some i
                     | None => slurm_job_id self
                     end |}.

Definition after_run (rt : runtime world) (argv : list string) (w : world)
  : runtime world :=
  {| env := w; calls := calls rt ++ [argv];
     class_job_name := class_job_name rt |}.
End SubmissionVocabulary.

(** ** Further methods and vocabulary *)

(** [SlurmConfig.__repr__]; [cls] is the class attribute [job_name]. *)
Definition SlurmConfig__repr__ (cls : option value) (self : slurm_config)
  : outcome string :=
  let attribute name :=
    match dict_get name (attrs self) with
    | Some v => Returned v
    | None => Raised AttributeError
    end in
  let or_none v := if truthy v then v else VNone in
  obind (SlurmConfig.job_name cls self) (fun job_name =>
  obind (attribute "partition") (fun partition =>
  obind (attribute "time") (fun time =>
    Returned ("SlurmConfig(job_name=" ++ str (or_none job_name)
              ++ ", partition=" ++ str (or_none partition)
              ++ ", time=" ++ str (or_none time) ++ ")")))).

Section Waiting.
Context {world : Type} (B : Boundary world).

(** [time.sleep(interval)] is left to the environment: [sleep] says what
    the call does there and whether it raises, as the library does for a
    negative interval and for one beyond the range of its clock. *)
Variable sleep : Z -> world -> outcome unit * world.

Definition time_sleep (interval : Z) : M (runtime world) unit :=
  in_env (sleep interval).

(** [SlurmJob.hold_for_completion], for at most [fuel] turns of its loop;
    [None] says that the loop is still running after them. *)
Fixpoint hold_for_completion (fuel : nat) (self : slurm_job) (interval : Z)
  : M (runtime world) (option unit) :=
  match fuel with
  | O => ret None
  | S fuel' =>
      queued <- SlurmJob.is_queued B self ;;
      if queued then
        time_sleep interval ;;;
        hold_for_completion fuel' self interval
      else ret (Some tt)
  end.

(** The run time after one turn of the loop: a poll, then a sleep. *)
Definition after_poll (self : slurm_job) (interval : Z)
  (rt : runtime world) : runtime world :=
  snd ((SlurmJob.is_queued B self ;;; time_sleep interval) rt).
End Waiting.

(** One turn of the loop of [_get_scontrol_attrs], and the attribute
    mapping that the loop reads off the output of the inspection
    command. *)
Definition read_attr (acc : outcome (list (string * string))) (attr : string)
  : outcome (list (string * string)) :=
  obind acc (fun submission_details =>
    let attr := strip attr in
    if String.eqb attr "" then Returned submission_details
    else
      match split_once "=" attr with
      | [key; val] => Returned (dict_set key val submission_details)
      | _ => Raised ValueError
      end).

Definition scontrol_attrs (output : string)
  : outcome (list (string * string)) :=
  fold_left read_attr (split_char " " output) (Returned []).

(** Strings without white space, and strings without a given character. *)
Fixpoint no_space (s : string) : bool :=
  match s with
  | "" => true
  | String c r => negb (is_space c) && no_space r
  end.

Fixpoint lacks (a : ascii) (s : string) : bool :=
  match s with
  | "" => true
  | String c r => negb (Ascii.eqb c a) && lacks a r
  end.

(** The names that can be given as a keyword for a directive: not
    [self], which a call takes for its receiver (a keyword of that name
    is a [TypeError]), and not the name of a member of [SlurmConfig],
    which [setattr] would replace: the containers [_args] and
    [_commands], the methods, and the members that every object has,
    whose names begin with an underscore as well. *)
Definition directive_name (key : string) : bool :=
  match key with
  | String "_" _ => false
  | _ =>
      negb (existsb (String.eqb key)
              ["self"; "add_command"; "is_array_job"; "from_yaml"])
  end.

Definition directive_names (kwargs : dict) : bool :=
  forallb (fun kv => directive_name (fst kv)) kwargs.

(** Every directive but [shell] is also an attribute of the
    configuration. *)
Definition directives_are_attributes (c : slurm_config) : bool :=
  forallb (fun kv => String.eqb (fst kv) "shell" || dict_mem (fst kv) (attrs c))
          (_args c).

(** An environment in which the inspection command always succeeds with
    output that [_get_scontrol_attrs] can read. *)
Definition inspection_succeeds {world : Type} (B : Boundary world) : Prop :=
  forall (id : string) (w : world),
    exists p,
      fst (subprocess_run B ["scontrol"; "show"; "job"; id] w) = Returned p
      /\ returncode p = 0
      /\ exists d, scontrol_attrs (out p) = Returned d.

(** The manager with the list of its job handles replaced, and the
    arguments of the inspection command. *)
Definition with_jobs (m : slurm) (js : list slurm_job) : slurm :=
  {| config := config m; stdout := stdout m; stderr := stderr m;
     jobs := Some js; slurm_job_id := slurm_job_id m |}.

Definition inspect (id : string) : list string :=
  ["scontrol"; "show"; "job"; id].

(** A computation on manager and run time that leaves the configuration
    of the manager as it was. *)
Definition keeps_config {world A : Type} (m : M (@Slurm.state world) A)
  : Prop :=
  forall st, config (fst (snd (m st))) = config (fst st).

(** * Properties *)

(** ** Strings *)

Section Strings.

Lemma append_assoc (a b c : string) : (a ++ b) ++ c = a ++ (b ++ c).
Proof.
  induction a as [|x a IH]; simpl; [reflexivity|].
  now rewrite IH.
Qed.

Lemma append_empty_r (a : string) : a ++ "" = a.
Proof.
  induction a as [|x a IH]; simpl; [reflexivity|].
  now rewrite IH.
Qed.

Lemma length_append (a b : string) :
  String.length (a ++ b) = (String.length a + String.length b)%nat.
Proof.
  induction a as [|x a IH]; simpl; [reflexivity|].
  now rewrite IH.
Qed.

Lemma is_digit_not_space (c : ascii) :
  is_digit c = true -> is_int_space c = false.
Proof.
  destruct c as [[|] [|] [|] [|] [|] [|] [|] [|]]; cbv; congruence.
Qed.

Lemma is_digit_not_hyphen (c : ascii) :
  is_digit c = true -> Ascii.eqb c "-" = false.
Proof.
  destruct c as [[|] [|] [|] [|] [|] [|] [|] [|]]; cbv; congruence.
Qed.

Lemma is_digit_not_underscore (c : ascii) :
  is_digit c = true -> Ascii.eqb c "_" = false.
Proof.
  destruct c as [[|] [|] [|] [|] [|] [|] [|] [|]]; cbv; congruence.
Qed.

Lemma digits_only_uint (u : uint) :
  digits_only (NilEmpty.string_of_uint u) = true.
Proof.
  induction u; simpl; auto.
Qed.

Lemma rstrip_digits (s : string) : digits_only s = true -> int_rstrip s = s.
Proof.
  induction s as [|c r IH]; simpl; [reflexivity|].
  intros H. apply andb_prop in H as [Hc Hr].
  rewrite (IH Hr). destruct r; [|reflexivity].
  now rewrite (is_digit_not_space _ Hc).
Qed.

Lemma strip_digits (s : string) : digits_only s = true -> int_strip s = s.
Proof.
  intros H. unfold int_strip.
  destruct s as [|c r]; [reflexivity|].
  simpl in H. apply andb_prop in H as [Hc Hr].
  simpl int_lstrip. rewrite (is_digit_not_space _ Hc).
  apply rstrip_digits. simpl. now rewrite Hc, Hr.
Qed.

Lemma literal_uint (u : uint) : literal (NilEmpty.string_of_uint u) = Some u.
Proof.
  induction u; simpl; try reflexivity; now rewrite IHu.
Qed.

Lemma split_char_digits (s : string) :
  digits_only s = true -> split_char "-" s = [s].
Proof.
  induction s as [|c r IH]; simpl; [reflexivity|].
  intros H. apply andb_prop in H as [Hc Hr].
  now rewrite (is_digit_not_hyphen _ Hc), (IH Hr).
Qed.

Lemma split_char_range (a b : string) :
  digits_only a = true -> digits_only b = true ->
  split_char "-" (a ++ String "-" b) = [a; b].
Proof.
  intros Ha Hb. induction a as [|c r IH]; simpl.
  - now rewrite (split_char_digits _ Hb).
  - simpl in Ha. apply andb_prop in Ha as [Hc Hr].
    now rewrite (is_digit_not_hyphen _ Hc), (IH Hr).
Qed.

(** The text of a natural number: never empty, digits only. *)
Lemma str_of_Z_nonneg (n : Z) :
  0 <= n ->
  exists u, u <> Nil /\ str_of_Z n = NilEmpty.string_of_uint u
            /\ Z.of_uint u = n.
Proof.
  intros Hn. destruct n as [|p|p]; [| |lia].
  - exists (D0 Nil). repeat split. discriminate.
  - exists (Pos.to_uint p). split; [apply Unsigned.to_uint_nonnil|].
    split.
    + unfold str_of_Z. simpl.
      destruct (Pos.to_uint p) eqn:E; try reflexivity.
      now apply Unsigned.to_uint_nonnil in E.
    + unfold Z.of_uint. now rewrite Unsigned.of_to.
Qed.

Lemma digits_only_str_of_Z (n : Z) :
  0 <= n -> digits_only (str_of_Z n) = true.
Proof.
  intros Hn. destruct (str_of_Z_nonneg n Hn) as (u & _ & -> & _).
  apply digits_only_uint.
Qed.

(** [int(str(n)) == n] for a natural number [n]. *)
Lemma int_of_str_of_Z (n : Z) : 0 <= n -> int_of_str (str_of_Z n) = Returned n.
Proof.
  intros Hn. destruct (str_of_Z_nonneg n Hn) as (u & Hu & E & Hz).
  unfold int_of_str. rewrite E, (strip_digits _ (digits_only_uint u)).
  pose proof (digits_only_uint u) as Hd.
  pose proof (literal_uint u) as Hl.
  destruct (NilEmpty.string_of_uint u) as [|c r] eqn:Es.
  - destruct u; simpl in Es; congruence.
  - simpl in Hd. apply andb_prop in Hd as [Hc Hr].
    assert (Ascii.eqb c "-" = false) as -> by now apply is_digit_not_hyphen.
    assert (Ascii.eqb c "+" = false) as ->.
    { clear - Hc.
      destruct c as [[|] [|] [|] [|] [|] [|] [|] [|]]; cbv in *; congruence. }
    now rewrite Hc, Hl, Hz.
Qed.

End Strings.

(** ** Dictionaries and ranges *)

Section Containers.

Lemma dict_get_set_same {V} (k : string) (v : V) (d : list (string * V)) :
  dict_get k (dict_set k v d) = Some v.
Proof.
  induction d as [|[k' v'] r IH]; simpl.
  - now rewrite String.eqb_refl.
  - destruct (String.eqb k k') eqn:E; simpl.
    + now rewrite String.eqb_refl.
    + now rewrite E.
Qed.

Lemma range_len_unit (a b : Z) : a <= b -> range_len a (b + 1) 1 = b - a + 1.
Proof.
  intros H. unfold range_len. simpl.
  destruct (Z.ltb_spec a (b + 1)); [|lia].
  rewrite Z.div_1_r. lia.
Qed.

Lemma in_range_items (a b z : Z) :
  a <= b -> In z (range_items a (b + 1) 1) <-> a <= z <= b.
Proof.
  intros H. unfold range_items. rewrite (range_len_unit _ _ H), in_map_iff.
  split.
  - intros (i & <- & Hi). apply in_seq in Hi. lia.
  - intros Hz. exists (Z.to_nat (z - a)). split; [lia|].
    apply in_seq. lia.
Qed.

Lemma length_range_items (a b : Z) :
  a <= b -> Z.of_nat (List.length (range_items a (b + 1) 1)) = b - a + 1.
Proof.
  intros H. unfold range_items.
  rewrite length_map, length_seq, (range_len_unit _ _ H). lia.
Qed.

Lemma sorted_affine (a : Z) (k n : nat) :
  StronglySorted Z.lt (map (fun i => a + Z.of_nat i * 1) (seq k n)).
Proof.
  revert k. induction n as [|n IH]; intros k; simpl; constructor.
  - apply IH.
  - apply Forall_forall. intros z Hz.
    apply in_map_iff in Hz as (i & <- & Hi). apply in_seq in Hi. lia.
Qed.

Lemma sorted_range_items (a b : Z) :
  StronglySorted Z.lt (range_items a (b + 1) 1).
Proof. apply sorted_affine. Qed.

End Containers.

(** ** [Slurm.add_arguments] *)

Section AddArguments.

Lemma add_argument_array_step (val : value) :
  Slurm.add_argument ("array", val)
  = (r <- lift (Slurm.normalize_array val) ;;
     first <- lift (getitem r 0) ;;
     final <- lift (getitem r (-1)) ;;
     Slurm.store "array" (VStr (str first ++ "-" ++ str final)) r).
Proof. now destruct val. Qed.

Lemma add_arguments_array (self : slurm) (val r lo hi : value) :
  Slurm.normalize_array val = Returned r ->
  getitem r 0 = Returned lo ->
  getitem r (-1) = Returned hi ->
  Slurm.add_arguments [("array", val)] self
  = (Returned tt,
     Slurm.with_config self
       (SlurmConfig.setattr
          (SlurmConfig.set_arg (config self) "array"
             (VStr (str lo ++ "-" ++ str hi))) "array" r)).
Proof.
  intros Hn Hlo Hhi.
  unfold Slurm.add_arguments, forM_. rewrite add_argument_array_step.
  unfold bind, lift. now rewrite Hn, Hlo, Hhi.
Qed.

Lemma add_arguments_array_raises (self : slurm) (val : value) (e : exn) :
  obind (Slurm.normalize_array val)
    (fun r => obind (getitem r 0) (fun _ => getitem r (-1))) = Raised e ->
  Slurm.add_arguments [("array", val)] self = (Raised e, self).
Proof.
  intros H.
  unfold Slurm.add_arguments, forM_. rewrite add_argument_array_step.
  unfold bind, lift.
  destruct (Slurm.normalize_array val) as [r|e']; simpl in H;
    [|now inversion H].
  destruct (getitem r 0) as [lo|e']; simpl in H; [|now inversion H].
  now rewrite H.
Qed.

Lemma array_stored (self : slurm) (text : string) (r : value) :
  let self' :=
    Slurm.with_config self
      (SlurmConfig.setattr
         (SlurmConfig.set_arg (config self) "array" (VStr text)) "array" r) in
  dict_get "array" (_args (config self')) = Some (VStr text)
  /\ SlurmConfig.array (config self') = Returned r.
Proof.
  simpl. unfold SlurmConfig.array. simpl.
  now rewrite !dict_get_set_same.
Qed.

Lemma getitem_range_ends (a b : Z) :
  a <= b ->
  getitem (VRange a (b + 1) 1) 0 = Returned (VInt a)
  /\ getitem (VRange a (b + 1) 1) (-1) = Returned (VInt b).
Proof.
  intros H. unfold getitem. rewrite (range_len_unit _ _ H).
  change (0 <? 0) with false. change (-1 <? 0) with true. cbv iota.
  assert ((0 <=? 0) = true) as -> by reflexivity.
  assert ((0 <? b - a + 1) = true) as -> by lia.
  assert ((0 <=? -1 + (b - a + 1)) = true) as -> by lia.
  assert ((-1 + (b - a + 1) <? b - a + 1) = true) as -> by lia.
  cbv [andb]. split; do 2 f_equal; lia.
Qed.

Lemma normalize_array_range_string (a b : Z) :
  0 <= a -> 0 <= b ->
  Slurm.normalize_array (VStr (str_of_Z a ++ "-" ++ str_of_Z b))
  = Returned (VRange a (b + 1) 1).
Proof.
  intros Ha Hb. unfold Slurm.normalize_array.
  change (str_of_Z a ++ "-" ++ str_of_Z b)
    with (str_of_Z a ++ String "-" (str_of_Z b)).
  rewrite split_char_range by now apply digits_only_str_of_Z.
  simpl. now rewrite !int_of_str_of_Z.
Qed.

End AddArguments.

(** C3. Under the [array] directive a non-negative integer [n] becomes
    the inclusive range from 0 to [n]: the stored text is ["0-n"] and
    iteration visits exactly the [n+1] integers from 0 to [n]; a range
    string ["a-b"] with [a <= b] becomes the inclusive range from [a] to
    [b]: the stored text is ["a-b"] and iteration visits exactly the
    [b-a+1] integers from [a] to [b] in ascending order. *)
Theorem array_normalization (self : slurm) (n a b : Z)
  (Hn : 0 <= n) (Ha : 0 <= a) (Hab : a <= b) :
  (exists self' items,
      Slurm.add_arguments [("array", VInt n)] self = (Returned tt, self')
      /\ dict_get "array" (_args (config self'))
         = Some (VStr ("0-" ++ str_of_Z n))
      /\ SlurmConfig.array (config self') = Returned (VRange 0 (n + 1) 1)
      /\ iterate (VRange 0 (n + 1) 1) = Returned (map VInt items)
      /\ Z.of_nat (List.length items) = n + 1
      /\ (forall z, In z items <-> 0 <= z <= n)
      /\ StronglySorted Z.lt items)
  /\ (exists self' items,
      Slurm.add_arguments
        [("array", VStr (str_of_Z a ++ "-" ++ str_of_Z b))] self
      = (Returned tt, self')
      /\ dict_get "array" (_args (config self'))
         = Some (VStr (str_of_Z a ++ "-" ++ str_of_Z b))
      /\ SlurmConfig.array (config self') = Returned (VRange a (b + 1) 1)
      /\ iterate (VRange a (b + 1) 1) = Returned (map VInt items)
      /\ Z.of_nat (List.length items) = b - a + 1
      /\ (forall z, In z items <-> a <= z <= b)
      /\ StronglySorted Z.lt items).
Proof.
  split.
  - destruct (getitem_range_ends 0 n Hn) as [Hlo Hhi].
    eexists. exists (range_items 0 (n + 1) 1).
    split; [apply (add_arguments_array self (VInt n) _ _ _ eq_refl Hlo Hhi)|].
    split; [apply array_stored|]. split; [apply array_stored|].
    split; [reflexivity|].
    split; [rewrite length_range_items; lia|].
    split; [intros z; now apply in_range_items|apply sorted_range_items].
  - destruct (getitem_range_ends a b Hab) as [Hlo Hhi].
    assert (0 <= b) as Hb by lia.
    eexists. exists (range_items a (b + 1) 1).
    split; [apply (add_arguments_array self _ _ _ _
                     (normalize_array_range_string a b Ha Hb) Hlo Hhi)|].
    split; [apply array_stored|]. split; [apply array_stored|].
    split; [reflexivity|].
    split; [now apply length_range_items|].
    split; [intros z; now apply in_range_items|apply sorted_range_items].
Qed.

Lemma array_normalization_witness :
  exists self' items,
    Slurm.add_arguments [("array", VInt 3)]
      (Slurm.__init__ (SlurmConfig.__init__ VNone [])) = (Returned tt, self')
    /\ dict_get "array" (_args (config self')) = Some (VStr "0-3")
    /\ SlurmConfig.array (config self') = Returned (VRange 0 4 1)
    /\ iterate (VRange 0 4 1) = Returned (map VInt items)
    /\ Z.of_nat (List.length items) = 4
    /\ (forall z, In z items <-> 0 <= z <= 3)
    /\ StronglySorted Z.lt items.
Proof.
  exact (proj1 (array_normalization
                  (Slurm.__init__ (SlurmConfig.__init__ VNone [])) 3 2 7
                  ltac:(lia) ltac:(lia) ltac:(lia))).
Defined.

(** ** Array specifications that are refused *)

Section Refused.

Lemma int_of_str_raises (s : string) (e : exn) :
  int_of_str s = Raised e -> e = ValueError.
Proof.
  unfold int_of_str.
  destruct (match int_strip s with
            | "" => (false, int_strip s)
            | String c r =>
                if Ascii.eqb c "-" then (true, r)
                else if Ascii.eqb c "+" then (false, r)
                else (false, int_strip s)
            end) as [neg body].
  destruct body as [|c r]; [congruence|].
  destruct (is_digit c); [|congruence].
  destruct (literal (String c r)); congruence.
Qed.

Lemma omap_int_of_str_raises (l : list string) (part : string) :
  In part l -> int_of_str part = Raised ValueError ->
  omap int_of_str l = Raised ValueError.
Proof.
  induction l as [|x r IH]; simpl; [tauto|].
  intros [->|Hin] Hpart.
  - now rewrite Hpart.
  - destruct (int_of_str x) as [z|e] eqn:E; simpl.
    + now rewrite (IH Hin Hpart).
    + now rewrite (int_of_str_raises _ _ E).
Qed.

Lemma getitem_empty_range (a b : Z) :
  b < a -> getitem (VRange a (b + 1) 1) 0 = Raised IndexError.
Proof.
  intros H. unfold getitem, range_len.
  change (0 <? 1) with true. change (0 <? 0) with false. cbv iota.
  assert ((a <? b + 1) = false) as -> by lia.
  reflexivity.
Qed.

Lemma str_of_Z_not_empty (n : Z) :
  0 <= n -> (1 <= String.length (str_of_Z n))%nat.
Proof.
  intros Hn. destruct (str_of_Z_nonneg n Hn) as (u & Hu & -> & _).
  destruct u; simpl; try lia. congruence.
Qed.

End Refused.

(** C8, as the program has it.  An array string with a part between
    hyphens that is not an integer literal makes [add_arguments] fail at
    the call with [ValueError], and one whose parts are integers with the
    last below the first makes it fail at the call with [IndexError];
    nothing is stored in either case. *)
Theorem malformed_array_raises (self : slurm) (s : string) :
  (forall part,
      In part (split_char "-" s) -> int_of_str part = Raised ValueError ->
      Slurm.add_arguments [("array", VStr s)] self = (Raised ValueError, self))
  /\ (forall parts,
      omap int_of_str (split_char "-" s) = Returned parts ->
      last parts 0 < hd 0 parts ->
      Slurm.add_arguments [("array", VStr s)] self = (Raised IndexError, self)).
Proof.
  split.
  - intros part Hin Hpart. apply add_arguments_array_raises. simpl.
    now rewrite (omap_int_of_str_raises _ _ Hin Hpart).
  - intros parts Hparts Hrev. apply add_arguments_array_raises. simpl.
    rewrite Hparts. unfold obind at 1 2.
    now rewrite (getitem_empty_range _ _ Hrev).
Qed.

Lemma malformed_array_raises_witness :
  Slurm.add_arguments [("array", VStr "0-10:2")]
    (Slurm.__init__ (SlurmConfig.__init__ VNone []))
  = (Raised ValueError, Slurm.__init__ (SlurmConfig.__init__ VNone []))
  /\ Slurm.add_arguments [("array", VStr "5-3")]
       (Slurm.__init__ (SlurmConfig.__init__ VNone []))
     = (Raised IndexError, Slurm.__init__ (SlurmConfig.__init__ VNone [])).
Proof.
  split.
  - apply (proj1 (malformed_array_raises _ "0-10:2") "10:2");
      [simpl; tauto | reflexivity].
  - apply (proj2 (malformed_array_raises _ "5-3") [5; 3]);
      [reflexivity | simpl; lia].
Defined.

(** C8 does not hold as stated: the array string ["5"], which is no range
    string, is accepted and stored as ["5-5"]. *)
Lemma array_without_hyphen_is_accepted :
  ~ well_formed_range "5"
  /\ exists self',
      Slurm.add_arguments [("array", VStr "5")]
        (Slurm.__init__ (SlurmConfig.__init__ VNone [])) = (Returned tt, self')
      /\ dict_get "array" (_args (config self')) = Some (VStr "5-5").
Proof.
  split.
  - intros (a & b & Hab & E).
    apply (f_equal String.length) in E.
    rewrite !length_append in E. simpl in E.
    pose proof (str_of_Z_not_empty a ltac:(lia)).
    pose proof (str_of_Z_not_empty b ltac:(lia)). lia.
  - eexists. split; reflexivity.
Qed.

(** ** Durations *)

Section Durations.

Lemma format_zero_two_digits (z : Z) :
  0 <= z < 100 -> format_zero 2 z = two_digits z.
Proof.
  intros Hz.
  assert (forallb (fun n => String.eqb (format_zero 2 (Z.of_nat n))
                              (two_digits (Z.of_nat n)))
            (seq 0 100) = true) as Hall by (vm_compute; reflexivity).
  rewrite forallb_forall in Hall.
  specialize (Hall (Z.to_nat z)).
  rewrite Z2Nat.id in Hall by lia.
  apply String.eqb_eq, Hall, in_seq. lia.
Qed.

Lemma round_half_even_exact (x d : Z) :
  0 < d -> round_half_even (x * d) d = x.
Proof.
  intros Hd. unfold round_half_even.
  rewrite Z.div_mul, Z.mod_mul by lia.
  change (2 * 0) with 0.
  now destruct (Z.compare_spec 0 d); try lia.
Qed.

(** A quotient that is an integer below [2^52] in magnitude is computed
    exactly. *)
Lemma true_div_exact (N b : Z) :
  0 < b -> Z.abs N < 2 ^ 52 ->
  (true_div (N * b) b == inject_Z N)%Q
  /\ int_of_float (true_div (N * b) b) = N.
Proof.
  intros Hb HN. unfold true_div.
  destruct (Z.eqb_spec (N * b) 0) as [E|E].
  - assert (N = 0) as -> by nia. split; reflexivity.
  - assert (N <> 0) as HN0 by (intros ->; lia).
    rewrite Z.abs_mul, (Z.abs_eq b) by lia.
    unfold binade.
    assert ((b <=? Z.abs N * b) = true) as -> by (apply Z.leb_le; nia).
    rewrite Z.div_mul by lia.
    pose proof (Z.log2_nonneg (Z.abs N)) as Hk0.
    assert (Z.log2 (Z.abs N) < 52) as Hk
        by (apply Z.log2_lt_pow2; lia).
    set (k := Z.log2 (Z.abs N)) in *.
    assert ((0 <=? k - 52) = false) as -> by lia.
    set (j := - (k - 52)).
    assert (0 < 2 ^ j) as Hj by (apply Z.pow_pos_nonneg; lia).
    replace (Z.abs N * b * 2 ^ j) with (Z.abs N * 2 ^ j * b) by ring.
    rewrite round_half_even_exact by lia.
    destruct (Z.ltb_spec (N * b) 0) as [Hneg|Hpos].
    + assert (N < 0) by nia. split.
      * unfold Qeq. simpl. rewrite Z2Pos.id by lia.
        rewrite Z.abs_neq by lia. ring.
      * unfold int_of_float. simpl. rewrite Z2Pos.id by lia.
        rewrite Z.quot_opp_l, Z.quot_mul by lia. lia.
    + assert (0 < N) by nia. split.
      * unfold Qeq. simpl. rewrite Z2Pos.id by lia.
        rewrite Z.abs_eq by lia. ring.
      * unfold int_of_float. simpl. rewrite Z2Pos.id by lia.
        rewrite Z.quot_mul by lia. lia.
Qed.

Lemma total_seconds_whole (d : timedelta) :
  normalized d -> microseconds d = 0 ->
  (total_seconds d == inject_Z (days d * 86400 + seconds d))%Q
  /\ int_of_float (total_seconds d) = days d * 86400 + seconds d.
Proof.
  intros (Hd & Hs & _) Hu. unfold total_seconds. rewrite Hu, Z.add_0_r.
  apply true_div_exact; [reflexivity|].
  change (2 ^ 52) with 4503599627370496. lia.
Qed.

Lemma divmod_fields (t : Z) :
  let D := t / 86400 in
  let H := (t mod 86400) / 3600 in
  let Mi := ((t mod 86400) mod 3600) / 60 in
  let S := ((t mod 86400) mod 3600) mod 60 in
  0 <= H < 24 /\ 0 <= Mi < 60 /\ 0 <= S < 60
  /\ D * 86400 + H * 3600 + Mi * 60 + S = t.
Proof.
  cbv zeta. Z.to_euclidean_division_equations. lia.
Qed.

Lemma add_arguments_store (self : slurm) (key : string) (v : value) :
  String.eqb key "array" = false ->
  (forall d, v <> VTimedelta d) ->
  Slurm.add_arguments [(key, v)] self
  = (Returned tt,
     Slurm.with_config self
       (SlurmConfig.setattr (SlurmConfig.set_arg (config self) key v) key v)).
Proof.
  intros Hk Hv.
  unfold Slurm.add_arguments, forM_, Slurm.add_argument, bind. simpl.
  rewrite Hk. destruct v; try reflexivity. now destruct (Hv d).
Qed.

Lemma add_arguments_time (self : slurm) (d : timedelta) :
  let text := VStr (Slurm.normalize_duration d) in
  Slurm.add_arguments [("time", VTimedelta d)] self
  = (Returned tt,
     Slurm.with_config self
       (SlurmConfig.setattr
          (SlurmConfig.set_arg (config self) "time" text) "time" text)).
Proof. reflexivity. Qed.

End Durations.

(** C4, as the program has it.  A [timedelta] given under [time] is
    stored as the text [D-HH:MM:SS], with the days unpadded and hours,
    minutes and seconds in two digits; the fields recompose (86400 s per
    day, 3600 s per hour, 60 s per minute) to [int(d.total_seconds())],
    the total seconds truncated to a whole number, which is the total
    seconds of [d] itself when [d] has no microseconds.  A value of any
    other type is stored as given. *)
Theorem duration_normalization (self : slurm) (d : timedelta) (v : value)
  (Hv : forall d', v <> VTimedelta d') :
  (exists (self' : slurm) (D H Mi S : Z),
      Slurm.add_arguments [("time", VTimedelta d)] self = (Returned tt, self')
      /\ dict_get "time" (_args (config self'))
         = Some (VStr (str_of_Z D ++ "-" ++ two_digits H ++ ":"
                       ++ two_digits Mi ++ ":" ++ two_digits S))
      /\ 0 <= H < 24 /\ 0 <= Mi < 60 /\ 0 <= S < 60
      /\ D * 86400 + H * 3600 + Mi * 60 + S = int_of_float (total_seconds d)
      /\ (normalized d -> microseconds d = 0 ->
          (inject_Z (D * 86400 + H * 3600 + Mi * 60 + S)
           == total_seconds d)%Q))
  /\ (exists self',
      Slurm.add_arguments [("time", v)] self = (Returned tt, self')
      /\ dict_get "time" (_args (config self')) = Some v).
Proof.
  split.
  - set (t := int_of_float (total_seconds d)).
    destruct (divmod_fields t) as (HH & HM & HS & Hsum).
    eexists.
    exists (t / 86400), ((t mod 86400) / 3600),
      (((t mod 86400) mod 3600) / 60), (((t mod 86400) mod 3600) mod 60).
    split; [apply add_arguments_time|]. split.
    + cbn [config Slurm.with_config SlurmConfig.setattr String.eqb Ascii.eqb
             Bool.eqb _args SlurmConfig.set_arg].
      rewrite dict_get_set_same. unfold Slurm.normalize_duration.
      fold t. cbv zeta.
      now rewrite !format_zero_two_digits by lia.
    + split; [exact HH|]. split; [exact HM|]. split; [exact HS|].
      split; [exact Hsum|].
      intros Hnorm Hus. rewrite Hsum. unfold t.
      destruct (total_seconds_whole d Hnorm Hus) as [Hq Hi].
      rewrite Hi. symmetry. exact Hq.
  - eexists. split; [now apply add_arguments_store|].
    simpl. apply dict_get_set_same.
Qed.

Lemma duration_normalization_witness :
  exists self',
    Slurm.add_arguments [("time", VStr "1:00")]
      (Slurm.__init__ (SlurmConfig.__init__ VNone [])) = (Returned tt, self')
    /\ dict_get "time" (_args (config self')) = Some (VStr "1:00").
Proof.
  exact (proj2 (duration_normalization
                  (Slurm.__init__ (SlurmConfig.__init__ VNone []))
                  {| days := 1; seconds := 3661; microseconds := 0 |}
                  (VStr "1:00") ltac:(discriminate))).
Defined.

(** C4 does not hold as stated: for a duration of one and a half seconds
    the stored fields recompose to 1, not to the total seconds 3/2. *)
Lemma sub_second_duration_is_truncated :
  let d := {| days := 0; seconds := 1; microseconds := 500000 |} in
  normalized d
  /\ (exists self',
        Slurm.add_arguments [("time", VTimedelta d)]
          (Slurm.__init__ (SlurmConfig.__init__ VNone []))
        = (Returned tt, self')
        /\ dict_get "time" (_args (config self')) = Some (VStr "0-00:00:01"))
  /\ ~ (inject_Z (0 * 86400 + 0 * 3600 + 0 * 60 + 1) == total_seconds d)%Q.
Proof.
  cbv zeta. split; [|split].
  - unfold normalized. simpl. lia.
  - eexists. split; reflexivity.
  - vm_compute. discriminate.
Qed.

(** ** Rendering *)

Section Rendering.

Lemma fold_left_lines {A} (f : A -> string) (l : list A) (s : string) :
  fold_left (fun s x => s ++ nl ++ f x) l s
  = s ++ fold_right (fun x rest => nl ++ f x ++ rest) "" l.
Proof.
  revert s. induction l as [|x l IH]; intros s; cbn [fold_left fold_right].
  - now rewrite append_empty_r.
  - now rewrite IH, !append_assoc.
Qed.

Lemma join_lines (x : string) (l : list string) :
  join nl (x :: l) = x ++ fold_right (fun y rest => nl ++ y ++ rest) "" l.
Proof.
  revert x. induction l as [|y l IH]; intros x.
  - cbn [join fold_right]. now rewrite append_empty_r.
  - change (join nl (x :: y :: l)) with (x ++ nl ++ join nl (y :: l)).
    now rewrite IH.
Qed.

Lemma fold_right_lines_app {A} (f : A -> string) (l : list A) (rest : string) :
  fold_right (fun x rest => nl ++ f x ++ rest) rest l
  = fold_right (fun x rest => nl ++ f x ++ rest) "" l ++ rest.
Proof.
  induction l as [|x l IH]; cbn [fold_right]; [reflexivity|].
  now rewrite IH, !append_assoc.
Qed.

Lemma fold_right_lines_map {A} (f : A -> string) (l : list A) (rest : string) :
  fold_right (fun y rest => nl ++ y ++ rest) rest (map f l)
  = fold_right (fun x rest => nl ++ f x ++ rest) rest l.
Proof.
  induction l as [|x l IH]; cbn [fold_right map]; [reflexivity|].
  now rewrite IH.
Qed.

Lemma render_text (c : slurm_config) :
  fst (SlurmConfig.__str__ c) = join nl (script_lines c).
Proof.
  unfold SlurmConfig.__str__, script_lines. cbn [fst].
  rewrite join_lines, fold_right_app, !fold_right_lines_map.
  rewrite (fold_right_lines_app directive_line (_args c)
             (fold_right (fun x rest => nl ++ str x ++ rest) ""
                (_commands c))).
  rewrite (fold_left_lines str).
  rewrite (fold_left_lines (fun item =>
             "#SBATCH --" ++ replace_char "_" "-" (fst item) ++ "="
             ++ str (snd item))).
  now rewrite append_assoc.
Qed.

End Rendering.

(** C5. The rendered text is the line [#!<shell>], then one line
    [#SBATCH --<name>=<value>] per directive in insertion order with the
    underscores of the name turned into hyphens, then the commands, one per
    line in insertion order; each line but the first is preceded by a line
    feed.  Configurations with the same shell, directives and commands
    render the same text. *)
Theorem render_format (c c' : slurm_config)
  (Hshell : shell c = shell c') (Hargs : _args c = _args c')
  (Hcommands : _commands c = _commands c') :
  fst (SlurmConfig.__str__ c)
  = join nl (("#!" ++ str (shell c))
               :: map directive_line (_args c) ++ map str (_commands c))
  /\ fst (SlurmConfig.__str__ c) = fst (SlurmConfig.__str__ c').
Proof.
  split; [apply render_text|].
  rewrite !render_text. unfold script_lines.
  now rewrite Hshell, Hargs, Hcommands.
Qed.

Lemma render_format_witness :
  let c := SlurmConfig.add_command
             (SlurmConfig.add_command
                (SlurmConfig.__init__ VNone
                   [("job_name", VStr "test"); ("partition", VStr "gpu");
                    ("mem", VStr "4G")])
                (VStr "sleep 10")) (VStr "echo HI") in
  let c' := {| shell := shell c; _args := _args c;
               _commands := _commands c; attrs := [] |} in
  fst (SlurmConfig.__str__ c)
  = "#!/bin/bash" ++ nl ++ "#SBATCH --job-name=test" ++ nl
    ++ "#SBATCH --partition=gpu" ++ nl ++ "#SBATCH --mem=4G" ++ nl
    ++ "sleep 10" ++ nl ++ "echo HI"
  /\ fst (SlurmConfig.__str__ c) = fst (SlurmConfig.__str__ c').
Proof.
  cbv zeta.
  exact (render_format _
           {| shell := VStr "/bin/bash";
              _args := [("job_name", VStr "test"); ("partition", VStr "gpu");
                        ("mem", VStr "4G")];
              _commands := [VStr "sleep 10"; VStr "echo HI"];
              attrs := [] |} eq_refl eq_refl eq_refl).
Defined.

(** C9. Rendering leaves the configuration as it was: the directives keep
    their underscore names and their values, and the commands are the same
    list; the hyphens appear in the text only. *)
Theorem render_preserves_state (self : slurm) :
  let c := config self in
  snd (SlurmConfig.__str__ c) = c
  /\ _args (snd (SlurmConfig.__str__ c)) = _args c
  /\ _commands (snd (SlurmConfig.__str__ c)) = _commands c
  /\ (forall name, dict_get name (_args (snd (SlurmConfig.__str__ c)))
                   = dict_get name (_args c))
  /\ snd (Slurm.__str__ self) = self
  /\ fst (Slurm.__str__ self)
     = join nl (("#!" ++ str (shell c))
                  :: map directive_line (_args c) ++ map str (_commands c)).
Proof.
  cbv zeta. do 4 (split; [reflexivity|]). split.
  - now destruct self.
  - unfold Slurm.__str__.
    pose proof (render_text (config self)) as H.
    destruct (SlurmConfig.__str__ (config self)) as [s c0].
    exact H.
Qed.

(** C10. [get_commands] returns the directive mapping, the very object
    [get_arguments] returns, and not the command list. *)
Theorem get_commands_returns_arguments (self : slurm) :
  Slurm.get_commands self = Slurm.get_arguments self
  /\ Slurm.get_commands self <> ref_commands
  /\ deref (config self) (Slurm.get_commands self)
     = Mapping (_args (config self))
  /\ deref (config self) (Slurm.get_commands self)
     <> Sequence (_commands (config self)).
Proof.
  repeat split; try reflexivity; discriminate.
Qed.

(** ** Job handles *)

Section Handles.
Context {world : Type} (B : Boundary world).

Lemma rstrip_app_nl (s : string) : rstrip (s ++ nl) = rstrip s.
Proof.
  induction s as [|c r IH]; [reflexivity|].
  cbn [append rstrip]. now rewrite IH.
Qed.

Lemma strip_app_nl (s : string) : strip (s ++ nl) = strip s.
Proof.
  unfold strip. induction s as [|c r IH]; [reflexivity|].
  cbn [append lstrip]. destruct (is_space c); [exact IH|].
  apply (rstrip_app_nl (String c r)).
Qed.

Lemma get_status_run (self : slurm_job) (rt : runtime world)
  (p : CompletedProcess) (w : world) :
  subprocess_run B ["squeue"; "-j"; job_id self; "-h"; "-o"; "%T"] (env rt)
  = (Returned p, w) ->
  SlurmJob.get_status B self rt
  = (Returned
       (if (returncode p =? 0) && negb (String.eqb (out p) "")
        then strip (out p) else SlurmJob.COMPLETED_OR_NOT_FOUND),
     {| env := w;
        calls := calls rt ++ [["squeue"; "-j"; job_id self; "-h"; "-o"; "%T"]];
        class_job_name := class_job_name rt |}).
Proof.
  intros Hrun.
  unfold SlurmJob.get_status, catch, bind, run_checked. rewrite Hrun.
  destruct (returncode p =? 0); [|reflexivity].
  now destruct (String.eqb (out p) "").
Qed.

Lemma get_status_not_started (self : slurm_job) (rt : runtime world)
  (e : exn) (w : world) :
  subprocess_run B ["squeue"; "-j"; job_id self; "-h"; "-o"; "%T"] (env rt)
  = (Raised e, w) ->
  (forall rc, e <> CalledProcessError rc) ->
  SlurmJob.get_status B self rt
  = (Raised e,
     {| env := w;
        calls := calls rt ++ [["squeue"; "-j"; job_id self; "-h"; "-o"; "%T"]];
        class_job_name := class_job_name rt |}).
Proof.
  intros Hrun He.
  unfold SlurmJob.get_status, catch, bind, run_checked. rewrite Hrun.
  destruct e; try reflexivity. now destruct (He returncode0).
Qed.

End Handles.

(** C6, as the program has it.  When the status query runs, [get_status]
    returns the state the scheduler reports (the output without
    surrounding white space) if the query exits with zero and prints
    something, and the sentinel both when it prints nothing and when it
    exits non-zero, and it raises nothing.  When the query cannot be run
    at all (the command is not found, say), the error of the attempt is
    not caught: [get_status] and [is_queued] raise it.  Whenever
    [get_status] returns, [is_queued] is true exactly when the status is
    [PENDING] or [RUNNING]. *)
Theorem get_status_best_effort {world : Type} (B : Boundary world)
  (self : slurm_job) (rt : runtime world) (r : outcome CompletedProcess)
  (w : world)
  (Hrun : subprocess_run B ["squeue"; "-j"; job_id self; "-h"; "-o"; "%T"]
            (env rt) = (r, w)) :
  (forall p, r = Returned p ->
     (returncode p = 0 -> out p <> "" ->
      fst (SlurmJob.get_status B self rt) = Returned (strip (out p)))
     /\ (forall state,
           returncode p = 0 -> state <> "" -> strip state = state ->
           out p = state ++ nl ->
           fst (SlurmJob.get_status B self rt) = Returned state)
     /\ (returncode p = 0 -> out p = "" ->
         fst (SlurmJob.get_status B self rt)
         = Returned SlurmJob.COMPLETED_OR_NOT_FOUND)
     /\ (returncode p <> 0 ->
         fst (SlurmJob.get_status B self rt)
         = Returned SlurmJob.COMPLETED_OR_NOT_FOUND)
     /\ (exists status, fst (SlurmJob.get_status B self rt) = Returned status))
  /\ (forall e, r = Raised e -> (forall rc, e <> CalledProcessError rc) ->
      fst (SlurmJob.get_status B self rt) = Raised e
      /\ fst (SlurmJob.is_queued B self rt) = Raised e)
  /\ (forall status,
      fst (SlurmJob.get_status B self rt) = Returned status ->
      exists queued,
        fst (SlurmJob.is_queued B self rt) = Returned queued
        /\ (queued = true <-> status = "PENDING" \/ status = "RUNNING")).
Proof.
  split; [|split].
  - intros p ->.
    pose proof (get_status_run B self rt p w Hrun) as Hs.
    assert (forall o : string, o <> "" -> String.eqb o "" = false) as Hne
        by (intros o Ho; now apply String.eqb_neq).
    split; [|split; [|split; [|split]]].
    + intros Hrc Hout. rewrite Hs, Hrc. cbn [fst]. now rewrite (Hne _ Hout).
    + intros state Hrc Hstate Hstrip Hout. rewrite Hs, Hrc, Hout. cbn [fst].
      rewrite Hne, strip_app_nl; [now rewrite Hstrip|].
      destruct state; [congruence|discriminate].
    + intros Hrc Hout. rewrite Hs, Hrc, Hout. reflexivity.
    + intros Hrc. rewrite Hs. cbn [fst].
      now destruct (Z.eqb_spec (returncode p) 0).
    + eexists. now rewrite Hs.
  - intros e -> He.
    pose proof (get_status_not_started B self rt e w Hrun He) as Hs.
    split; [now rewrite Hs|].
    unfold SlurmJob.is_queued, bind. now rewrite Hs.
  - intros status Hs. unfold SlurmJob.is_queued, bind.
    destruct (SlurmJob.get_status B self rt) as [res rt1]. cbn [fst] in Hs.
    subst res. eexists. split; [reflexivity|].
    rewrite orb_true_iff, !String.eqb_eq. reflexivity.
Qed.

Lemma get_status_best_effort_witness :
  fst (SlurmJob.get_status (scripted accepting)
         {| job_id := "4821"; array_num := 0; array_job_id := None;
            submission_details := [] |} boot)
  = Returned "PENDING".
Proof.
  apply (proj1 (proj2 (proj1 (get_status_best_effort (scripted accepting)
                         {| job_id := "4821"; array_num := 0;
                            array_job_id := None; submission_details := [] |}
                         boot (Returned (completed 0 ("PENDING" ++ nl))) tt
                         eq_refl)
                         (completed 0 ("PENDING" ++ nl)) eq_refl)));
    [reflexivity | discriminate | reflexivity | reflexivity].
Defined.

(** C6 does not hold as stated: where the status query cannot be started,
    [get_status] raises the error of the attempt. *)
Lemma get_status_raises_when_query_cannot_start :
  fst (SlurmJob.get_status unavailable
         {| job_id := "4821"; array_num := 0; array_job_id := None;
            submission_details := [] |} boot)
  = Raised FileNotFoundError
  /\ forall status,
      fst (SlurmJob.get_status unavailable
             {| job_id := "4821"; array_num := 0; array_job_id := None;
                submission_details := [] |} boot)
      <> Returned status.
Proof.
  split; [reflexivity|discriminate].
Qed.

(** C7. [cancel] runs the cancellation command whatever the state of the
    job, without asking for its status first; it returns true exactly when
    the command exits with zero, and false, without raising, otherwise. *)
Theorem cancel_reports_exit_status {world : Type} (B : Boundary world)
  (self : slurm_job) (rt : runtime world) (p : CompletedProcess) (w : world)
  (Hrun : subprocess_run B ["scancel"; job_id self] (env rt)
          = (Returned p, w)) :
  SlurmJob.cancel B self rt
  = (Returned (returncode p =? 0),
     {| env := w; calls := calls rt ++ [["scancel"; job_id self]];
        class_job_name := class_job_name rt |})
  /\ (fst (SlurmJob.cancel B self rt) = Returned true <-> returncode p = 0)
  /\ (returncode p <> 0 -> fst (SlurmJob.cancel B self rt) = Returned false).
Proof.
  assert (SlurmJob.cancel B self rt
          = (Returned (returncode p =? 0),
             {| env := w; calls := calls rt ++ [["scancel"; job_id self]];
                class_job_name := class_job_name rt |})) as Hc.
  { unfold SlurmJob.cancel, SlurmJob.is_queued_attribute, catch, bind,
      run_checked.
    cbn [negb]. rewrite Hrun. now destruct (returncode p =? 0). }
  rewrite Hc. cbn [fst]. split; [reflexivity|]. split.
  - split.
    + intros [= H]. now apply Z.eqb_eq.
    + intros H. now rewrite H.
  - intros H. now destruct (Z.eqb_spec (returncode p) 0).
Qed.

Lemma cancel_reports_exit_status_witness :
  SlurmJob.cancel (scripted (fun _ => completed 1 ""))
    {| job_id := "4821"; array_num := 0; array_job_id := None;
       submission_details := [] |} boot
  = (Returned false,
     {| env := tt; calls := [["scancel"; "4821"]]; class_job_name := None |}).
Proof.
  exact (proj1 (cancel_reports_exit_status (scripted (fun _ => completed 1 ""))
                  {| job_id := "4821"; array_num := 0; array_job_id := None;
                     submission_details := [] |}
                  boot (completed 1 "") tt eq_refl)).
Defined.

(** ** Submission *)

Section SearchJobId.

Lemma starts_with_drop (p s : string) :
  starts_with p s = true -> s = p ++ drop (String.length p) s.
Proof.
  revert s. induction p as [|a p IH]; intros s; [reflexivity|].
  destruct s as [|b s]; [discriminate|]. cbn [starts_with].
  intros H. apply andb_prop in H as [Hab Hp].
  apply Ascii.eqb_eq in Hab as ->. cbn [String.length drop append].
  now rewrite <- (IH _ Hp).
Qed.

Lemma take_digits_empty (s : string) :
  take_digits s = "" ->
  s = "" \/ exists c r, s = String c r /\ is_digit c = false.
Proof.
  destruct s as [|c r]; [now left|]. cbn [take_digits].
  destruct (is_digit c) eqn:E; [discriminate|]. right. now exists c, r.
Qed.

(** No decimal integer follows the acknowledgment anywhere in the text:
    the search finds nothing. *)
Lemma search_job_id_none (s : string) :
  (forall pre d post,
      is_digit d = true -> s <> pre ++ ack ++ String d post) ->
  search_job_id s = None.
Proof.
  induction s as [|c r IH]; intros H.
  - reflexivity.
  - assert (search_job_id r = None) as Hr.
    { apply IH. intros pre d post Hd E.
      apply (H (String c pre) d post Hd). cbn [append]. now rewrite E. }
    unfold search_job_id; fold search_job_id. rewrite Hr.
    destruct (starts_with ack (String c r)) eqn:Hs; [|reflexivity].
    apply starts_with_drop in Hs.
    destruct (take_digits (drop (String.length ack) (String c r)))
      as [|d ds] eqn:Ht; [reflexivity|].
    exfalso.
    destruct (drop (String.length ack) (String c r)) as [|x rest] eqn:Hd;
      [discriminate|].
    cbn [take_digits] in Ht. destruct (is_digit x) eqn:Hx; [|discriminate].
    apply (H "" x rest Hx). exact Hs.
Qed.

Lemma take_digits_app (id rest : string) :
  digits_only id = true ->
  (forall c r, rest = String c r -> is_digit c = false) ->
  take_digits (id ++ rest) = id.
Proof.
  intros Hid Hrest. induction id as [|c r IH]; cbn [append].
  - destruct rest as [|c r]; [reflexivity|].
    cbn [take_digits]. now rewrite (Hrest c r eq_refl).
  - cbn [digits_only] in Hid. apply andb_prop in Hid as [Hc Hr].
    cbn [take_digits]. now rewrite Hc, (IH Hr).
Qed.

(** The acknowledgment as the scheduler prints it. *)
Lemma search_job_id_ack (id rest : string) :
  digits_only id = true -> id <> "" ->
  (forall c r, rest = String c r -> is_digit c = false) ->
  search_job_id (ack ++ id ++ rest) = Some id.
Proof.
  intros Hid Hne Hrest.
  change (ack ++ id ++ rest)
    with (String "S" ("ubmitted batch job " ++ id ++ rest)).
  unfold search_job_id; fold search_job_id.
  change (starts_with ack (String "S" ("ubmitted batch job " ++ id ++ rest)))
    with true.
  change (drop (String.length ack)
            (String "S" ("ubmitted batch job " ++ id ++ rest)))
    with (id ++ rest).
  rewrite (take_digits_app _ _ Hid Hrest).
  destruct id; [congruence|reflexivity].
Qed.

End SearchJobId.

Section SubmissionFacts.
Context {world : Type} (B : Boundary world).

#[local] Abbreviation keeps m := (@keeps_manager world _ m).

Lemma keeps_bind {A C} (m : M (@Slurm.state world) A)
  (k : A -> M (@Slurm.state world) C) :
  keeps m -> (forall a, keeps (k a)) ->
  keeps (bind m k).
Proof.
  intros Hm Hk st. unfold bind. specialize (Hm st).
  destruct (m st) as [[a|e] st']; cbn [snd] in *; [|exact Hm].
  now rewrite Hk.
Qed.

Lemma keeps_ret {A} (a : A) : keeps (ret a).
Proof. now intros st. Qed.

Lemma keeps_get : keeps get.
Proof. now intros st. Qed.

Lemma keeps_lift {A} (x : outcome A) : keeps (lift x).
Proof. now intros st. Qed.

Lemma keeps_on_snd {A} (m : M (runtime world) A) :
  keeps (on_snd m).
Proof. intros st. unfold on_snd. now destruct (m (snd st)). Qed.

Lemma keeps_render :
  keeps
    (on_fst (fun self : slurm =>
               let '(s, self') := Slurm.__str__ self in (Returned s, self'))).
Proof. intros [self rt]. now destruct self. Qed.

Lemma keeps_prepare (shell_arg : value) (save : bool)
  (output_path : option string) :
  keeps (Slurm.prepare B shell_arg save output_path).
Proof.
  assert (keeps (@Slurm.config_job_name world)) as Hname.
  { apply keeps_bind; [apply keeps_get|intros; apply keeps_lift]. }
  unfold Slurm.prepare.
  apply keeps_bind; [apply keeps_get|intros st0].
  apply keeps_bind; [apply keeps_on_snd|intros _].
  apply keeps_bind.
  - destruct save; [|apply keeps_ret].
    apply keeps_bind; [exact Hname|intros name].
    apply keeps_bind; [|intros; apply keeps_ret].
    unfold Slurm._serialize_config.
    apply keeps_bind; [apply keeps_lift|intros].
    apply keeps_bind; [apply keeps_get|intros].
    apply keeps_bind; [apply keeps_on_snd|intros; apply keeps_ret].
  - intros _. apply keeps_bind; [exact Hname|intros name].
    unfold Slurm._write_submission_script.
    apply keeps_bind; [apply keeps_lift|intros].
    apply keeps_bind; [apply keeps_render|intros].
    apply keeps_bind; [apply keeps_on_snd|intros; apply keeps_ret].
Qed.

Lemma submit_without_id (self : slurm) (rt : runtime world) (path : string)
  (p : CompletedProcess) (w : world) :
  subprocess_run B ["sbatch"; path] (env rt) = (Returned p, w) ->
  returncode p = 0 -> search_job_id (out p) = None ->
  Slurm.submit B path (self, rt)
  = (Returned [], (submitted self p None, after_run rt ["sbatch"; path] w)).
Proof.
  intros Hrun Hrc Hnone.
  unfold Slurm.submit, bind, on_snd, run_checked. cbn [fst snd].
  rewrite Hrun, Hrc. cbn. rewrite Hnone. reflexivity.
Qed.

Lemma submit_single (self : slurm) (rt : runtime world) (path id : string)
  (p : CompletedProcess) (w : world) :
  SlurmConfig.is_array_job (config self) = false ->
  subprocess_run B ["sbatch"; path] (env rt) = (Returned p, w) ->
  returncode p = 0 -> search_job_id (out p) = Some id ->
  Slurm.submit B path (self, rt)
  = (Raised TypeError,
     (submitted self p (Some id), after_run rt ["sbatch"; path] w)).
Proof.
  intros Harr Hrun Hrc Hid.
  unfold Slurm.submit, bind, on_snd, run_checked. cbn [fst snd].
  rewrite Hrun, Hrc. cbn. rewrite Hid. cbn. rewrite Harr. reflexivity.
Qed.

(** The array path of [sbatch] on the scripted scheduler: one handle per
    index of the range, each with the identifier of the submission. *)
Example sbatch_array_scenario :
  let self :=
    snd (Slurm.add_arguments [("array", VInt 3)]
           (Slurm.__init__
              (SlurmConfig.__init__ VNone [("job_name", VStr "test")]))) in
  let handle i :=
    {| job_id := "4821"; array_num := i;
       array_job_id := Some ("4821_" ++ str_of_Z i);
       submission_details := [("JobId", "4821"); ("JobName", "test")] |} in
  fst (Slurm.sbatch (scripted accepting) VNone true None (self, boot))
  = Returned [handle 0; handle 1; handle 2; handle 3].
Proof. reflexivity. Qed.

End SubmissionFacts.

(** C1, on the program.  For a configuration without an [array] directive,
    once the scheduler has accepted the script and printed a job
    identifier, [sbatch] builds its one job handle without the array index
    the constructor requires: the call raises [TypeError], and the manager
    is left with the identifier and an empty list of jobs. *)
Theorem sbatch_single_job_raises {world : Type} (B : Boundary world)
  (self : slurm) (rt : runtime world) (shell_arg : value) (save : bool)
  (output_path : option string) (path id : string)
  (st1 : slurm * runtime world) (p : CompletedProcess) (w : world)
  (Harr : SlurmConfig.is_array_job (config self) = false)
  (Hprep : Slurm.prepare B shell_arg save output_path (self, rt)
           = (Returned path, st1))
  (Hrun : subprocess_run B ["sbatch"; path] (env (snd st1))
          = (Returned p, w))
  (Hrc : returncode p = 0)
  (Hid : search_job_id (out p) = Some id) :
  Slurm.sbatch B shell_arg save output_path (self, rt)
  = (Raised TypeError,
     (submitted self p (Some id), after_run (snd st1) ["sbatch"; path] w)).
Proof.
  pose proof (keeps_prepare B shell_arg save output_path (self, rt)) as Hk.
  unfold Slurm.sbatch, bind. rewrite Hprep in *.
  destruct st1 as [self1 rt1]. cbn [fst snd] in *. subst self1.
  now apply submit_single.
Qed.

Lemma sbatch_single_job_raises_witness :
  let self := Slurm.__init__
                (SlurmConfig.__init__ VNone [("job_name", VStr "test")]) in
  fst (Slurm.sbatch (scripted accepting) VNone true None (self, boot))
  = Raised TypeError.
Proof.
  cbv zeta.
  rewrite (sbatch_single_job_raises (scripted accepting)
             (Slurm.__init__
                (SlurmConfig.__init__ VNone [("job_name", VStr "test")]))
             boot VNone true None "/opt/supa_slurm/test.sh" "4821"
             (Slurm.__init__
                (SlurmConfig.__init__ VNone [("job_name", VStr "test")]),
              boot)
             (completed 0 ("Submitted batch job 4821" ++ nl)) tt
             eq_refl eq_refl eq_refl eq_refl eq_refl).
  reflexivity.
Defined.

(** C2, as the program has it.  When the submit command exits with zero
    and no decimal integer follows the acknowledgment anywhere in its
    output, [sbatch] does not fail: it returns the empty list, and the
    manager holds the captured output and an empty list of jobs. *)
Theorem sbatch_without_job_id {world : Type} (B : Boundary world)
  (self : slurm) (rt : runtime world) (shell_arg : value) (save : bool)
  (output_path : option string) (path : string)
  (st1 : slurm * runtime world) (p : CompletedProcess) (w : world)
  (Hprep : Slurm.prepare B shell_arg save output_path (self, rt)
           = (Returned path, st1))
  (Hrun : subprocess_run B ["sbatch"; path] (env (snd st1))
          = (Returned p, w))
  (Hrc : returncode p = 0)
  (Hnone : forall pre d post,
      is_digit d = true -> out p <> pre ++ ack ++ String d post) :
  Slurm.sbatch B shell_arg save output_path (self, rt)
  = (Returned [],
     (submitted self p None, after_run (snd st1) ["sbatch"; path] w)).
Proof.
  pose proof (keeps_prepare B shell_arg save output_path (self, rt)) as Hk.
  unfold Slurm.sbatch, bind. rewrite Hprep in *.
  destruct st1 as [self1 rt1]. cbn [fst snd] in *. subst self1.
  apply submit_without_id; [assumption|assumption|].
  now apply search_job_id_none.
Qed.

Lemma sbatch_without_job_id_witness :
  let self := Slurm.__init__
                (SlurmConfig.__init__ VNone [("job_name", VStr "test")]) in
  fst (Slurm.sbatch (scripted (fun _ => completed 0 "")) VNone true None
         (self, boot))
  = Returned [].
Proof.
  cbv zeta.
  rewrite (sbatch_without_job_id (scripted (fun _ => completed 0 ""))
             (Slurm.__init__
                (SlurmConfig.__init__ VNone [("job_name", VStr "test")]))
             boot VNone true None "/opt/supa_slurm/test.sh"
             (Slurm.__init__
                (SlurmConfig.__init__ VNone [("job_name", VStr "test")]),
              boot)
             (completed 0 "") tt eq_refl eq_refl eq_refl).
  - reflexivity.
  - intros pre d post _ E. apply (f_equal String.length) in E.
    rewrite !length_append in E. cbn in E. lia.
Defined.

(** C2 does not hold as stated: a submit command that exits with zero and
    prints the acknowledgment without a number makes [sbatch] return the
    empty list; nothing is raised. *)
Lemma sbatch_without_job_id_does_not_fail :
  let answer := fun _ : list string => completed 0 "Submitted batch job" in
  let self := Slurm.__init__
                (SlurmConfig.__init__ VNone [("job_name", VStr "test")]) in
  returncode (answer ["sbatch"; "/opt/supa_slurm/test.sh"]) = 0
  /\ search_job_id (out (answer ["sbatch"; "/opt/supa_slurm/test.sh"])) = None
  /\ fst (Slurm.sbatch (scripted answer) VNone true None (self, boot))
     = Returned []
  /\ forall e,
      fst (Slurm.sbatch (scripted answer) VNone true None (self, boot))
      <> Raised e.
Proof.
  cbv zeta. repeat split; discriminate.
Qed.

(** * Further properties *)

(** ** The directive store *)

Section DirectiveStore.

Lemma dict_get_set_other {V} (k k' : string) (v : V) (d : list (string * V)) :
  k' <> k -> dict_get k' (dict_set k v d) = dict_get k' d.
Proof.
  intros Hne. induction d as [|[k0 v0] r IH]; simpl.
  - now apply String.eqb_neq in Hne as ->.
  - destruct (String.eqb k k0) eqn:E; simpl.
    + apply String.eqb_eq in E as <-.
      now apply String.eqb_neq in Hne as ->.
    + now rewrite IH.
Qed.

Lemma dict_set_keys {V} (k : string) (v : V) (d : list (string * V)) :
  map fst (dict_set k v d)
  = if dict_mem k d then map fst d else (map fst d ++ [k])%list.
Proof.
  unfold dict_mem. induction d as [|[k0 v0] r IH]; simpl; [reflexivity|].
  destruct (String.eqb k k0) eqn:E; simpl.
  - apply String.eqb_eq in E as <-. reflexivity.
  - rewrite IH. now destruct (dict_get k r).
Qed.

Lemma dict_mem_set {V} (k k' : string) (v : V) (d : list (string * V)) :
  dict_mem k' (dict_set k v d) = String.eqb k' k || dict_mem k' d.
Proof.
  unfold dict_mem. destruct (String.eqb_spec k' k) as [->|Hne].
  - now rewrite dict_get_set_same.
  - now rewrite dict_get_set_other.
Qed.

Lemma dict_set_fresh {V} (k : string) (v : V) (d : list (string * V)) :
  dict_mem k d = false -> dict_set k v d = (d ++ [(k, v)])%list.
Proof.
  unfold dict_mem. induction d as [|[k0 v0] r IH]; simpl; [reflexivity|].
  destruct (String.eqb k k0); [discriminate|].
  intros H. now rewrite IH.
Qed.

Lemma add_argument_cases (key : string) (val : value) :
  exists val',
    Slurm.add_argument (key, val)
    = if String.eqb key "array" then
        (r <- lift (Slurm.normalize_array val') ;;
         first <- lift (getitem r 0) ;;
         final <- lift (getitem r (-1)) ;;
         Slurm.store key (VStr (str first ++ "-" ++ str final)) r)
      else Slurm.store key val' val'.
Proof. destruct val; eexists; reflexivity. Qed.

(** What one keyword does: it stores something under its name, or it
    raises and leaves the manager alone. *)
Lemma add_argument_effect (kv : string * value) (self : slurm) :
  (exists stored attribute,
      Slurm.add_argument kv self
      = (Returned tt,
         Slurm.with_config self
           (SlurmConfig.setattr
              (SlurmConfig.set_arg (config self) (fst kv) stored)
              (fst kv) attribute)))
  \/ (exists e, Slurm.add_argument kv self = (Raised e, self)).
Proof.
  destruct kv as [key val]. cbn [fst snd].
  destruct (add_argument_cases key val) as [val' ->].
  destruct (String.eqb key "array").
  - unfold bind, lift.
    destruct (Slurm.normalize_array val') as [r|e]; [|right; now exists e].
    destruct (getitem r 0) as [lo|e]; [|right; now exists e].
    destruct (getitem r (-1)) as [hi|e]; [|right; now exists e].
    left. now exists (VStr (str lo ++ "-" ++ str hi)), r.
  - left. now exists val', val'.
Qed.

End DirectiveStore.

(** ** Construction *)

Section Constructor.

Lemma dict_get_app {V} (k : string) (d1 d2 : list (string * V)) :
  dict_get k (d1 ++ d2)
  = match dict_get k d1 with
    | Some v => Some v
    | None => dict_get k d2
    end.
Proof.
  induction d1 as [|[k0 v0] r IH]; simpl; [reflexivity|].
  now destruct (String.eqb k k0).
Qed.

Lemma dict_mem_snoc {V} (k k' : string) (v : V) (d : list (string * V)) :
  dict_mem k' (d ++ [(k, v)]) = dict_mem k' d || String.eqb k' k.
Proof.
  unfold dict_mem. rewrite dict_get_app. simpl.
  destruct (dict_get k' d); [reflexivity|].
  now destruct (String.eqb k' k).
Qed.

Lemma init_fold (kwargs : dict) (c : slurm_config) :
  NoDup (map fst kwargs) ->
  ~ In "shell" (map fst kwargs) ->
  (forall k, In k (map fst kwargs) -> dict_mem k (_args c) = false) ->
  (forall k, In k (map fst kwargs) -> dict_mem k (attrs c) = false) ->
  let c' :=
    fold_left
      (fun self kv =>
         SlurmConfig.setattr (SlurmConfig.set_arg self (fst kv) (snd kv))
           (fst kv) (snd kv))
      kwargs c in
  _args c' = (_args c ++ kwargs)%list
  /\ attrs c' = (attrs c ++ kwargs)%list
  /\ _commands c' = _commands c /\ shell c' = shell c.
Proof.
  revert c. induction kwargs as [|[k v] r IH]; intros c Hnd Hsh Hargs Hattrs.
  - cbn. now rewrite !app_nil_r.
  - cbn [fold_left fst snd].
    inversion Hnd as [|? ? Hk Hr]; subst.
    assert (String.eqb k "shell" = false) as Ek.
    { apply String.eqb_neq. intros ->. apply Hsh. now left. }
    set (c1 := SlurmConfig.setattr (SlurmConfig.set_arg c k v) k v).
    assert (_args c1 = (_args c ++ [(k, v)])%list) as Ha.
    { unfold c1, SlurmConfig.setattr. rewrite Ek. cbn.
      apply dict_set_fresh, Hargs. now left. }
    assert (attrs c1 = (attrs c ++ [(k, v)])%list) as Hb.
    { unfold c1, SlurmConfig.setattr. rewrite Ek. cbn.
      apply dict_set_fresh, Hattrs. now left. }
    assert (_commands c1 = _commands c /\ shell c1 = shell c) as [Hc Hs].
    { unfold c1, SlurmConfig.setattr. rewrite Ek. now cbn. }
    assert (forall k', In k' (map fst r) -> String.eqb k' k = false) as Hne.
    { intros k' Hin. apply String.eqb_neq. intros ->. now apply Hk. }
    destruct (IH c1 Hr) as (Ia & Ib & Ic & Is).
    + intros Hin. apply Hsh. now right.
    + intros k' Hin. rewrite Ha, dict_mem_snoc, (Hne _ Hin), orb_false_r.
      apply Hargs. now right.
    + intros k' Hin. rewrite Hb, dict_mem_snoc, (Hne _ Hin), orb_false_r.
      apply Hattrs. now right.
    + cbv zeta. rewrite Ia, Ib, Ic, Is, Ha, Hb, Hc, Hs, <- !app_assoc.
      now cbn.
Qed.

Lemma in_dict_set {V} (k : string) (v : V) (d : list (string * V))
  (x : string * V) :
  In x (dict_set k v d) -> x = (k, v) \/ In x d.
Proof.
  induction d as [|[k0 v0] r IH]; simpl.
  - intros [<-|[]]. now left.
  - destruct (String.eqb k k0); simpl.
    + intros [<-|Hin]; [now left|right; now right].
    + intros [<-|Hin]; [right; now left|].
      destruct (IH Hin) as [->|Hr]; [now left|right; now right].
Qed.

Lemma setattr_keeps_attributes (c : slurm_config) (k : string)
  (stored attribute : value) :
  directives_are_attributes c = true ->
  directives_are_attributes
    (SlurmConfig.setattr (SlurmConfig.set_arg c k stored) k attribute) = true.
Proof.
  unfold directives_are_attributes. rewrite !forallb_forall.
  intros H [k' v'] Hin. cbn [fst].
  destruct (String.eqb_spec k' "shell") as [|Hsh]; [reflexivity|].
  cbn [orb].
  assert (In (k', v') (_args c) \/ k' = k) as Hcase.
  { assert (In (k', v') (dict_set k stored (_args c))) as Hin'
        by (unfold SlurmConfig.setattr in Hin;
            now destruct (String.eqb k "shell")).
    apply in_dict_set in Hin' as [E|Hold]; [right|now left].
    now inversion E. }
  unfold SlurmConfig.setattr, SlurmConfig.set_arg.
  destruct (String.eqb_spec k "shell") as [->|Hk]; cbn [attrs].
  - destruct Hcase as [Hold | ->]; [|congruence].
    specialize (H _ Hold). cbn [fst] in H.
    apply String.eqb_neq in Hsh. now rewrite Hsh in H.
  - rewrite dict_mem_set. destruct Hcase as [Hold| ->].
    + specialize (H _ Hold). cbn [fst] in H.
      apply String.eqb_neq in Hsh. rewrite Hsh in H. cbn in H.
      rewrite H. apply orb_true_r.
    + now rewrite String.eqb_refl.
Qed.

Lemma init_keeps_attributes (kwargs : dict) (c : slurm_config) :
  directives_are_attributes c = true ->
  directives_are_attributes
    (fold_left
       (fun self kv =>
          SlurmConfig.setattr (SlurmConfig.set_arg self (fst kv) (snd kv))
            (fst kv) (snd kv))
       kwargs c) = true.
Proof.
  revert c. induction kwargs as [|kv r IH]; intros c Hc; [exact Hc|].
  cbn [fold_left]. now apply IH, setattr_keeps_attributes.
Qed.

End Constructor.

(** X1. A configuration built from a shell and keyword arguments (whose
    names are distinct and never [shell], as the call syntax guarantees,
    and are names of directives, not of members of the class) holds
    exactly those keywords, in order, as its directives and as its
    attributes, has no commands, and has the given shell when that is
    truthy and [/bin/bash] otherwise. *)
Theorem constructor_stores_keywords (sh : value) (kwargs : dict)
  (Hdistinct : NoDup (map fst kwargs))
  (Hshell : ~ In "shell" (map fst kwargs))
  (Hnames : directive_names kwargs = true) :
  let c := SlurmConfig.__init__ sh kwargs in
  _args c = kwargs
  /\ attrs c = kwargs
  /\ _commands c = []
  /\ shell c = (if truthy sh then sh else VStr "/bin/bash")
  /\ directives_are_attributes c = true
  /\ SlurmConfig.is_array_job c = dict_mem "array" kwargs.
Proof.
  cbv zeta. unfold SlurmConfig.__init__.
  destruct (init_fold kwargs
              {| shell := if truthy sh then sh else VStr "/bin/bash";
                 _args := []; _commands := []; attrs := [] |}
              Hdistinct Hshell (fun _ _ => eq_refl) (fun _ _ => eq_refl))
    as (Ha & Hb & Hc & Hs).
  cbn in Ha, Hb, Hc, Hs.
  split; [exact Ha|]. split; [exact Hb|]. split; [exact Hc|].
  split; [exact Hs|]. split.
  - now apply init_keeps_attributes.
  - unfold SlurmConfig.is_array_job. now rewrite Ha.
Qed.

Lemma constructor_stores_keywords_witness :
  let c := SlurmConfig.__init__ (VStr "")
             [("job_name", VStr "test"); ("partition", VStr "gpu")] in
  _args c = [("job_name", VStr "test"); ("partition", VStr "gpu")]
  /\ attrs c = [("job_name", VStr "test"); ("partition", VStr "gpu")]
  /\ _commands c = []
  /\ shell c = VStr "/bin/bash"
  /\ directives_are_attributes c = true
  /\ SlurmConfig.is_array_job c = false.
Proof.
  apply (constructor_stores_keywords (VStr "")
           [("job_name", VStr "test"); ("partition", VStr "gpu")]).
  - repeat constructor; simpl; intuition discriminate.
  - simpl. intuition discriminate.
  - reflexivity.
Defined.

(** ** [add_arguments] and [add_commands] *)

Section Keywords.

Lemma add_arguments_cons (kv : string * value) (kw : dict) (self : slurm) :
  Slurm.add_arguments (kv :: kw) self
  = match Slurm.add_argument kv self with
    | (Returned _, self1) => Slurm.add_arguments kw self1
    | (Raised e, self1) => (Raised e, self1)
    end.
Proof.
  unfold Slurm.add_arguments. cbn [forM_]. unfold bind.
  now destruct (Slurm.add_argument kv self) as [[[]|e] self1].
Qed.

(** A relation between managers that holds across every step of
    [add_arguments] holds across the whole call, however it ends. *)
Lemma add_arguments_across (P : slurm -> slurm -> Prop) :
  (forall s, P s s) ->
  (forall s1 s2 s3, P s1 s2 -> P s2 s3 -> P s1 s3) ->
  (forall key stored attribute s,
      P s (Slurm.with_config s
             (SlurmConfig.setattr
                (SlurmConfig.set_arg (config s) key stored) key attribute))) ->
  forall kw s, P s (snd (Slurm.add_arguments kw s)).
Proof.
  intros Hrefl Htrans Hstep kw.
  induction kw as [|kv kw IH]; intros s; [apply Hrefl|].
  rewrite add_arguments_cons.
  destruct (add_argument_effect kv s) as [(st & at_ & ->)|(e & ->)].
  - eapply Htrans; [apply Hstep|apply IH].
  - apply Hrefl.
Qed.

Lemma stored_names (c : slurm_config) (key : string)
  (stored attribute : value) :
  _args (SlurmConfig.setattr (SlurmConfig.set_arg c key stored) key attribute)
  = dict_set key stored (_args c)
  /\ _commands
       (SlurmConfig.setattr (SlurmConfig.set_arg c key stored) key attribute)
     = _commands c.
Proof.
  unfold SlurmConfig.setattr. now destruct (String.eqb key "shell").
Qed.

End Keywords.

Section Frame.



End Frame.



(** X3. A value given under the name of a directive other than [array]
    (and, under [time], not a duration) is stored as given: the
    directive and the attribute of that name hold it afterwards, every
    other directive keeps its value, and the name keeps its place when
    it was there already and is appended otherwise. *)
Theorem add_arguments_overwrites_in_place (self : slurm) (key : string)
  (v : value)
  (Hname : directive_name key = true)
  (Hkey : key <> "array")
  (Hval : key = "time" -> forall d, v <> VTimedelta d) :
  exists self',
    Slurm.add_arguments [(key, v)] self = (Returned tt, self')
    /\ dict_get key (_args (config self')) = Some v
    /\ (forall other, other <> key ->
          dict_get other (_args (config self'))
          = dict_get other (_args (config self)))
    /\ map fst (_args (config self'))
       = (if dict_mem key (_args (config self))
          then map fst (_args (config self))
          else (map fst (_args (config self)) ++ [key])%list)
    /\ (key <> "shell" -> dict_get key (attrs (config self')) = Some v).
Proof.
  exists (Slurm.with_config self
            (SlurmConfig.setattr (SlurmConfig.set_arg (config self) key v)
               key v)).
  split.
  - rewrite add_arguments_cons.
    assert (Slurm.add_argument (key, v) = Slurm.store key v v) as ->.
    { unfold Slurm.add_argument. cbn [fst snd].
      apply String.eqb_neq in Hkey. rewrite Hkey.
      destruct v; try reflexivity.
      destruct (String.eqb_spec key "time") as [Ht|]; [|reflexivity].
      now destruct (Hval Ht d). }
    reflexivity.
  - cbn [config Slurm.with_config].
    destruct (stored_names (config self) key v v) as [-> _].
    split; [apply dict_get_set_same|].
    split; [intros other Hne; now apply dict_get_set_other|].
    split; [apply dict_set_keys|].
    intros Hsh. unfold SlurmConfig.setattr.
    apply String.eqb_neq in Hsh. rewrite Hsh. cbn [attrs].
    apply dict_get_set_same.
Qed.

Lemma add_arguments_overwrites_in_place_witness :
  exists self',
    Slurm.add_arguments [("partition", VStr "cpu")]
      (Slurm.__init__
         (SlurmConfig.__init__ VNone
            [("partition", VStr "gpu"); ("time", VStr "1:00")]))
    = (Returned tt, self')
    /\ _args (config self')
       = [("partition", VStr "cpu"); ("time", VStr "1:00")].
Proof.
  destruct (add_arguments_overwrites_in_place
              (Slurm.__init__
                 (SlurmConfig.__init__ VNone
                    [("partition", VStr "gpu"); ("time", VStr "1:00")]))
              "partition" (VStr "cpu")
              eq_refl ltac:(discriminate) ltac:(discriminate))
    as (self' & E & _).
  exists self'. split; [exact E|].
  injection E as <-. reflexivity.
Defined.

(** X4. After a call of [add_arguments] that returns, with names of
    directives as keywords, the manager is an array job exactly when it
    was one before or one of the keywords is [array]. *)
Theorem is_array_job_after_add_arguments (kwargs : dict) (self self' : slurm)
  (Hnames : directive_names kwargs = true)
  (Hcall : Slurm.add_arguments kwargs self = (Returned tt, self')) :
  Slurm.is_array_job self'
  = Slurm.is_array_job self
    || existsb (fun kv => String.eqb (fst kv) "array") kwargs.
Proof.
  clear Hnames.
  revert self Hcall. induction kwargs as [|kv kw IH]; intros self Hcall.
  - injection Hcall as <-. cbn. now rewrite orb_false_r.
  - rewrite add_arguments_cons in Hcall.
    destruct (add_argument_effect kv self) as [(st & at_ & E)|(e & E)];
      rewrite E in Hcall; [|discriminate].
    rewrite (IH _ Hcall). cbn [existsb].
    unfold Slurm.is_array_job, SlurmConfig.is_array_job.
    cbn [config Slurm.with_config].
    destruct (stored_names (config self) (fst kv) st at_) as [-> _].
    rewrite dict_mem_set, (String.eqb_sym "array").
    now rewrite orb_assoc, (orb_comm (String.eqb (fst kv) "array")).
Qed.

Lemma is_array_job_after_add_arguments_witness :
  Slurm.is_array_job
    (snd (Slurm.add_arguments [("mem", VStr "4G"); ("array", VInt 3)]
            (Slurm.__init__ (SlurmConfig.__init__ VNone []))))
  = true.
Proof.
  exact (is_array_job_after_add_arguments
           [("mem", VStr "4G"); ("array", VInt 3)]
           (Slurm.__init__ (SlurmConfig.__init__ VNone [])) _ eq_refl
           eq_refl).
Defined.

(** X5. If every directive of a manager (but [shell]) is also an
    attribute of its configuration, this is still so after any call of
    [add_arguments] (with names of directives as keywords) or of
    [add_commands], however it ends; and then an array job always has
    its [array] attribute, so that reading it never raises. *)
Theorem directives_stay_attributes (self : slurm)
  (Hinv : directives_are_attributes (config self) = true) :
  (forall kwargs,
      directive_names kwargs = true ->
      directives_are_attributes
        (config (snd (Slurm.add_arguments kwargs self))) = true)
  /\ (forall cmds,
      directives_are_attributes
        (config (snd (Slurm.add_commands cmds self))) = true)
  /\ (Slurm.is_array_job self = true ->
      exists v, SlurmConfig.array (config self) = Returned v).
Proof.
  split; [|split].
  - intros kwargs _. revert Hinv.
    apply (add_arguments_across
             (fun s s' =>
                directives_are_attributes (config s) = true ->
                directives_are_attributes (config s') = true)).
    + auto.
    + auto.
    + intros key stored attribute s H. now apply setattr_keeps_attributes.
  - intros cmds. revert self Hinv.
    induction cmds as [|c r IH]; intros self Hinv; [exact Hinv|].
    unfold Slurm.add_commands. cbn [forM_]. unfold bind, modify.
    apply IH. exact Hinv.
  - unfold Slurm.is_array_job, SlurmConfig.is_array_job, SlurmConfig.array.
    unfold directives_are_attributes in Hinv. rewrite forallb_forall in Hinv.
    unfold dict_mem at 1.
    destruct (dict_get "array" (_args (config self))) as [v|] eqn:E;
      [intros _|discriminate].
    assert (In ("array", v) (_args (config self))) as Hin.
    { clear - E. induction (_args (config self)) as [|[k0 v0] r IH];
        [discriminate|].
      cbn [dict_get] in E.
      destruct (String.eqb_spec "array" k0) as [<-|Hne].
      - injection E as <-. now left.
      - right. now apply IH. }
    specialize (Hinv _ Hin). cbn in Hinv. unfold dict_mem in Hinv.
    destruct (dict_get "array" (attrs (config self))) as [a|];
      [now exists a|discriminate].
Qed.

Lemma directives_stay_attributes_witness :
  directives_are_attributes
    (config
       (snd (Slurm.add_arguments [("mem", VStr "4G"); ("array", VStr "x")]
               (Slurm.__init__
                  (SlurmConfig.__init__ VNone [("job_name", VStr "test")])))))
  = true.
Proof.
  exact (proj1 (directives_stay_attributes
                  (Slurm.__init__
                     (SlurmConfig.__init__ VNone [("job_name", VStr "test")]))
                  eq_refl)
           [("mem", VStr "4G"); ("array", VStr "x")] eq_refl).
Defined.

Section Commands.

Lemma add_commands_result (cmds : list value) (self : slurm) :
  Slurm.add_commands cmds self
  = (Returned tt,
     Slurm.with_config self
       {| shell := shell (config self); _args := _args (config self);
          _commands := (_commands (config self) ++ cmds)%list;
          attrs := attrs (config self) |}).
Proof.
  revert self. induction cmds as [|c r IH]; intros self.
  - unfold Slurm.add_commands. cbn. rewrite app_nil_r.
    now destruct self as [[] ? ? ? ?].
  - unfold Slurm.add_commands in *. cbn [forM_]. unfold bind, modify at 1.
    rewrite IH. cbn. now rewrite <- app_assoc.
Qed.

End Commands.

(** X6. [add_commands] never raises; it appends its arguments, in order,
    to the commands and changes nothing else, so that the script rendered
    afterwards is the script rendered before followed by one line per new
    command. *)
Theorem add_commands_appends (cmds : list value) (self : slurm) :
  exists self',
    Slurm.add_commands cmds self = (Returned tt, self')
    /\ _commands (config self') = (_commands (config self) ++ cmds)%list
    /\ _args (config self') = _args (config self)
    /\ shell (config self') = shell (config self)
    /\ attrs (config self') = attrs (config self)
    /\ fst (Slurm.__str__ self')
       = fst (Slurm.__str__ self)
         ++ fold_right (fun c rest => nl ++ str c ++ rest) "" cmds.
Proof.
  eexists. split; [apply add_commands_result|].
  do 4 (split; [reflexivity|]).
  unfold Slurm.__str__, SlurmConfig.__str__. cbn [fst config Slurm.with_config
    shell _args _commands].
  now rewrite fold_left_app, (fold_left_lines str cmds).
Qed.

(** X7. The keyword [shell] is stored as a directive like any other and
    also replaces the interpreter of the configuration: the script
    rendered afterwards starts with [#!] and the new value. *)
Theorem shell_keyword_replaces_interpreter (self : slurm) (v : value)
  (Hval : forall d, v <> VTimedelta d) :
  exists self' rest,
    Slurm.add_arguments [("shell", v)] self = (Returned tt, self')
    /\ shell (config self') = v
    /\ dict_get "shell" (_args (config self')) = Some v
    /\ attrs (config self') = attrs (config self)
    /\ fst (Slurm.__str__ self') = "#!" ++ str v ++ rest.
Proof.
  eexists. eexists. split.
  - apply add_arguments_store; [reflexivity|exact Hval].
  - cbn [config Slurm.with_config SlurmConfig.setattr String.eqb Ascii.eqb
           Bool.eqb shell _args attrs SlurmConfig.set_arg].
    split; [reflexivity|]. split; [apply dict_get_set_same|].
    split; [reflexivity|].
    unfold Slurm.__str__, SlurmConfig.__str__.
    cbn [fst config Slurm.with_config shell _args _commands].
    rewrite (fold_left_lines str), (fold_left_lines directive_line).
    rewrite !append_assoc. reflexivity.
Qed.

Lemma shell_keyword_replaces_interpreter_witness :
  exists self' rest,
    Slurm.add_arguments [("shell", VStr "/bin/zsh")]
      (Slurm.__init__ (SlurmConfig.__init__ VNone [])) = (Returned tt, self')
    /\ shell (config self') = VStr "/bin/zsh"
    /\ dict_get "shell" (_args (config self')) = Some (VStr "/bin/zsh")
    /\ attrs (config self') = []
    /\ fst (Slurm.__str__ self') = "#!" ++ "/bin/zsh" ++ rest.
Proof.
  exact (shell_keyword_replaces_interpreter
           (Slurm.__init__ (SlurmConfig.__init__ VNone []))
           (VStr "/bin/zsh") ltac:(discriminate)).
Defined.

(** ** Other array specifications *)

(** X8. Under [array], a negative integer and an empty list are refused
    with [IndexError], and [None] and a duration with [TypeError];
    nothing is stored. *)
Theorem array_values_refused (self : slurm) (n : Z) (d : timedelta)
  (Hn : n < 0) :
  Slurm.add_arguments [("array", VInt n)] self = (Raised IndexError, self)
  /\ Slurm.add_arguments [("array", VList [])] self
     = (Raised IndexError, self)
  /\ Slurm.add_arguments [("array", VNone)] self = (Raised TypeError, self)
  /\ Slurm.add_arguments [("array", VTimedelta d)] self
     = (Raised TypeError, self).
Proof.
  split; [|repeat split; now apply add_arguments_array_raises].
  apply add_arguments_array_raises. cbn [Slurm.normalize_array obind].
  unfold getitem, range_len.
  change (0 <? 1) with true. change (0 <? 0) with false. cbv iota.
  assert ((0 <? n + 1) = false) as -> by lia.
  reflexivity.
Qed.

Lemma array_values_refused_witness :
  Slurm.add_arguments [("array", VInt (-1))]
    (Slurm.__init__ (SlurmConfig.__init__ VNone []))
  = (Raised IndexError, Slurm.__init__ (SlurmConfig.__init__ VNone [])).
Proof.
  exact (proj1 (array_values_refused
                  (Slurm.__init__ (SlurmConfig.__init__ VNone [])) (-1)
                  {| days := 0; seconds := 0; microseconds := 0 |}
                  ltac:(lia))).
Defined.

Section ArrayForms.

Lemma nth_error_last (x : Z) (l : list Z) :
  nth_error (x :: l) (List.length l) = Some (last (x :: l) x).
Proof.
  revert x. induction l as [|y l IH]; intros x; [reflexivity|].
  cbn [List.length nth_error]. rewrite IH.
  f_equal. cbn [last]. destruct l; [reflexivity|].
  clear. revert y. generalize z as a.
  induction l as [|b l IH]; intros a y; [reflexivity|].
  cbn [last] in *. apply IH.
Qed.

Lemma getitem_list_ends (x : Z) (l : list Z) :
  getitem (VList (x :: l)) 0 = Returned (VInt x)
  /\ getitem (VList (x :: l)) (-1) = Returned (VInt (last (x :: l) x)).
Proof.
  unfold getitem.
  assert (Z.of_nat (List.length (x :: l)) = Z.of_nat (List.length l) + 1)
    as -> by (cbn [List.length]; lia).
  pose proof (Nat2Z.is_nonneg (List.length l)) as Hlen.
  split.
  - change (0 <? 0) with false. cbv iota.
    assert ((0 <? Z.of_nat (List.length l) + 1) = true) as ->
        by (apply Z.ltb_lt; lia).
    reflexivity.
  - change (-1 <? 0) with true. cbv iota.
    assert ((0 <=? -1 + (Z.of_nat (List.length l) + 1)) = true) as ->
        by (apply Z.leb_le; lia).
    assert ((-1 + (Z.of_nat (List.length l) + 1)
             <? Z.of_nat (List.length l) + 1) = true) as ->
        by (apply Z.ltb_lt; lia).
    cbn [andb].
    replace (Z.to_nat (-1 + (Z.of_nat (List.length l) + 1)))
      with (List.length l) by lia.
    now rewrite nth_error_last.
Qed.

End ArrayForms.

(** X9. A non-empty list given under [array] is stored as the text
    ["first-last"] of its first and last element, while the attribute the
    submission iterates over is the list itself, with exactly its
    elements. *)
Theorem array_from_list (self : slurm) (x : Z) (l : list Z) :
  exists self',
    Slurm.add_arguments [("array", VList (x :: l))] self
    = (Returned tt, self')
    /\ dict_get "array" (_args (config self'))
       = Some (VStr (str_of_Z x ++ "-" ++ str_of_Z (last (x :: l) x)))
    /\ SlurmConfig.array (config self') = Returned (VList (x :: l))
    /\ iterate (VList (x :: l)) = Returned (map VInt (x :: l)).
Proof.
  destruct (getitem_list_ends x l) as [Hlo Hhi].
  eexists.
  split; [apply (add_arguments_array self (VList (x :: l)) (VList (x :: l))
                   _ _ eq_refl Hlo Hhi)|].
  split; [apply array_stored|]. split; [apply array_stored|reflexivity].
Qed.

(** X10. A string holding one natural number [n] under [array] is taken
    as the range from [n] to [n]: the stored text is ["n-n"] and the
    iteration visits [n] alone. *)
Theorem array_from_single_number (self : slurm) (n : Z) (Hn : 0 <= n) :
  exists self',
    Slurm.add_arguments [("array", VStr (str_of_Z n))] self
    = (Returned tt, self')
    /\ dict_get "array" (_args (config self'))
       = Some (VStr (str_of_Z n ++ "-" ++ str_of_Z n))
    /\ SlurmConfig.array (config self') = Returned (VRange n (n + 1) 1)
    /\ iterate (VRange n (n + 1) 1) = Returned [VInt n].
Proof.
  destruct (getitem_range_ends n n ltac:(lia)) as [Hlo Hhi].
  assert (Slurm.normalize_array (VStr (str_of_Z n))
          = Returned (VRange n (n + 1) 1)) as Hnorm.
  { unfold Slurm.normalize_array.
    rewrite split_char_digits by now apply digits_only_str_of_Z.
    cbn [omap obind]. now rewrite int_of_str_of_Z. }
  eexists.
  split; [apply (add_arguments_array self _ _ _ _ Hnorm Hlo Hhi)|].
  split; [apply array_stored|]. split; [apply array_stored|].
  unfold iterate, range_items. rewrite range_len_unit by lia.
  replace (n - n + 1) with 1 by lia.
  change (Z.to_nat 1) with 1%nat. cbn [seq map].
  change (Z.of_nat 0 * 1) with 0. now rewrite Z.add_0_r.
Qed.

Lemma array_from_single_number_witness :
  exists self',
    Slurm.add_arguments [("array", VStr "7")]
      (Slurm.__init__ (SlurmConfig.__init__ VNone [])) = (Returned tt, self')
    /\ dict_get "array" (_args (config self')) = Some (VStr "7-7")
    /\ SlurmConfig.array (config self') = Returned (VRange 7 8 1)
    /\ iterate (VRange 7 8 1) = Returned [VInt 7].
Proof.
  exact (array_from_single_number
           (Slurm.__init__ (SlurmConfig.__init__ VNone [])) 7 ltac:(lia)).
Defined.

(** ** Whole-second durations *)

(** X11. For a duration without microseconds, the text stored under
    [time] shows the duration's own day count, signed and unpadded, and
    its seconds within the day as hours, minutes and seconds; a negative
    duration is therefore stored with a leading minus sign. *)
Theorem whole_second_duration_fields (self : slurm) (d : timedelta)
  (Hnorm : normalized d) (Hus : microseconds d = 0) :
  exists self',
    Slurm.add_arguments [("time", VTimedelta d)] self = (Returned tt, self')
    /\ dict_get "time" (_args (config self'))
       = Some (VStr (str_of_Z (days d) ++ "-"
                     ++ two_digits (seconds d / 3600) ++ ":"
                     ++ two_digits (seconds d mod 3600 / 60) ++ ":"
                     ++ two_digits (seconds d mod 60)))
    /\ (days d < 0 ->
        exists rest,
          dict_get "time" (_args (config self'))
          = Some (VStr (String "-" rest))).
Proof.
  destruct (total_seconds_whole d Hnorm Hus) as [_ Hi].
  destruct Hnorm as (Hd & Hs & _).
  assert ((days d * 86400 + seconds d) / 86400 = days d) as Hdiv
      by (symmetry; apply Z.div_unique with (r := seconds d); lia).
  assert ((days d * 86400 + seconds d) mod 86400 = seconds d) as Hmod
      by (symmetry; apply Z.mod_unique with (q := days d); lia).
  assert (dict_get "time"
            (_args
               (config
                  (Slurm.with_config self
                     (SlurmConfig.setattr
                        (SlurmConfig.set_arg (config self) "time"
                           (VStr (Slurm.normalize_duration d)))
                        "time" (VStr (Slurm.normalize_duration d))))))
          = Some (VStr (str_of_Z (days d) ++ "-"
                        ++ two_digits (seconds d / 3600) ++ ":"
                        ++ two_digits (seconds d mod 3600 / 60) ++ ":"
                        ++ two_digits (seconds d mod 60)))) as Htext.
  { cbn [config Slurm.with_config SlurmConfig.setattr String.eqb Ascii.eqb
           Bool.eqb _args SlurmConfig.set_arg].
    rewrite dict_get_set_same. unfold Slurm.normalize_duration.
    rewrite Hi, Hdiv, Hmod.
    assert ((seconds d mod 3600) mod 60 = seconds d mod 60) as ->
        by (Z.to_euclidean_division_equations; lia).
    rewrite !format_zero_two_digits; [reflexivity| | |];
      Z.to_euclidean_division_equations; lia. }
  eexists. split; [apply add_arguments_time|].
  split; [exact Htext|].
  intros Hneg. rewrite Htext.
  destruct (days d) as [|p|p]; try lia.
  eexists. reflexivity.
Qed.

Lemma whole_second_duration_fields_witness :
  exists self',
    Slurm.add_arguments
      [("time",
        VTimedelta {| days := -1; seconds := 86399; microseconds := 0 |})]
      (Slurm.__init__ (SlurmConfig.__init__ VNone []))
    = (Returned tt, self')
    /\ dict_get "time" (_args (config self')) = Some (VStr "-1-23:59:59").
Proof.
  destruct (whole_second_duration_fields
              (Slurm.__init__ (SlurmConfig.__init__ VNone []))
              {| days := -1; seconds := 86399; microseconds := 0 |}
              ltac:(unfold normalized; simpl; lia) eq_refl)
    as (self' & E & Ht & _).
  exists self'. split; [exact E|exact Ht].
Defined.

(** ** [SlurmConfig.__repr__] *)

(** X12. The representation of a configuration can be computed exactly
    when the attributes [partition] and [time] are both set and a job name
    is available from the instance or the class; in every other case it
    raises [AttributeError]. *)
Theorem repr_needs_partition_and_time (cls : option value)
  (self : slurm_config) :
  let available :=
    (dict_mem "job_name" (attrs self)
     || match cls with Some _ => true | None => false end)
    && dict_mem "partition" (attrs self)
    && dict_mem "time" (attrs self) in
  (available = true -> exists s, SlurmConfig__repr__ cls self = Returned s)
  /\ (available = false ->
      SlurmConfig__repr__ cls self = Raised AttributeError).
Proof.
  cbv zeta. unfold SlurmConfig__repr__, SlurmConfig.job_name, dict_mem.
  destruct (dict_get "job_name" (attrs self)) as [j|];
    destruct cls as [c|];
    destruct (dict_get "partition" (attrs self)) as [p|];
    destruct (dict_get "time" (attrs self)) as [t|];
    cbn; split; intros H; try discriminate; try reflexivity;
    eexists; reflexivity.
Qed.

Lemma repr_needs_partition_and_time_witness :
  SlurmConfig__repr__ (Some (VStr ""))
    (SlurmConfig.__init__ VNone [("job_name", VStr "test")])
  = Raised AttributeError.
Proof.
  exact (proj2 (repr_needs_partition_and_time (Some (VStr ""))
                  (SlurmConfig.__init__ VNone [("job_name", VStr "test")]))
           eq_refl).
Defined.

(** ** Inspection of a job *)

Section Inspection.
Context {world : Type} (B : Boundary world).

Lemma rstrip_no_space (s : string) : no_space s = true -> rstrip s = s.
Proof.
  induction s as [|c r IH]; cbn [no_space rstrip]; [reflexivity|].
  intros H. apply andb_prop in H as [Hc Hr].
  rewrite (IH Hr). destruct r; [|reflexivity].
  now destruct (is_space c).
Qed.

Lemma strip_no_space (s : string) : no_space s = true -> strip s = s.
Proof.
  intros H. unfold strip. destruct s as [|c r]; [reflexivity|].
  pose proof H as H'. cbn [no_space] in H'.
  apply andb_prop in H' as [Hc _]. cbn [lstrip].
  destruct (is_space c); [discriminate|]. now apply rstrip_no_space.
Qed.

Lemma no_space_app (a b : string) :
  no_space (a ++ b) = no_space a && no_space b.
Proof.
  induction a as [|c r IH]; cbn [append no_space]; [reflexivity|].
  now rewrite IH, andb_assoc.
Qed.

Lemma no_space_lacks_blank (s : string) :
  no_space s = true -> lacks " " s = true.
Proof.
  induction s as [|c r IH]; cbn [no_space lacks]; [reflexivity|].
  intros H. apply andb_prop in H as [Hc Hr]. rewrite (IH Hr), andb_true_r.
  destruct (Ascii.eqb_spec c " ") as [->|]; [discriminate|reflexivity].
Qed.

Lemma split_once_key (k v : string) :
  lacks "=" k = true -> split_once "=" (k ++ String "=" v) = [k; v].
Proof.
  induction k as [|c r IH]; cbn [lacks append split_once]; [reflexivity|].
  intros H. apply andb_prop in H as [Hc Hr].
  destruct (Ascii.eqb c "="); [discriminate|]. now rewrite (IH Hr).
Qed.

Lemma split_once_without (s : string) :
  lacks "=" s = true -> split_once "=" s = [s].
Proof.
  induction s as [|c r IH]; cbn [lacks split_once]; [reflexivity|].
  intros H. apply andb_prop in H as [Hc Hr].
  destruct (Ascii.eqb c "="); [discriminate|]. now rewrite (IH Hr).
Qed.

Lemma split_char_without (s : string) :
  lacks " " s = true -> split_char " " s = [s].
Proof.
  induction s as [|c r IH]; cbn [lacks split_char]; [reflexivity|].
  intros H. apply andb_prop in H as [Hc Hr].
  destruct (Ascii.eqb c " "); [discriminate|]. now rewrite (IH Hr).
Qed.

Lemma split_char_first (t rest : string) :
  lacks " " t = true ->
  split_char " " (t ++ String " " rest) = t :: split_char " " rest.
Proof.
  induction t as [|c r IH]; cbn [lacks append split_char].
  - intros _. reflexivity.
  - intros H. apply andb_prop in H as [Hc Hr].
    destruct (Ascii.eqb c " "); [discriminate|]. now rewrite (IH Hr).
Qed.

Lemma split_char_join (ts : list string) :
  ts <> [] ->
  Forall (fun t => lacks " " t = true) ts ->
  split_char " " (join " " ts) = ts.
Proof.
  induction ts as [|t ts IH]; [congruence|]. intros _ H.
  inversion H as [|? ? Ht Hts]; subst.
  destruct ts as [|u ts]; [now apply split_char_without|].
  change (join " " (t :: u :: ts))
    with (t ++ String " " (join " " (u :: ts))).
  rewrite (split_char_first _ _ Ht). f_equal. now apply IH.
Qed.

Lemma read_attr_raised (e : exn) (l : list string) :
  fold_left read_attr l (Raised e) = Raised e.
Proof. induction l as [|t l IH]; [reflexivity|exact IH]. Qed.

Lemma read_attr_only_value_error (l : list string)
  (acc : outcome (list (string * string))) :
  (forall e, acc = Raised e -> e = ValueError) ->
  forall e, fold_left read_attr l acc = Raised e -> e = ValueError.
Proof.
  revert acc. induction l as [|t l IH]; intros acc Hacc e; [apply Hacc|].
  cbn [fold_left]. apply IH. intros e' He'.
  destruct acc as [d|e0]; [|cbn in He'; injection He' as <-; now apply Hacc].
  unfold read_attr in He'. cbn [obind] in He'.
  destruct (String.eqb (strip t) ""); [discriminate|].
  destruct (split_once "=" (strip t)) as [|? [|? [|? ?]]]; congruence.
Qed.

Lemma read_attr_pairs (pairs : list (string * string))
  (acc : list (string * string)) :
  Forall (fun kv => no_space (fst kv) && lacks "=" (fst kv)
                    && no_space (snd kv) = true) pairs ->
  fold_left read_attr (map (fun kv => fst kv ++ "=" ++ snd kv) pairs)
    (Returned acc)
  = Returned (fold_left (fun d kv => dict_set (fst kv) (snd kv) d) pairs acc).
Proof.
  revert acc. induction pairs as [|[k v] r IH]; intros acc H; [reflexivity|].
  inversion H as [|? ? Hkv Hr]; subst. cbn [fst snd] in Hkv.
  apply andb_prop in Hkv as [Hkv Hv]. apply andb_prop in Hkv as [Hk Hk'].
  cbn [map fold_left fst snd]. rewrite <- (IH _ Hr). f_equal.
  unfold read_attr. cbn [obind].
  assert (strip (k ++ "=" ++ v) = k ++ "=" ++ v) as ->.
  { apply strip_no_space. rewrite no_space_app, Hk.
    change ("=" ++ v) with (String "=" v). cbn [no_space andb].
    now rewrite Hv. }
  assert (String.eqb (k ++ "=" ++ v) "" = false) as ->.
  { apply String.eqb_neq. intros E. apply (f_equal String.length) in E.
    rewrite length_append in E. cbn in E. lia. }
  change ("=" ++ v) with (String "=" v).
  now rewrite (split_once_key _ _ Hk').
Qed.

Lemma get_scontrol_attrs_not_started (self : slurm_job)
  (rt : runtime world) (e : exn) (w : world) :
  subprocess_run B ["scontrol"; "show"; "job"; job_id self] (env rt)
  = (Raised e, w) ->
  SlurmJob._get_scontrol_attrs B self rt
  = (Raised e, after_run rt ["scontrol"; "show"; "job"; job_id self] w).
Proof.
  intros Hrun. unfold SlurmJob._get_scontrol_attrs, bind, run_checked.
  now rewrite Hrun.
Qed.

Lemma get_scontrol_attrs_run (self : slurm_job) (rt : runtime world)
  (p : CompletedProcess) (w : world) :
  subprocess_run B ["scontrol"; "show"; "job"; job_id self] (env rt)
  = (Returned p, w) ->
  SlurmJob._get_scontrol_attrs B self rt
  = ((if returncode p =? 0 then scontrol_attrs (out p)
      else Raised (CalledProcessError (returncode p))),
     after_run rt ["scontrol"; "show"; "job"; job_id self] w).
Proof.
  intros Hrun. unfold SlurmJob._get_scontrol_attrs, bind, run_checked.
  rewrite Hrun. now destruct (returncode p =? 0).
Qed.

End Inspection.

(** X13. When the inspection command exits with zero and prints
    [key=value] items separated by single blanks, with no white space
    inside an item and no [=] inside a key, [_get_scontrol_attrs] returns
    the mapping built from the items in order (a key printed twice keeps
    its first place and its last value); a value may contain [=]. *)
Theorem scontrol_attrs_read_back {world : Type} (B : Boundary world)
  (self : slurm_job) (rt : runtime world) (p : CompletedProcess) (w : world)
  (pairs : list (string * string))
  (Hrun : subprocess_run B ["scontrol"; "show"; "job"; job_id self] (env rt)
          = (Returned p, w))
  (Hrc : returncode p = 0)
  (Hpairs : Forall (fun kv => no_space (fst kv) && lacks "=" (fst kv)
                              && no_space (snd kv) = true) pairs)
  (Hout : out p = join " " (map (fun kv => fst kv ++ "=" ++ snd kv) pairs)) :
  SlurmJob._get_scontrol_attrs B self rt
  = (Returned (fold_left (fun d kv => dict_set (fst kv) (snd kv) d) pairs []),
     after_run rt ["scontrol"; "show"; "job"; job_id self] w).
Proof.
  rewrite (get_scontrol_attrs_run B self rt p w Hrun), Hrc, Hout.
  change (0 =? 0) with true. cbv iota. f_equal.
  unfold scontrol_attrs.
  destruct pairs as [|kv r]; [reflexivity|].
  set (ps := kv :: r) in *.
  rewrite <- (read_attr_pairs ps [] Hpairs).
  f_equal. apply split_char_join; [discriminate|].
  apply Forall_forall. intros t Ht.
  apply in_map_iff in Ht as ([k v] & <- & Hin).
  rewrite Forall_forall in Hpairs. specialize (Hpairs _ Hin).
  cbn [fst snd] in *.
  apply andb_prop in Hpairs as [Hkv Hv]. apply andb_prop in Hkv as [Hk _].
  apply no_space_lacks_blank. rewrite no_space_app, Hk.
  change ("=" ++ v) with (String "=" v). cbn [no_space andb]. exact Hv.
Qed.

Lemma scontrol_attrs_read_back_witness :
  fst (SlurmJob._get_scontrol_attrs
         (scripted (fun _ => completed 0 "JobId=7 Command=a=b JobId=8"))
         {| job_id := "7"; array_num := 0; array_job_id := None;
            submission_details := [] |} boot)
  = Returned [("JobId", "8"); ("Command", "a=b")].
Proof.
  rewrite (scontrol_attrs_read_back
             (scripted (fun _ => completed 0 "JobId=7 Command=a=b JobId=8"))
             {| job_id := "7"; array_num := 0; array_job_id := None;
                submission_details := [] |}
             boot (completed 0 "JobId=7 Command=a=b JobId=8") tt
             [("JobId", "7"); ("Command", "a=b"); ("JobId", "8")]
             eq_refl eq_refl).
  - reflexivity.
  - repeat constructor.
  - reflexivity.
Defined.

(** X14. [_get_scontrol_attrs] raises [CalledProcessError] when the
    inspection command exits non-zero, and [ValueError] when it exits
    with zero but prints, between blanks, an item that is not blank and
    holds no [=] (a word of a job name with blanks in it, say); once the
    command has run it raises nothing else.  When the command cannot be
    run at all, the error of the attempt is raised unchanged. *)
Theorem scontrol_attrs_failures {world : Type} (B : Boundary world)
  (self : slurm_job) (rt : runtime world) (r : outcome CompletedProcess)
  (w : world)
  (Hrun : subprocess_run B ["scontrol"; "show"; "job"; job_id self] (env rt)
          = (r, w)) :
  (forall p, r = Returned p ->
     (returncode p <> 0 ->
      fst (SlurmJob._get_scontrol_attrs B self rt)
      = Raised (CalledProcessError (returncode p)))
     /\ (forall item,
         returncode p = 0 -> In item (split_char " " (out p)) ->
         strip item <> "" -> lacks "=" (strip item) = true ->
         fst (SlurmJob._get_scontrol_attrs B self rt) = Raised ValueError)
     /\ (forall e,
         fst (SlurmJob._get_scontrol_attrs B self rt) = Raised e ->
         e = ValueError \/ e = CalledProcessError (returncode p)))
  /\ (forall e, r = Raised e ->
      fst (SlurmJob._get_scontrol_attrs B self rt) = Raised e).
Proof.
  split.
  - intros p ->.
    rewrite (get_scontrol_attrs_run B self rt p w Hrun). cbn [fst].
    split; [|split].
    + intros Hrc. now destruct (Z.eqb_spec (returncode p) 0).
    + intros item Hrc Hin Hblank Heq. rewrite Hrc.
      change (0 =? 0) with true. cbv iota.
      unfold scontrol_attrs.
      apply in_split in Hin as (l1 & l2 & ->).
      rewrite fold_left_app. cbn [fold_left].
      destruct (fold_left read_attr l1 (Returned [])) as [d|e] eqn:E.
      * unfold read_attr at 2. cbn [obind].
        apply String.eqb_neq in Hblank. rewrite Hblank.
        rewrite (split_once_without _ Heq). apply read_attr_raised.
      * assert (e = ValueError) as ->.
        { apply (read_attr_only_value_error l1 (Returned [])); [|exact E].
          discriminate. }
        apply read_attr_raised.
    + intros e He. destruct (returncode p =? 0).
      * left. unfold scontrol_attrs in He.
        apply (read_attr_only_value_error _ (Returned [])) in He;
          [exact He|discriminate].
      * right. now injection He as <-.
  - intros e ->.
    now rewrite (get_scontrol_attrs_not_started B self rt e w Hrun).
Qed.

Lemma scontrol_attrs_failures_witness :
  fst (SlurmJob._get_scontrol_attrs
         (scripted (fun _ => completed 0 "JobId=7 JobName=my job"))
         {| job_id := "7"; array_num := 0; array_job_id := None;
            submission_details := [] |} boot)
  = Raised ValueError
  /\ fst (SlurmJob._get_scontrol_attrs unavailable
            {| job_id := "7"; array_num := 0; array_job_id := None;
               submission_details := [] |} boot)
     = Raised FileNotFoundError.
Proof.
  split.
  - apply (proj1 (proj2 (proj1 (scontrol_attrs_failures
                           (scripted
                              (fun _ => completed 0 "JobId=7 JobName=my job"))
                           {| job_id := "7"; array_num := 0;
                              array_job_id := None; submission_details := [] |}
                           boot
                           (Returned (completed 0 "JobId=7 JobName=my job"))
                           tt eq_refl)
                           (completed 0 "JobId=7 JobName=my job") eq_refl))
             "job").
    + reflexivity.
    + simpl. tauto.
    + discriminate.
    + reflexivity.
  - exact (proj2 (scontrol_attrs_failures unavailable
                    {| job_id := "7"; array_num := 0; array_job_id := None;
                       submission_details := [] |}
                    boot (Raised FileNotFoundError) tt eq_refl)
             FileNotFoundError eq_refl).
Defined.

(** ** Construction of a job handle *)

Section HandleConstruction.
Context {world : Type} (B : Boundary world).

Lemma job_init_run (given id : string) (m : slurm) (a : value) (n : Z)
  (rt : runtime world) (p : CompletedProcess) (w : world) :
  slurm_job_id m = Some id ->
  int a = Returned n ->
  subprocess_run B ["scontrol"; "show"; "job"; id] (env rt)
  = (Returned p, w) ->
  SlurmJob.__init__ B given m (Some a) rt
  = ((if returncode p =? 0 then
        obind (scontrol_attrs (out p)) (fun d =>
          Returned
            {| job_id := id; array_num := n;
               array_job_id :=
                 if SlurmConfig.is_array_job (config m)
                 then Some (id ++ "_" ++ str_of_Z n) else None;
               submission_details := d |})
      else Raised (CalledProcessError (returncode p))),
     after_run rt ["scontrol"; "show"; "job"; id] w).
Proof.
  intros Hid Hint Hrun. unfold SlurmJob.__init__, bind at 1, lift.
  rewrite Hint, Hid. unfold bind.
  set (self := {| job_id := id; array_num := n;
                  array_job_id :=
                    if SlurmConfig.is_array_job (config m)
                    then Some (id ++ "_" ++ str_of_Z n) else None;
                  submission_details := [] |}).
  rewrite (get_scontrol_attrs_run B self rt p w Hrun).
  destruct (returncode p =? 0); [|reflexivity].
  now destruct (scontrol_attrs (out p)).
Qed.

End HandleConstruction.

(** X15. A handle built for a manager that has submitted takes the job
    identifier of the manager, whatever identifier the constructor is
    given, and inspects the job of that identifier; its array index is
    [int] of the third argument, and for an array job its
    [array_job_id] is the identifier, an underscore and the index.  When
    [int] refuses the third argument the constructor raises before any
    command is run. *)
Theorem handle_takes_manager_identifier {world : Type} (B : Boundary world)
  (given id : string) (m : slurm) (a : value) (n : Z)
  (rt : runtime world) (p : CompletedProcess) (w : world)
  (d : list (string * string))
  (Hid : slurm_job_id m = Some id)
  (Hint : int a = Returned n)
  (Hrun : subprocess_run B ["scontrol"; "show"; "job"; id] (env rt)
          = (Returned p, w))
  (Hrc : returncode p = 0)
  (Hd : scontrol_attrs (out p) = Returned d) :
  SlurmJob.__init__ B given m (Some a) rt
  = (Returned
       {| job_id := id; array_num := n;
          array_job_id :=
            if SlurmConfig.is_array_job (config m)
            then Some (id ++ "_" ++ str_of_Z n) else None;
          submission_details := d |},
     after_run rt ["scontrol"; "show"; "job"; id] w)
  /\ (forall bad e,
      int bad = Raised e ->
      SlurmJob.__init__ B given m (Some bad) rt = (Raised e, rt)).
Proof.
  split.
  - rewrite (job_init_run B given id m a n rt p w Hid Hint Hrun), Hrc, Hd.
    reflexivity.
  - intros bad e Hbad. unfold SlurmJob.__init__, bind, lift.
    now rewrite Hbad.
Qed.

Lemma handle_takes_manager_identifier_witness :
  fst (SlurmJob.__init__ (scripted accepting) "1"
         {| config := SlurmConfig.__init__ VNone [("array", VStr "0-3")];
            stdout := None; stderr := None; jobs := None;
            slurm_job_id := Some "4821" |}
         (Some (VStr " 2 ")) boot)
  = Returned
      {| job_id := "4821"; array_num := 2; array_job_id := Some "4821_2";
         submission_details := [("JobId", "4821"); ("JobName", "test")] |}.
Proof.
  rewrite (proj1 (handle_takes_manager_identifier (scripted accepting)
                    "1" "4821"
                    {| config :=
                         SlurmConfig.__init__ VNone [("array", VStr "0-3")];
                       stdout := None; stderr := None; jobs := None;
                       slurm_job_id := Some "4821" |}
                    (VStr " 2 ") 2 boot
                    (completed 0 "JobId=4821 JobName=test") tt
                    [("JobId", "4821"); ("JobName", "test")]
                    eq_refl eq_refl eq_refl eq_refl eq_refl)).
  reflexivity.
Defined.

(** ** Submissions that fail *)

Section FailedSubmission.
Context {world : Type} (B : Boundary world).

Lemma submit_rejected (self : slurm) (rt : runtime world) (path : string)
  (p : CompletedProcess) (w : world) :
  subprocess_run B ["sbatch"; path] (env rt) = (Returned p, w) ->
  returncode p <> 0 ->
  Slurm.submit B path (self, rt)
  = (Raised (CalledProcessError (returncode p)),
     (self, after_run rt ["sbatch"; path] w)).
Proof.
  intros Hrun Hrc. unfold Slurm.submit, bind, on_snd, run_checked.
  cbn [fst snd]. rewrite Hrun.
  now destruct (Z.eqb_spec (returncode p) 0).
Qed.

End FailedSubmission.

(** X16. When the submit command exits non-zero, [sbatch] raises
    [CalledProcessError] with that exit status and leaves the manager
    untouched: the captured output is not recorded, and the jobs and the
    identifier of an earlier submission, if any, stay in place. *)
Theorem sbatch_rejected_by_scheduler {world : Type} (B : Boundary world)
  (self : slurm) (rt : runtime world) (shell_arg : value) (save : bool)
  (output_path : option string) (path : string)
  (st1 : slurm * runtime world) (p : CompletedProcess) (w : world)
  (Hprep : Slurm.prepare B shell_arg save output_path (self, rt)
           = (Returned path, st1))
  (Hrun : subprocess_run B ["sbatch"; path] (env (snd st1))
          = (Returned p, w))
  (Hrc : returncode p <> 0) :
  Slurm.sbatch B shell_arg save output_path (self, rt)
  = (Raised (CalledProcessError (returncode p)),
     (self, after_run (snd st1) ["sbatch"; path] w)).
Proof.
  pose proof (keeps_prepare B shell_arg save output_path (self, rt)) as Hk.
  unfold Slurm.sbatch, bind. rewrite Hprep in *.
  destruct st1 as [self1 rt1]. cbn [fst snd] in *. subst self1.
  now apply submit_rejected.
Qed.

Lemma sbatch_rejected_by_scheduler_witness :
  let self := {| config := SlurmConfig.__init__ VNone [("job_name", VStr "t")];
                 stdout := Some "Submitted batch job 7"; stderr := Some "";
                 jobs := Some []; slurm_job_id := Some "7" |} in
  Slurm.sbatch (scripted (fun _ => completed 1 "")) VNone false None
    (self, boot)
  = (Raised (CalledProcessError 1),
     (self, {| env := tt; calls := [["sbatch"; "/opt/supa_slurm/t.sh"]];
               class_job_name := None |})).
Proof.
  cbv zeta.
  exact (sbatch_rejected_by_scheduler (scripted (fun _ => completed 1 ""))
           {| config := SlurmConfig.__init__ VNone [("job_name", VStr "t")];
              stdout := Some "Submitted batch job 7"; stderr := Some "";
              jobs := Some []; slurm_job_id := Some "7" |}
           boot VNone false None "/opt/supa_slurm/t.sh"
           ({| config := SlurmConfig.__init__ VNone [("job_name", VStr "t")];
               stdout := Some "Submitted batch job 7"; stderr := Some "";
               jobs := Some []; slurm_job_id := Some "7" |}, boot)
           (completed 1 "") tt eq_refl eq_refl ltac:(discriminate)).
Defined.

(** X17. A configuration without a [job_name], in a program that never
    loaded a configuration from YAML, cannot be submitted: once the output
    directory exists [sbatch] raises [AttributeError]; no file is written,
    no command is run and the manager is as before. *)
Theorem sbatch_needs_job_name {world : Type} (B : Boundary world)
  (self : slurm) (rt : runtime world) (shell_arg : value) (save : bool)
  (output_path : option string) (w1 : world)
  (Hname : dict_get "job_name" (attrs (config self)) = None)
  (Hclass : class_job_name rt = None)
  (Hmkdir : mkdir B (match output_path with
                     | None => module_dir B
                     | Some dir => dir
                     end) (env rt) = (Returned tt, w1)) :
  Slurm.sbatch B shell_arg save output_path (self, rt)
  = (Raised AttributeError,
     (self, {| env := w1; calls := calls rt; class_job_name := None |})).
Proof.
  unfold Slurm.sbatch, Slurm.prepare, Slurm.config_job_name,
    SlurmConfig.job_name, bind, get, lift, on_snd, in_env.
  cbn [fst snd]. rewrite Hmkdir. cbn [fst snd env class_job_name calls].
  rewrite Hclass.
  destruct save; unfold ret; cbn [fst snd config class_job_name];
    now rewrite Hname.
Qed.

Lemma sbatch_needs_job_name_witness :
  fst (Slurm.sbatch (scripted accepting) VNone true None
         (Slurm.__init__ (SlurmConfig.__init__ VNone [("mem", VStr "4G")]),
          boot))
  = Raised AttributeError.
Proof.
  rewrite (sbatch_needs_job_name (scripted accepting)
             (Slurm.__init__ (SlurmConfig.__init__ VNone [("mem", VStr "4G")]))
             boot VNone true None tt eq_refl eq_refl eq_refl).
  reflexivity.
Defined.

(** ** Array submissions *)

Section ArraySubmission.
Context {world : Type} (B : Boundary world).

Lemma submit_array (self : slurm) (rt : runtime world) (path id : string)
  (p : CompletedProcess) (w : world) (arr : value) (vs : list value) :
  SlurmConfig.is_array_job (config self) = true ->
  SlurmConfig.array (config self) = Returned arr ->
  iterate arr = Returned vs ->
  subprocess_run B ["sbatch"; path] (env rt) = (Returned p, w) ->
  returncode p = 0 -> search_job_id (out p) = Some id ->
  Slurm.submit B path (self, rt)
  = match mapM (fun i => Slurm.new_job B id (Some i)) vs
            (submitted self p (Some id), after_run rt ["sbatch"; path] w)
    with
    | (Returned js, st) => (Returned js, (with_jobs (fst st) js, snd st))
    | (Raised e, st) => (Raised e, st)
    end.
Proof.
  intros Harr Hattr Hiter Hrun Hrc Hid.
  unfold Slurm.submit, bind at 1, on_snd, run_checked. cbn [fst snd].
  rewrite Hrun, Hrc. change (0 =? 0) with true. cbv iota. rewrite Hid.
  unfold bind, Slurm.record_submission, Slurm.set_job_id, on_fst, modify, get.
  cbn [fst snd config]. rewrite Harr. unfold lift. rewrite Hattr, Hiter.
  cbn [fst snd config stdout stderr jobs slurm_job_id].
  match goal with
  | |- context [mapM ?f ?l ?s] =>
      change s
        with (submitted self p (Some id), after_run rt ["sbatch"; path] w);
      destruct (mapM f l
                  (submitted self p (Some id),
                   after_run rt ["sbatch"; path] w))
        as [[js|e] [m' rt']]
  end; reflexivity.
Qed.

Lemma new_job_run (m : slurm) (id : string) (v : value) (n : Z)
  (rt : runtime world) (p : CompletedProcess) (w : world) :
  slurm_job_id m = Some id ->
  int v = Returned n ->
  subprocess_run B (inspect id) (env rt) = (Returned p, w) ->
  Slurm.new_job B id (Some v) (m, rt)
  = ((if returncode p =? 0 then
        obind (scontrol_attrs (out p)) (fun d =>
          Returned
            {| job_id := id; array_num := n;
               array_job_id :=
                 if SlurmConfig.is_array_job (config m)
                 then Some (id ++ "_" ++ str_of_Z n) else None;
               submission_details := d |})
      else Raised (CalledProcessError (returncode p))),
     (m, after_run rt (inspect id) w)).
Proof.
  intros Hid Hint Hrun. unfold Slurm.new_job, bind, get, on_snd.
  cbn [fst snd].
  now rewrite (job_init_run B id id m v n rt p w Hid Hint Hrun).
Qed.

Lemma new_jobs_built (m : slurm) (id : string) :
  inspection_succeeds B ->
  slurm_job_id m = Some id ->
  SlurmConfig.is_array_job (config m) = true ->
  forall vs idx rt,
    omap int vs = Returned idx ->
    exists js rt',
      mapM (fun i => Slurm.new_job B id (Some i)) vs (m, rt)
      = (Returned js, (m, rt'))
      /\ map array_num js = idx
      /\ Forall (fun j => job_id j = id) js
      /\ map array_job_id js
         = map (fun i => Some (id ++ "_" ++ str_of_Z i)) idx
      /\ calls rt' = (calls rt ++ map (fun _ => inspect id) idx)%list.
Proof.
  intros Hinsp Hid Harr vs.
  induction vs as [|v vs IH]; intros idx rt Hidx.
  - injection Hidx as <-. exists [], rt. cbn. rewrite app_nil_r.
    repeat split. constructor.
  - cbn [omap] in Hidx.
    destruct (int v) as [n|] eqn:Hn; [|discriminate].
    cbn [obind] in Hidx.
    destruct (omap int vs) as [idx'|] eqn:Hrest; [|discriminate].
    injection Hidx as <-.
    destruct (Hinsp id (env rt)) as (p & Hp & Hrc & d & Hd).
    fold (inspect id) in Hp.
    destruct (subprocess_run B (inspect id) (env rt)) as [r w] eqn:Hrun.
    cbn [fst] in Hp. subst r.
    destruct (IH idx' (after_run rt (inspect id) w) eq_refl)
      as (js & rt' & Hm & Hnum & Hids & Hajs & Hcalls).
    eexists. exists rt'. cbn [mapM]. unfold bind at 1.
    rewrite (new_job_run m id v n rt p w Hid Hn Hrun), Hrc, Hd.
    change (0 =? 0) with true. cbv iota. cbn [obind].
    unfold bind at 1. rewrite Hm. unfold ret.
    split; [reflexivity|]. cbn [map array_num job_id array_job_id].
    rewrite Harr.
    split; [now rewrite Hnum|]. split; [now constructor|].
    split; [now rewrite Hajs|].
    rewrite Hcalls. cbn [after_run calls]. now rewrite <- app_assoc.
Qed.

Lemma new_jobs_refused (m : slurm) (id : string) (bad : value) (e : exn) :
  inspection_succeeds B ->
  slurm_job_id m = Some id ->
  int bad = Raised e ->
  forall good idx rest rt,
    omap int good = Returned idx ->
    exists rt',
      mapM (fun i => Slurm.new_job B id (Some i)) (good ++ bad :: rest)
        (m, rt)
      = (Raised e, (m, rt')).
Proof.
  intros Hinsp Hid Hbad good.
  induction good as [|v vs IH]; intros idx rest rt Hidx.
  - exists rt. change (([] ++ bad :: rest)%list) with (bad :: rest).
    cbn [mapM]. unfold bind at 1.
    unfold Slurm.new_job, bind, get, on_snd, SlurmJob.__init__, lift.
    cbn [fst snd]. now rewrite Hbad.
  - cbn [omap] in Hidx.
    destruct (int v) as [n|] eqn:Hn; [|discriminate].
    cbn [obind] in Hidx.
    destruct (omap int vs) as [idx'|] eqn:Hrest; [|discriminate].
    destruct (Hinsp id (env rt)) as (p & Hp & Hrc & d & Hd).
    fold (inspect id) in Hp.
    destruct (subprocess_run B (inspect id) (env rt)) as [r w] eqn:Hrun.
    cbn [fst] in Hp. subst r.
    destruct (IH idx' rest (after_run rt (inspect id) w) eq_refl)
      as (rt' & Hm).
    exists rt'. change (((v :: vs) ++ bad :: rest)%list)
      with (v :: (vs ++ bad :: rest))%list.
    cbn [mapM]. unfold bind at 1.
    rewrite (new_job_run m id v n rt p w Hid Hn Hrun), Hrc, Hd.
    change (0 =? 0) with true. cbv iota. cbn [obind].
    unfold bind at 1. now rewrite Hm.
Qed.

End ArraySubmission.

(** X18. For an array job whose [array] attribute iterates over values
    that [int] accepts, in an environment where inspection succeeds, an
    accepted submission returns one handle per value, in order: each
    carries the identifier of the submission, the integer of its value
    as array index, and the identifier joined to the index by an
    underscore.  The handles are also kept on the manager, and the
    commands run are the submission followed by one inspection per
    handle. *)
Theorem sbatch_array_handles {world : Type} (B : Boundary world)
  (self : slurm) (rt : runtime world) (shell_arg : value) (save : bool)
  (output_path : option string) (path id : string)
  (st1 : slurm * runtime world) (p : CompletedProcess) (w : world)
  (arr : value) (vs : list value) (idx : list Z)
  (Hinsp : inspection_succeeds B)
  (Harr : SlurmConfig.is_array_job (config self) = true)
  (Hattr : SlurmConfig.array (config self) = Returned arr)
  (Hiter : iterate arr = Returned vs)
  (Hint : omap int vs = Returned idx)
  (Hprep : Slurm.prepare B shell_arg save output_path (self, rt)
           = (Returned path, st1))
  (Hrun : subprocess_run B ["sbatch"; path] (env (snd st1))
          = (Returned p, w))
  (Hrc : returncode p = 0)
  (Hid : search_job_id (out p) = Some id) :
  exists js rt',
    Slurm.sbatch B shell_arg save output_path (self, rt)
    = (Returned js, (with_jobs (submitted self p (Some id)) js, rt'))
    /\ map array_num js = idx
    /\ Forall (fun j => job_id j = id) js
    /\ map array_job_id js
       = map (fun i => Some (id ++ "_" ++ str_of_Z i)) idx
    /\ calls rt'
       = (calls (snd st1)
          ++ ["sbatch"; path] :: map (fun _ => inspect id) idx)%list.
Proof.
  pose proof (keeps_prepare B shell_arg save output_path (self, rt)) as Hk.
  unfold Slurm.sbatch, bind. rewrite Hprep in *.
  destruct st1 as [self1 rt1]. cbn [fst snd] in *. subst self1.
  rewrite (submit_array B self rt1 path id p w arr vs
             Harr Hattr Hiter Hrun Hrc Hid).
  destruct (new_jobs_built B (submitted self p (Some id)) id Hinsp
              eq_refl Harr vs idx (after_run rt1 ["sbatch"; path] w) Hint)
    as (js & rt' & Hm & Hnum & Hids & Hajs & Hcalls).
  exists js, rt'. rewrite Hm. cbn [fst snd].
  split; [reflexivity|]. split; [exact Hnum|]. split; [exact Hids|].
  split; [exact Hajs|].
  rewrite Hcalls. cbn [after_run calls]. now rewrite <- app_assoc.
Qed.

Lemma sbatch_array_handles_witness :
  let self :=
    snd (Slurm.add_arguments [("array", VStr "2-3")]
           (Slurm.__init__
              (SlurmConfig.__init__ VNone [("job_name", VStr "test")]))) in
  exists js rt',
    Slurm.sbatch (scripted accepting) VNone true None (self, boot)
    = (Returned js,
       (with_jobs
          (submitted self (completed 0 ("Submitted batch job 4821" ++ nl))
             (Some "4821")) js, rt'))
    /\ map array_num js = [2; 3]
    /\ Forall (fun j => job_id j = "4821") js
    /\ map array_job_id js = [Some "4821_2"; Some "4821_3"]
    /\ calls rt'
       = [["sbatch"; "/opt/supa_slurm/test.sh"]; inspect "4821";
          inspect "4821"].
Proof.
  cbv zeta.
  apply (sbatch_array_handles (scripted accepting)
           (snd (Slurm.add_arguments [("array", VStr "2-3")]
                   (Slurm.__init__
                      (SlurmConfig.__init__ VNone
                         [("job_name", VStr "test")]))))
           boot VNone true None "/opt/supa_slurm/test.sh" "4821"
           (snd (Slurm.add_arguments [("array", VStr "2-3")]
                   (Slurm.__init__
                      (SlurmConfig.__init__ VNone
                         [("job_name", VStr "test")]))), boot)
           (completed 0 ("Submitted batch job 4821" ++ nl)) tt
           (VRange 2 4 1) [VInt 2; VInt 3] [2; 3]).
  - intros id w. exists (completed 0 "JobId=4821 JobName=test").
    split; [reflexivity|]. split; [reflexivity|].
    exists [("JobId", "4821"); ("JobName", "test")]. reflexivity.
  - reflexivity.
  - reflexivity.
  - reflexivity.
  - reflexivity.
  - reflexivity.
  - reflexivity.
  - reflexivity.
  - reflexivity.
Defined.

(** X19. When the scheduler accepts an array submission but the
    inspection of the job fails for the first index, [sbatch] raises the
    [CalledProcessError] of the inspection although the job has been
    submitted: the manager holds the new identifier and the captured
    output, and an empty list of jobs. *)
Theorem sbatch_array_inspection_fails {world : Type} (B : Boundary world)
  (self : slurm) (rt : runtime world) (shell_arg : value) (save : bool)
  (output_path : option string) (path id : string)
  (st1 : slurm * runtime world) (p p2 : CompletedProcess) (w w2 : world)
  (arr v : value) (vs : list value) (n : Z)
  (Harr : SlurmConfig.is_array_job (config self) = true)
  (Hattr : SlurmConfig.array (config self) = Returned arr)
  (Hiter : iterate arr = Returned (v :: vs))
  (Hint : int v = Returned n)
  (Hprep : Slurm.prepare B shell_arg save output_path (self, rt)
           = (Returned path, st1))
  (Hrun : subprocess_run B ["sbatch"; path] (env (snd st1))
          = (Returned p, w))
  (Hrc : returncode p = 0)
  (Hid : search_job_id (out p) = Some id)
  (Hrun2 : subprocess_run B (inspect id) w = (Returned p2, w2))
  (Hrc2 : returncode p2 <> 0) :
  Slurm.sbatch B shell_arg save output_path (self, rt)
  = (Raised (CalledProcessError (returncode p2)),
     (submitted self p (Some id),
      after_run (after_run (snd st1) ["sbatch"; path] w) (inspect id) w2))
  /\ jobs (submitted self p (Some id)) = Some [].
Proof.
  split; [|reflexivity].
  pose proof (keeps_prepare B shell_arg save output_path (self, rt)) as Hk.
  unfold Slurm.sbatch, bind. rewrite Hprep in *.
  destruct st1 as [self1 rt1]. cbn [fst snd] in *. subst self1.
  rewrite (submit_array B self rt1 path id p w arr (v :: vs)
             Harr Hattr Hiter Hrun Hrc Hid).
  cbn [mapM]. unfold bind at 1.
  rewrite (new_job_run B (submitted self p (Some id)) id v n
             (after_run rt1 ["sbatch"; path] w) p2 w2 eq_refl Hint Hrun2).
  now destruct (Z.eqb_spec (returncode p2) 0).
Qed.

Lemma sbatch_array_inspection_fails_witness :
  let answer argv :=
    match argv with
    | "sbatch" :: _ => completed 0 "Submitted batch job 9"
    | _ => completed 1 ""
    end in
  let self :=
    snd (Slurm.add_arguments [("array", VInt 1)]
           (Slurm.__init__
              (SlurmConfig.__init__ VNone [("job_name", VStr "test")]))) in
  fst (Slurm.sbatch (scripted answer) VNone false None (self, boot))
  = Raised (CalledProcessError 1).
Proof.
  cbv zeta.
  rewrite (proj1 (sbatch_array_inspection_fails
                    (scripted (fun argv =>
                       match argv with
                       | "sbatch" :: _ => completed 0 "Submitted batch job 9"
                       | _ => completed 1 ""
                       end))
                    (snd (Slurm.add_arguments [("array", VInt 1)]
                            (Slurm.__init__
                               (SlurmConfig.__init__ VNone
                                  [("job_name", VStr "test")]))))
                    boot VNone false None "/opt/supa_slurm/test.sh" "9"
                    (snd (Slurm.add_arguments [("array", VInt 1)]
                            (Slurm.__init__
                               (SlurmConfig.__init__ VNone
                                  [("job_name", VStr "test")]))), boot)
                    (completed 0 "Submitted batch job 9") (completed 1 "")
                    tt tt (VRange 0 2 1) (VInt 0) [VInt 1] 0
                    eq_refl eq_refl eq_refl eq_refl eq_refl eq_refl eq_refl
                    eq_refl eq_refl ltac:(discriminate))).
  reflexivity.
Defined.

Section TextArray.

Lemma int_of_one_char (c : ascii) :
  if is_digit c
  then exists n, int_of_str (String c "") = Returned n
  else int_of_str (String c "") = Raised ValueError.
Proof.
  destruct c as [[|] [|] [|] [|] [|] [|] [|] [|]]; cbv;
    try reflexivity; eexists; reflexivity.
Qed.

Lemma chars_app (a b : string) : chars (a ++ b) = (chars a ++ chars b)%list.
Proof.
  induction a as [|c r IH]; cbn [append chars app]; [reflexivity|].
  now rewrite IH.
Qed.

Lemma int_of_digit_chars (s : string) :
  digits_only s = true ->
  exists idx, omap int (map VStr (chars s)) = Returned idx.
Proof.
  induction s as [|c r IH]; cbn [digits_only chars map omap].
  - intros _. now exists [].
  - intros H. apply andb_prop in H as [Hc Hr].
    destruct (IH Hr) as (idx & ->).
    pose proof (int_of_one_char c) as H1. rewrite Hc in H1.
    destruct H1 as (n & Hn). cbn [int]. rewrite Hn. cbn [obind].
    now exists (n :: idx).
Qed.

End TextArray.

(** X20. An [array] attribute that is still a text, as it is when the
    directive came with the constructor (from the YAML defaults, say) and
    not through [add_arguments], is iterated character by character:
    when the text has a character that is no digit, [-] for one, an
    accepted submission raises [ValueError] in an environment where
    inspection succeeds, and the manager is left with an empty list of
    jobs. *)
Theorem sbatch_text_array_raises {world : Type} (B : Boundary world)
  (self : slurm) (rt : runtime world) (shell_arg : value) (save : bool)
  (output_path : option string) (path id : string)
  (st1 : slurm * runtime world) (p : CompletedProcess) (w : world)
  (pre post : string) (c : ascii)
  (Hinsp : inspection_succeeds B)
  (Harr : SlurmConfig.is_array_job (config self) = true)
  (Hattr : SlurmConfig.array (config self)
           = Returned (VStr (pre ++ String c post)))
  (Hpre : digits_only pre = true)
  (Hc : is_digit c = false)
  (Hprep : Slurm.prepare B shell_arg save output_path (self, rt)
           = (Returned path, st1))
  (Hrun : subprocess_run B ["sbatch"; path] (env (snd st1))
          = (Returned p, w))
  (Hrc : returncode p = 0)
  (Hid : search_job_id (out p) = Some id) :
  exists rt',
    Slurm.sbatch B shell_arg save output_path (self, rt)
    = (Raised ValueError, (submitted self p (Some id), rt'))
    /\ jobs (submitted self p (Some id)) = Some [].
Proof.
  pose proof (keeps_prepare B shell_arg save output_path (self, rt)) as Hk.
  unfold Slurm.sbatch, bind. rewrite Hprep in *.
  destruct st1 as [self1 rt1]. cbn [fst snd] in *. subst self1.
  rewrite (submit_array B self rt1 path id p w _ _
             Harr Hattr eq_refl Hrun Hrc Hid).
  rewrite chars_app, map_app. cbn [chars map].
  destruct (int_of_digit_chars pre Hpre) as (idx & Hidx).
  pose proof (int_of_one_char c) as Hbad. rewrite Hc in Hbad.
  destruct (new_jobs_refused B (submitted self p (Some id)) id
              (VStr (String c "")) ValueError Hinsp eq_refl Hbad
              (map VStr (chars pre)) idx (map VStr (chars post))
              (after_run rt1 ["sbatch"; path] w) Hidx) as (rt' & Hm).
  exists rt'. rewrite Hm. split; reflexivity.
Qed.

Lemma sbatch_text_array_raises_witness :
  let self := Slurm.__init__
                (SlurmConfig.__init__ VNone
                   [("job_name", VStr "test"); ("array", VStr "0-3")]) in
  fst (Slurm.sbatch (scripted accepting) VNone true None (self, boot))
  = Raised ValueError.
Proof.
  cbv zeta.
  destruct (sbatch_text_array_raises (scripted accepting)
              (Slurm.__init__
                 (SlurmConfig.__init__ VNone
                    [("job_name", VStr "test"); ("array", VStr "0-3")]))
              boot VNone true None "/opt/supa_slurm/test.sh" "4821"
              (Slurm.__init__
                 (SlurmConfig.__init__ VNone
                    [("job_name", VStr "test"); ("array", VStr "0-3")]), boot)
              (completed 0 ("Submitted batch job 4821" ++ nl)) tt
              "0" "3" "-"%char
              ltac:(intros id w;
                    exists (completed 0 "JobId=4821 JobName=test");
                    split; [reflexivity|]; split; [reflexivity|];
                    exists [("JobId", "4821"); ("JobName", "test")];
                    reflexivity)
              eq_refl eq_refl eq_refl eq_refl eq_refl eq_refl eq_refl
              eq_refl) as (rt' & E & _).
  now rewrite E.
Defined.

(** ** The job identifier *)

Section Identifier.

Lemma take_digits_split (t : string) :
  exists rest,
    t = take_digits t ++ rest
    /\ digits_only (take_digits t) = true
    /\ (forall c r, rest = String c r -> is_digit c = false).
Proof.
  induction t as [|c r IH]; cbn [take_digits].
  - exists "". repeat split. discriminate.
  - destruct (is_digit c) eqn:Hc.
    + destruct IH as (rest & E & Hd & Hrest). exists rest.
      cbn [append digits_only]. rewrite Hc, Hd. repeat split; [|exact Hrest].
      now rewrite <- E.
    + exists (String c r). repeat split. now intros ? ? [= <- _].
Qed.

Lemma starts_with_app (p s : string) : starts_with p (p ++ s) = true.
Proof.
  induction p as [|a p IH]; [reflexivity|].
  cbn [append starts_with]. now rewrite Ascii.eqb_refl.
Qed.

Lemma drop_app (p s : string) : drop (String.length p) (p ++ s) = s.
Proof. induction p as [|a p IH]; [reflexivity|exact IH]. Qed.

End Identifier.

(** X21. The identifier that [sbatch] reads from the output of the submit
    command is never empty and holds decimal digits only: it is the
    longest run of digits that follows the first place in the output
    where the acknowledgment is followed by a digit. *)
Theorem job_identifier_is_leftmost_digits (s id : string)
  (Hfound : search_job_id s = Some id) :
  id <> ""
  /\ digits_only id = true
  /\ exists pre rest,
      s = pre ++ ack ++ id ++ rest
      /\ (forall c r, rest = String c r -> is_digit c = false)
      /\ (forall pre' d post',
            is_digit d = true -> s = pre' ++ ack ++ String d post' ->
            (String.length pre <= String.length pre')%nat).
Proof.
  revert id Hfound. induction s as [|c r IH]; intros id Hfound.
  - discriminate.
  - unfold search_job_id in Hfound; fold search_job_id in Hfound.
    destruct (starts_with ack (String c r)) eqn:Hs.
    + pose proof (starts_with_drop _ _ Hs) as E.
      destruct (take_digits_split (drop (String.length ack) (String c r)))
        as (rest & Et & Hd & Hrest).
      destruct (take_digits (drop (String.length ack) (String c r)))
        as [|x ds] eqn:Ht.
      * (* the acknowledgment is here, without a number *)
        destruct (IH id Hfound) as (Hne & Hdig & pre & rest' & E' & Hr & Hl).
        split; [exact Hne|]. split; [exact Hdig|].
        exists (String c pre), rest'. split; [cbn [append]; now rewrite <- E'|].
        split; [exact Hr|].
        intros pre' d post' Hdg E2. destruct pre' as [|c' pre'].
        -- exfalso. cbn [append] in E2.
           assert (drop (String.length ack) (String c r) = String d post')
             as Hdrop by (rewrite E2; apply drop_app).
           rewrite Hdrop in Ht. cbn [take_digits] in Ht.
           now rewrite Hdg in Ht.
        -- cbn [append] in E2. injection E2 as _ E2. cbn [String.length].
           apply le_n_S. now apply (Hl pre' d post').
      * injection Hfound as <-.
        split; [discriminate|]. split; [exact Hd|].
        exists "", rest.
        split; [|split; [exact Hrest|intros; cbn [String.length]; lia]].
        change ("" ++ ack ++ String x ds ++ rest)
          with (ack ++ (String x ds ++ rest)).
        rewrite <- Et. exact E.
    + destruct (IH id Hfound) as (Hne & Hdig & pre & rest' & E' & Hr & Hl).
      split; [exact Hne|]. split; [exact Hdig|].
      exists (String c pre), rest'. split; [cbn [append]; now rewrite <- E'|].
      split; [exact Hr|].
      intros pre' d post' Hdg E2. destruct pre' as [|c' pre'].
      * exfalso. cbn [append] in E2. rewrite E2 in Hs.
        now rewrite starts_with_app in Hs.
      * cbn [append] in E2. injection E2 as _ E2. cbn [String.length].
        apply le_n_S. now apply (Hl pre' d post').
Qed.

Lemma job_identifier_is_leftmost_digits_witness :
  digits_only "12" = true
  /\ exists pre rest,
      "error; Submitted batch job 12a Submitted batch job 345"
      = pre ++ ack ++ "12" ++ rest
      /\ (forall c r, rest = String c r -> is_digit c = false)
      /\ (forall pre' d post',
            is_digit d = true ->
            "error; Submitted batch job 12a Submitted batch job 345"
            = pre' ++ ack ++ String d post' ->
            (String.length pre <= String.length pre')%nat).
Proof.
  exact (proj2 (job_identifier_is_leftmost_digits
                  "error; Submitted batch job 12a Submitted batch job 345"
                  "12" eq_refl)).
Defined.

(** ** What a submission leaves alone *)

Section ConfigKept.
Context {world : Type} (B : Boundary world).

#[local] Abbreviation kept m := (@keeps_config world _ m).

Lemma kept_bind {A C} (m : M (@Slurm.state world) A)
  (k : A -> M (@Slurm.state world) C) :
  kept m -> (forall a, kept (k a)) -> kept (bind m k).
Proof.
  intros Hm Hk st. unfold bind. specialize (Hm st).
  destruct (m st) as [[a|e] st']; cbn [snd] in *; [|exact Hm].
  now rewrite Hk.
Qed.

Lemma kept_of_manager {A} (m : M (@Slurm.state world) A) :
  keeps_manager m -> kept m.
Proof. intros H st. now rewrite H. Qed.

Lemma kept_ret {A} (a : A) : kept (ret a).
Proof. now intros st. Qed.

Lemma kept_raise {A} (e : exn) : kept (@raise _ A e).
Proof. now intros st. Qed.

Lemma kept_get : kept get.
Proof. now intros st. Qed.

Lemma kept_lift {A} (x : outcome A) : kept (lift x).
Proof. now intros st. Qed.

Lemma kept_on_snd {A} (m : M (runtime world) A) : kept (on_snd m).
Proof. intros st. unfold on_snd. now destruct (m (snd st)). Qed.

Lemma kept_mapM {A C} (f : A -> M (@Slurm.state world) C) (l : list A) :
  (forall a, kept (f a)) -> kept (mapM f l).
Proof.
  intros Hf. induction l as [|x l IH]; [apply kept_ret|].
  cbn [mapM]. apply kept_bind; [apply Hf|intros y].
  apply kept_bind; [exact IH|intros ys; apply kept_ret].
Qed.

Lemma kept_submit (path : string) : kept (Slurm.submit B path).
Proof.
  unfold Slurm.submit.
  apply kept_bind; [apply kept_on_snd|intros p].
  apply kept_bind; [now intros st|intros _].
  apply kept_bind.
  - destruct (search_job_id (out p)) as [id|]; [|apply kept_ret].
    apply kept_bind; [now intros st|intros _].
    apply kept_bind; [apply kept_get|intros st].
    destruct (SlurmConfig.is_array_job (config (fst st))).
    + apply kept_bind; [apply kept_lift|intros arr].
      apply kept_bind; [apply kept_lift|intros indices].
      apply kept_bind; [|now intros js st'].
      apply kept_mapM. intros i. unfold Slurm.new_job.
      apply kept_bind; [apply kept_get|intros; apply kept_on_snd].
    + apply kept_bind; [|now intros j st'].
      unfold Slurm.new_job.
      apply kept_bind; [apply kept_get|intros; apply kept_on_snd].
  - intros _. apply kept_bind; [apply kept_get|intros st].
    destruct (jobs (fst st)); [apply kept_ret|apply kept_raise].
Qed.

End ConfigKept.

(** X22. However [sbatch] ends, the configuration of the manager is
    afterwards what it was before: shell, directives, commands and
    attributes are read and never written. *)
Theorem sbatch_keeps_configuration {world : Type} (B : Boundary world)
  (self : slurm) (rt : runtime world) (shell_arg : value) (save : bool)
  (output_path : option string) :
  config (fst (snd (Slurm.sbatch B shell_arg save output_path (self, rt))))
  = config self.
Proof.
  change (config self) with (config (fst (self, rt))).
  generalize (self, rt). unfold Slurm.sbatch.
  apply kept_bind; [|intros path; apply kept_submit].
  apply kept_of_manager, keeps_prepare.
Qed.

(** ** Waiting for a job *)

Section Wait.
Context {world : Type} (B : Boundary world).
Variable sleep : Z -> world -> outcome unit * world.

Lemma hold_step_queued (fuel : nat) (self : slurm_job) (interval : Z)
  (rt : runtime world) :
  fst (SlurmJob.is_queued B self rt) = Returned true ->
  fst (sleep interval (env (snd (SlurmJob.is_queued B self rt))))
  = Returned tt ->
  hold_for_completion B sleep (S fuel) self interval rt
  = hold_for_completion B sleep fuel self interval
      (after_poll B sleep self interval rt).
Proof.
  intros Hq Hs. cbn [hold_for_completion]. unfold after_poll, bind.
  destruct (SlurmJob.is_queued B self rt) as [r rt1].
  cbn [fst snd] in Hq, Hs. subst r. unfold time_sleep, in_env.
  destruct (sleep interval (env rt1)) as [o w1]. cbn [fst] in Hs.
  now subst o.
Qed.

Lemma hold_step_interrupted (fuel : nat) (self : slurm_job) (interval : Z)
  (rt : runtime world) (e : exn) :
  fst (SlurmJob.is_queued B self rt) = Returned true ->
  fst (sleep interval (env (snd (SlurmJob.is_queued B self rt))))
  = Raised e ->
  hold_for_completion B sleep (S fuel) self interval rt
  = (Raised e, after_poll B sleep self interval rt).
Proof.
  intros Hq Hs. cbn [hold_for_completion]. unfold after_poll, bind.
  destruct (SlurmJob.is_queued B self rt) as [r rt1].
  cbn [fst snd] in Hq, Hs. subst r. unfold time_sleep, in_env.
  destruct (sleep interval (env rt1)) as [o w1]. cbn [fst] in Hs.
  now subst o.
Qed.

Lemma hold_step_done (fuel : nat) (self : slurm_job) (interval : Z)
  (rt : runtime world) :
  fst (SlurmJob.is_queued B self rt) = Returned false ->
  hold_for_completion B sleep (S fuel) self interval rt
  = (Returned (Some tt), snd (SlurmJob.is_queued B self rt)).
Proof.
  intros Hq. cbn [hold_for_completion]. unfold bind.
  destruct (SlurmJob.is_queued B self rt) as [r rt1]. cbn [fst] in Hq.
  now subst r.
Qed.

End Wait.

(** X23. If the job is found queued at the first [k] polls, each of the
    sleeps that follow them returns, and the job is not queued at the
    next poll, then [hold_for_completion] returns at that poll, after
    exactly [k] sleeps: with more than [k] turns of the loop it returns
    in the state reached by that poll, and with [k] turns or fewer it is
    still waiting. *)
Theorem hold_returns_at_first_idle_poll {world : Type} (B : Boundary world)
  (sleep : Z -> world -> outcome unit * world) (self : slurm_job)
  (interval : Z) (k : nat) (rt : runtime world)
  (Hqueued : forall i, (i < k)%nat ->
      fst (SlurmJob.is_queued B self
             (Nat.iter i (after_poll B sleep self interval) rt))
      = Returned true)
  (Hsleep : forall i, (i < k)%nat ->
      fst (sleep interval
             (env (snd (SlurmJob.is_queued B self
                          (Nat.iter i (after_poll B sleep self interval)
                             rt)))))
      = Returned tt)
  (Hidle : fst (SlurmJob.is_queued B self
                  (Nat.iter k (after_poll B sleep self interval) rt))
           = Returned false) :
  (forall fuel, (k < fuel)%nat ->
     hold_for_completion B sleep fuel self interval rt
     = (Returned (Some tt),
        snd (SlurmJob.is_queued B self
               (Nat.iter k (after_poll B sleep self interval) rt))))
  /\ (forall fuel, (fuel <= k)%nat ->
     fst (hold_for_completion B sleep fuel self interval rt) = Returned None).
Proof.
  revert rt Hqueued Hsleep Hidle.
  induction k as [|k IH]; intros rt Hqueued Hsleep Hidle.
  - split.
    + intros [|fuel] Hf; [lia|]. now apply hold_step_done.
    + intros fuel Hf. assert (fuel = O) as -> by lia. reflexivity.
  - rewrite Nat.iter_succ_r in Hidle.
    assert (fst (SlurmJob.is_queued B self rt) = Returned true) as H0
        by (apply (Hqueued O); lia).
    assert (fst (sleep interval (env (snd (SlurmJob.is_queued B self rt))))
            = Returned tt) as H1
        by (apply (Hsleep O); lia).
    destruct (IH (after_poll B sleep self interval rt)) as [Hret Hwait].
    + intros i Hi. rewrite <- Nat.iter_succ_r. apply Hqueued. lia.
    + intros i Hi. rewrite <- Nat.iter_succ_r. apply Hsleep. lia.
    + exact Hidle.
    + split.
      * intros [|fuel] Hf; [lia|].
        rewrite (hold_step_queued B sleep fuel self interval rt H0 H1).
        rewrite Nat.iter_succ_r. apply Hret. lia.
      * intros [|fuel] Hf; [reflexivity|].
        rewrite (hold_step_queued B sleep fuel self interval rt H0 H1).
        apply Hwait. lia.
Qed.

Lemma hold_returns_at_first_idle_poll_witness :
  hold_for_completion finishing (clock elapse) 3
    {| job_id := "7"; array_num := 0; array_job_id := None;
       submission_details := [] |} 3
    {| env := 5%nat; calls := []; class_job_name := None |}
  = (Returned (Some tt),
     {| env := 0%nat;
        calls := [["squeue"; "-j"; "7"; "-h"; "-o"; "%T"];
                  ["squeue"; "-j"; "7"; "-h"; "-o"; "%T"];
                  ["squeue"; "-j"; "7"; "-h"; "-o"; "%T"]];
        class_job_name := None |}).
Proof.
  apply (proj1 (hold_returns_at_first_idle_poll finishing (clock elapse)
                  {| job_id := "7"; array_num := 0; array_job_id := None;
                     submission_details := [] |} 3 2
                  {| env := 5%nat; calls := []; class_job_name := None |}
                  ltac:(intros [|[|i]] Hi; [reflexivity|reflexivity|lia])
                  ltac:(intros [|[|i]] Hi; [reflexivity|reflexivity|lia])
                  eq_refl) 3%nat).
  lia.
Defined.

(** X24. While the scheduler keeps reporting the job as pending or
    running and the sleeps return, [hold_for_completion] does not return,
    however many turns its loop is given.  When the sleep after the
    first poll raises, as it does for a negative interval or one too
    large for the clock, [hold_for_completion] raises the same error
    right after that poll. *)
Theorem hold_waits_while_queued {world : Type} (B : Boundary world)
  (sleep : Z -> world -> outcome unit * world) (self : slurm_job)
  (interval : Z)
  (Hqueued : forall rt, fst (SlurmJob.is_queued B self rt) = Returned true) :
  ((forall w, fst (sleep interval w) = Returned tt) ->
   forall fuel rt,
     fst (hold_for_completion B sleep fuel self interval rt) = Returned None)
  /\ (forall e rt,
      fst (sleep interval (env (snd (SlurmJob.is_queued B self rt))))
      = Raised e ->
      forall fuel,
        hold_for_completion B sleep (S fuel) self interval rt
        = (Raised e, after_poll B sleep self interval rt)
        /\ calls (after_poll B sleep self interval rt)
           = calls (snd (SlurmJob.is_queued B self rt))).
Proof.
  split.
  - intros Hs fuel. induction fuel as [|fuel IH]; intros rt; [reflexivity|].
    rewrite (hold_step_queued B sleep fuel self interval rt (Hqueued rt)
               (Hs _)).
    apply IH.
  - intros e rt He fuel. split.
    + exact (hold_step_interrupted B sleep fuel self interval rt e
               (Hqueued rt) He).
    + unfold after_poll, bind. pose proof (Hqueued rt) as Hq.
      destruct (SlurmJob.is_queued B self rt) as [r rt1]. cbn [fst] in Hq.
      subst r. cbn [snd]. unfold time_sleep, in_env.
      now destruct (sleep interval (env rt1)).
Qed.

Lemma hold_waits_while_queued_witness :
  fst (hold_for_completion (scripted accepting) (clock (fun _ w => w)) 50
         {| job_id := "4821"; array_num := 0; array_job_id := None;
            submission_details := [] |} 3 boot)
  = Returned None
  /\ fst (hold_for_completion (scripted accepting) (clock (fun _ w => w)) 50
            {| job_id := "4821"; array_num := 0; array_job_id := None;
               submission_details := [] |} (2 ^ 70) boot)
     = Raised OverflowError.
Proof.
  split.
  - apply (proj1 (hold_waits_while_queued (scripted accepting)
                    (clock (fun _ w => w))
                    {| job_id := "4821"; array_num := 0;
                       array_job_id := None; submission_details := [] |} 3
                    (fun rt => eq_refl))).
    reflexivity.
  - rewrite (proj1 (proj2 (hold_waits_while_queued (scripted accepting)
                             (clock (fun _ w => w))
                             {| job_id := "4821"; array_num := 0;
                                array_job_id := None;
                                submission_details := [] |} (2 ^ 70)
                             (fun rt => eq_refl))
                      OverflowError boot eq_refl 49%nat)).
    reflexivity.
Defined.

(** ** Status of an array job *)

Section SeveralLines.

Lemma rstrip_keeps_front (a b : string) :
  rstrip b <> "" -> rstrip (a ++ b) = a ++ rstrip b.
Proof.
  intros Hb. induction a as [|c r IH]; [reflexivity|].
  cbn [append rstrip]. rewrite IH.
  destruct (r ++ rstrip b) eqn:E; [|reflexivity].
  exfalso. apply Hb. destruct r; [exact E|discriminate].
Qed.

Lemma lacks_app (x : ascii) (a b : string) :
  lacks x (a ++ b) = lacks x a && lacks x b.
Proof.
  induction a as [|c r IH]; cbn [append lacks]; [reflexivity|].
  now rewrite IH, andb_assoc.
Qed.

End SeveralLines.

(** X25. The status query names the job, not the array task.  When it
    lists two tasks, each on its own line, the status is the two lines
    together, which is neither [PENDING] nor [RUNNING]: [is_queued] is
    false whatever the states of the tasks are. *)
Theorem several_tasks_are_never_queued {world : Type} (B : Boundary world)
  (self : slurm_job) (rt : runtime world) (p : CompletedProcess) (w : world)
  (s1 s2 : string)
  (Hrun : subprocess_run B ["squeue"; "-j"; job_id self; "-h"; "-o"; "%T"]
            (env rt) = (Returned p, w))
  (Hrc : returncode p = 0)
  (H1 : no_space s1 = true) (H1' : s1 <> "")
  (H2 : no_space s2 = true) (H2' : s2 <> "")
  (Hout : out p = s1 ++ nl ++ s2 ++ nl) :
  fst (SlurmJob.get_status B self rt) = Returned (s1 ++ nl ++ s2)
  /\ fst (SlurmJob.is_queued B self rt) = Returned false.
Proof.
  assert (strip (s1 ++ nl ++ s2) = s1 ++ nl ++ s2) as Hstrip.
  { unfold strip. destruct s1 as [|c r]; [congruence|].
    cbn [no_space] in H1. apply andb_prop in H1 as [Hc Hr].
    cbn [append lstrip]. destruct (is_space c); [discriminate|].
    change (String c (r ++ nl ++ s2)) with (String c r ++ nl ++ s2).
    rewrite rstrip_keeps_front.
    - f_equal. rewrite rstrip_keeps_front;
        rewrite (rstrip_no_space _ H2); [reflexivity|exact H2'].
    - rewrite rstrip_keeps_front;
        rewrite (rstrip_no_space _ H2); [|exact H2'].
      destruct s2; [congruence|discriminate]. }
  assert (fst (SlurmJob.get_status B self rt) = Returned (s1 ++ nl ++ s2))
    as Hs.
  { rewrite (get_status_run B self rt p w Hrun), Hrc, Hout. cbn [fst].
    assert (String.eqb (s1 ++ nl ++ s2 ++ nl) "" = false) as ->.
    { destruct s1; [congruence|reflexivity]. }
    cbn [andb negb Z.eqb].
    replace (s1 ++ nl ++ s2 ++ nl) with ((s1 ++ nl ++ s2) ++ nl)
      by now rewrite !append_assoc.
    now rewrite strip_app_nl, Hstrip. }
  split; [exact Hs|].
  unfold SlurmJob.is_queued, bind.
  destruct (SlurmJob.get_status B self rt) as [r rt1]. cbn [fst] in Hs.
  subst r. cbn [fst ret]. f_equal.
  assert (forall word, lacks (ascii_of_nat 10) word = true ->
                       String.eqb (s1 ++ nl ++ s2) word = false) as Hword.
  { intros word Hw. apply String.eqb_neq. intros E. rewrite <- E in Hw.
    rewrite lacks_app in Hw. apply andb_prop in Hw as [_ Hw].
    cbn in Hw. discriminate. }
  now rewrite !Hword.
Qed.

Lemma several_tasks_are_never_queued_witness :
  fst (SlurmJob.is_queued
         (scripted (fun _ => completed 0 ("PENDING" ++ nl ++ "PENDING" ++ nl)))
         {| job_id := "4821"; array_num := 0; array_job_id := Some "4821_0";
            submission_details := [] |} boot)
  = Returned false.
Proof.
  apply (proj2 (several_tasks_are_never_queued
                  (scripted
                     (fun _ => completed 0
                                 ("PENDING" ++ nl ++ "PENDING" ++ nl)))
                  {| job_id := "4821"; array_num := 0;
                     array_job_id := Some "4821_0";
                     submission_details := [] |}
                  boot (completed 0 ("PENDING" ++ nl ++ "PENDING" ++ nl)) tt
                  "PENDING" "PENDING"
                  eq_refl eq_refl eq_refl ltac:(discriminate) eq_refl
                  ltac:(discriminate) eq_refl)).
Defined.

(** ** Loading the defaults *)

Section Defaults.

Lemma without_shell_distinct (data : dict) :
  NoDup (map fst data) ->
  NoDup (map fst
           (filter (fun kv => negb (String.eqb (fst kv) "shell")) data)).
Proof.
  induction data as [|[k v] r IH]; intros Hnd; [constructor|].
  inversion Hnd as [|? ? Hk Hr]; subst. cbn [filter fst].
  destruct (String.eqb k "shell"); cbn [negb]; [now apply IH|].
  cbn [map fst]. constructor; [|now apply IH].
  intros Hin. apply Hk. apply in_map_iff in Hin as ([k' v'] & <- & Hin).
  apply filter_In in Hin as [Hin _]. apply in_map_iff. now exists (k', v').
Qed.

Lemma without_shell_lacks_shell (data : dict) :
  ~ In "shell"
      (map fst (filter (fun kv => negb (String.eqb (fst kv) "shell")) data)).
Proof.
  intros Hin. apply in_map_iff in Hin as ([k v] & E & Hin).
  apply filter_In in Hin as [_ Hk]. cbn [fst] in E, Hk. subst k.
  discriminate.
Qed.

Lemma without_shell_get (data : dict) (k : string) :
  k <> "shell" ->
  dict_get k (filter (fun kv => negb (String.eqb (fst kv) "shell")) data)
  = dict_get k data.
Proof.
  intros Hk. induction data as [|[k0 v0] r IH]; [reflexivity|].
  cbn [filter fst dict_get].
  destruct (String.eqb_spec k0 "shell") as [->|Hne]; cbn [negb].
  - apply String.eqb_neq in Hk. now rewrite Hk.
  - cbn [dict_get]. now rewrite IH.
Qed.

End Defaults.

(** X26. [from_yaml] sets the class attribute [job_name] to the empty
    text before it opens its file, whether or not the loading succeeds,
    and runs no command.  A mapping loaded with names of directives as
    keys gives a configuration that holds the entries other than
    [shell], in the order of the file, as its directives and as its
    attributes, and no commands; the entry [shell] is taken as the
    interpreter when its value is truthy, and [/bin/bash] is the
    interpreter otherwise; the job name read from the configuration is
    the loaded one, and the empty text when the mapping has none.  A
    failure of the loading is raised unchanged. *)
Theorem from_yaml_sets_class_job_name {world : Type} (B : Boundary world)
  (path : string) (rt : runtime world) (r : outcome dict) (w : world)
  (Hload : yaml_safe_load B path (env rt) = (r, w)) :
  snd (SlurmConfig.from_yaml B path rt)
  = {| env := w; calls := calls rt; class_job_name := Some (VStr "") |}
  /\ (forall data,
        r = Returned data ->
        NoDup (map fst data) ->
        directive_names data = true ->
        exists c,
          fst (SlurmConfig.from_yaml B path rt) = Returned c
          /\ _args c
             = filter (fun kv => negb (String.eqb (fst kv) "shell")) data
          /\ attrs c = _args c
          /\ _commands c = []
          /\ shell c
             = match dict_get "shell" data with
               | Some v => if truthy v then v else VStr "/bin/bash"
               | None => VStr "/bin/bash"
               end
          /\ SlurmConfig.job_name
               (class_job_name (snd (SlurmConfig.from_yaml B path rt))) c
             = Returned match dict_get "job_name" data with
                        | Some v => v
                        | None => VStr ""
                        end)
  /\ (forall e,
        r = Raised e -> fst (SlurmConfig.from_yaml B path rt) = Raised e).
Proof.
  unfold SlurmConfig.from_yaml, bind, modify, in_env.
  cbn [env calls class_job_name]. rewrite Hload.
  split; [now destruct r|]. split.
  - intros data -> Hnd _. cbn [fst snd ret].
    eexists. split; [reflexivity|].
    unfold SlurmConfig.__init__.
    match goal with
    | |- context [fold_left ?f ?l ?c0] =>
        destruct (init_fold l c0 (without_shell_distinct data Hnd)
                    (without_shell_lacks_shell data)
                    (fun _ _ => eq_refl) (fun _ _ => eq_refl))
          as (Ha & Hb & Hc & Hs)
    end.
    cbn [_args attrs _commands shell] in Ha, Hb, Hc, Hs.
    rewrite app_nil_l in Ha, Hb.
    split; [exact Ha|]. split; [now rewrite Ha, Hb|].
    split; [exact Hc|]. split.
    + rewrite Hs. now destruct (dict_get "shell" data).
    + unfold SlurmConfig.job_name. cbn [class_job_name].
      rewrite Hb, without_shell_get by discriminate.
      now destruct (dict_get "job_name" data).
  - now intros e ->.
Qed.

Lemma from_yaml_sets_class_job_name_witness :
  exists c,
    SlurmConfig.from_yaml
      (loading [("shell", VStr "/bin/zsh"); ("partition", VStr "gpu");
                ("mem", VStr "4G")])
      "/opt/supa_slurm/configs/slurm_default.yaml" boot
    = (Returned c,
       {| env := tt; calls := []; class_job_name := Some (VStr "") |})
    /\ _args c = [("partition", VStr "gpu"); ("mem", VStr "4G")]
    /\ shell c = VStr "/bin/zsh"
    /\ SlurmConfig.job_name (Some (VStr "")) c = Returned (VStr "").
Proof.
  destruct (from_yaml_sets_class_job_name
              (loading [("shell", VStr "/bin/zsh"); ("partition", VStr "gpu");
                        ("mem", VStr "4G")])
              "/opt/supa_slurm/configs/slurm_default.yaml" boot
              (Returned [("shell", VStr "/bin/zsh"); ("partition", VStr "gpu");
                         ("mem", VStr "4G")]) tt eq_refl)
    as (Hstate & Hloaded & _).
  destruct (Hloaded _ eq_refl
              ltac:(repeat constructor; simpl; intuition discriminate)
              eq_refl) as (c & Hc & Ha & _ & _ & Hs & Hj).
  exists c. split; [|split; [exact Ha|split; [exact Hs|exact Hj]]].
  rewrite (surjective_pairing (SlurmConfig.from_yaml _ _ _)).
  now rewrite Hc, Hstate.
Defined.
